(** * Hillwind data-engineering pipeline: a shallow embedding

    Two programs are embedded here.

    - [src/etl.py]: the incremental pandas pipeline ([ingest_data],
      [clean_data], [enrich_data], [save_outputs], [run_etl]) together with
      the watermark file helpers.
    - [src/sql_analysis.py]: the three DuckDB queries of [run_sql_analysis]
      (plan gaps, claim-cost spikes, roster mismatch), embedded as list
      programs, one definition per common table expression.

    Conventions of the embedding.

    - A data frame is a list of column names and a list of labelled rows; a
      row is a finite map from column names to cells.  The label is the
      pandas index.
    - A cell is [VNull] (NaN, NaT or None), text, an integer or a timestamp.
      In a date column [VTs t] stands for a value that pandas reads as the
      instant [t] (nanoseconds since the Unix epoch) and [VStr s] for text
      that is not a date.
    - The three files the pipeline keeps between runs (watermark, canonical
      store, validation ledger) form the record [FS]; [None] is an absent
      file.  The wall clock read by [update_high_water_mark] is an argument.
    - A function that can raise returns an [option]; [None] is a raised
      exception, after which nothing is said about the files.  The reader
      raises on a missing date column, on a watermark outside the range of
      [pd.Timestamp] and on a date column that still holds text; the run
      also raises when [clean_data] or [enrich_data] index a column that
      the frame lacks or use [.str] on a column that is not text.  Failures
      of the file system are not modelled.
    - Logging is left out; the metric counters are kept.
    - SQL dates are day numbers and SQL [NULL] is [None].  The claim amounts
      are DOUBLE values: binary64 floating-point numbers with the
      operations of IEEE 754, sums being taken in the order of the rows.
      The roster percentages, ratios of small whole numbers, are computed
      over the rationals. *)

From Stdlib Require Import ZArith QArith Qround Lqa List Sorted String Ascii Lia Bool Floats.
From stdpp Require Import base option list gmap strings.

Open Scope string_scope.
Open Scope list_scope.
Open Scope Z_scope.

(** ** Cells, rows and frames *)

Inductive value : Type :=
  | VNull
  | VStr (s : string)
  | VInt (z : Z)
  | VTs (t : Z).

#[global] Instance value_eq_dec : EqDecision value.
Proof. solve_decision. Defined.

#[global] Instance value_countable : Countable value.
Proof.
  refine (inj_countable'
    (fun v => match v with
              | VNull => inl ()
              | VStr s => inr (inl s)
              | VInt z => inr (inr (inl z))
              | VTs t => inr (inr (inr t))
              end)
    (fun x => match x with
              | inl _ => VNull
              | inr (inl s) => VStr s
              | inr (inr (inl z)) => VInt z
              | inr (inr (inr t)) => VTs t
              end) _).
  by intros [].
Defined.

Abbreviation Row := (gmap string value).

Record DataFrame : Type := mkFrame {
  columns : list string;
  body : list (Z * Row)
}.

#[global] Instance DataFrame_eq_dec : EqDecision DataFrame.
Proof. solve_decision. Defined.

(** [row[c]]; the frames handled by the pipeline carry every column the code
    indexes, so the [KeyError] of an absent column is not modelled. *)
Definition cell (r : Row) (c : string) : value := default VNull (r !! c).

(** [pd.isna] / [pd.notna] on one cell. *)
Definition isna (v : value) : bool :=
  match v with VNull => true | _ => false end.

Definition notna (v : value) : bool := negb (isna v).

(** [pd.DataFrame()]. *)
Definition empty_frame : DataFrame := mkFrame [] [].

(** [df.empty]: some axis has length zero. *)
Definition df_empty (df : DataFrame) : bool :=
  match columns df, body df with
  | [], _ => true
  | _, [] => true
  | _, _ => false
  end.

Definition has_column (c : string) (df : DataFrame) : bool :=
  bool_decide (c ∈ columns df).

(** [df[c] = f(row)]: an existing column is overwritten in place, a new one
    is appended. *)
Definition set_col (c : string) (f : Z * Row -> value) (df : DataFrame)
  : DataFrame :=
  mkFrame (if has_column c df then columns df else columns df ++ [c])
          (map (fun ir => (ir.1, <[c := f ir]> ir.2)) (body df)).

(** [df[mask]] for a row-wise mask. *)
Definition filter_rows (p : Row -> bool) (df : DataFrame) : DataFrame :=
  mkFrame (columns df) (filter (fun ir => p ir.2) (body df)).

(** [df.dropna(subset=[c])]. *)
Definition dropna (c : string) (df : DataFrame) : DataFrame :=
  filter_rows (fun r => notna (cell r c)) df.

(** One row of [df.reindex(columns=cs)]: exactly the columns [cs], a column
    the row lacks being filled with a missing value. *)
Definition project_row (cs : list string) (r : Row) : Row :=
  list_to_map (map (fun c => (c, cell r c)) cs).

Definition reindex_columns (cs : list string) (df : DataFrame) : DataFrame :=
  mkFrame cs (map (fun ir => (ir.1, project_row cs ir.2)) (body df)).

(** Labels [0 .. n-1], as given by [reset_index(drop=True)],
    [ignore_index=True] or a freshly read file. *)
Fixpoint relabel (i : Z) (rows : list Row) : list (Z * Row) :=
  match rows with
  | [] => []
  | r :: rest => (i, r) :: relabel (i + 1) rest
  end.

Definition reset_index (df : DataFrame) : DataFrame :=
  mkFrame (columns df) (relabel 0 (map snd (body df))).

(** The key of a row for [drop_duplicates(subset=cs)]. *)
Definition subset_key (cs : list string) (r : Row) : list value :=
  map (cell r) cs.

(** [keep='first']: a row is dropped when an earlier row has its key. *)
Fixpoint dedup_first (cs : list string) (seen : list (list value))
    (rows : list (Z * Row)) : list (Z * Row) :=
  match rows with
  | [] => []
  | ir :: rest =>
      let k := subset_key cs ir.2 in
      if bool_decide (k ∈ seen) then dedup_first cs seen rest
      else ir :: dedup_first cs (k :: seen) rest
  end.

(** [keep='last']: a row is dropped when a later row has its key. *)
Fixpoint dedup_last (cs : list string) (rows : list (Z * Row))
  : list (Z * Row) :=
  match rows with
  | [] => []
  | ir :: rest =>
      if bool_decide (subset_key cs ir.2 ∈ map (fun jr => subset_key cs jr.2) rest)
      then dedup_last cs rest
      else ir :: dedup_last cs rest
  end.

Inductive keep_policy : Type := KeepFirst | KeepLast.

Definition drop_duplicates (cs : list string) (keep : keep_policy)
    (df : DataFrame) : DataFrame :=
  mkFrame (columns df)
          (match keep with
           | KeepFirst => dedup_first cs [] (body df)
           | KeepLast => dedup_last cs (body df)
           end).

(** ** Ordering of cells and [sort_values] *)

(** Missing values sort last ([na_position='last']).  A column read from a
    file is homogeneous; cells of different kinds are ranked by kind only to
    make the order total. *)
Definition value_compare (a b : value) : comparison :=
  match a, b with
  | VNull, VNull => Eq
  | VNull, _ => Gt
  | _, VNull => Lt
  | VStr s, VStr t => String.compare s t
  | VInt x, VInt y => Z.compare x y
  | VTs x, VTs y => Z.compare x y
  | VInt _, _ => Lt
  | _, VInt _ => Gt
  | VTs _, _ => Lt
  | _, VTs _ => Gt
  end.

(** Lexicographic comparison of two rows on the columns [cs]. *)
Fixpoint rows_compare (cs : list string) (r s : Row) : comparison :=
  match cs with
  | [] => Eq
  | c :: rest =>
      match value_compare (cell r c) (cell s c) with
      | Eq => rows_compare rest r s
      | o => o
      end
  end.

Definition rows_leb (cs : list string) (r s : Row) : bool :=
  match rows_compare cs r s with Gt => false | _ => true end.

(** Stable insertion sort: an element is put before the first one that is
    not smaller; built from the right, equal elements keep their order. *)
Fixpoint insert_sorted {A : Type} (leb : A -> A -> bool) (x : A)
    (l : list A) : list A :=
  match l with
  | [] => [x]
  | y :: rest => if leb x y then x :: l else y :: insert_sorted leb x rest
  end.

Definition stable_sort {A : Type} (leb : A -> A -> bool) (l : list A)
  : list A :=
  foldr (insert_sorted leb) [] l.

(** [df.sort_values(cs)]; with several keys pandas sorts stably. *)
Definition sort_values (cs : list string) (df : DataFrame) : DataFrame :=
  mkFrame (columns df)
          (stable_sort (fun ir jr => rows_leb cs ir.2 jr.2) (body df)).

(** ** Regular expressions, for the e-mail check *)

Inductive regex : Type :=
  | Never
  | Empty
  | Class (p : ascii -> bool)
  | Cat (r s : regex)
  | Or (r s : regex)
  | Many (r : regex).

Fixpoint nullable (r : regex) : bool :=
  match r with
  | Never => false
  | Empty => true
  | Class _ => false
  | Cat r s => nullable r && nullable s
  | Or r s => nullable r || nullable s
  | Many _ => true
  end.

Definition cat (r s : regex) : regex :=
  match r, s with
  | Never, _ => Never
  | _, Never => Never
  | Empty, _ => s
  | _, _ => Cat r s
  end.

Definition alt (r s : regex) : regex :=
  match r, s with
  | Never, _ => s
  | _, Never => r
  | _, _ => Or r s
  end.

(** Brzozowski derivative of [r] by the character [a]. *)
Fixpoint deriv (a : ascii) (r : regex) : regex :=
  match r with
  | Never => Never
  | Empty => Never
  | Class p => if p a then Empty else Never
  | Cat r s =>
      if nullable r then alt (cat (deriv a r) s) (deriv a s)
      else cat (deriv a r) s
  | Or r s => alt (deriv a r) (deriv a s)
  | Many r => cat (deriv a r) (Many r)
  end.

Fixpoint re_fullmatch (r : regex) (s : string) : bool :=
  match s with
  | EmptyString => nullable r
  | String a rest => re_fullmatch (deriv a r) rest
  end.

Definition Some1 (r : regex) : regex := Cat r (Many r).

Definition in_range (lo hi : ascii) (a : ascii) : bool :=
  (nat_of_ascii lo <=? nat_of_ascii a)%nat && (nat_of_ascii a <=? nat_of_ascii hi)%nat.

Definition is_alpha (a : ascii) : bool :=
  in_range "a" "z" a || in_range "A" "Z" a.

Definition is_alnum (a : ascii) : bool :=
  is_alpha a || in_range "0" "9" a.

Definition one_of (s : string) (a : ascii) : bool :=
  bool_decide (a ∈ list_ascii_of_string s).

(** [[a-zA-Z0-9._%+-]] *)
Definition local_char (a : ascii) : bool := is_alnum a || one_of "._%+-" a.

(** [[a-zA-Z0-9.-]] *)
Definition domain_char (a : ascii) : bool := is_alnum a || one_of ".-" a.

Definition newline : ascii := ascii_of_nat 10.

(** [$] outside multi-line mode: the end of the text, or just before a
    newline that ends the text. *)
Definition end_anchor : regex := Or Empty (Class (Ascii.eqb newline)).

(** [^[a-zA-Z0-9._%+-]+@[a-zA-Z0-9.-]+\.[a-zA-Z]{2,}$] *)
Definition email_regex : regex :=
  Cat (Some1 (Class local_char))
 (Cat (Class (Ascii.eqb "@"))
 (Cat (Some1 (Class domain_char))
 (Cat (Class (Ascii.eqb "."))
 (Cat (Class is_alpha)
 (Cat (Class is_alpha)
 (Cat (Many (Class is_alpha)) end_anchor)))))).

(** [Series.str.match(email_regex, na=True)] on one cell: text is matched
    from its start (the pattern carries its own end anchor); whatever is not
    text gives a missing result, which [na=True] turns into [True]. *)
Definition str_match_email (v : value) : bool :=
  match v with
  | VStr s => re_fullmatch email_regex s
  | _ => true
  end.

(** ** The pipeline: persistent state and inputs *)

(** The text of an error, [f"...{value}"]: the literal part and the
    interpolated cell are kept apart. *)
Inductive reason : Type :=
  | Plain (msg : string)
  | Fmt (msg : string) (arg : value).

#[global] Instance reason_eq_dec : EqDecision reason.
Proof. solve_decision. Defined.

Record ValidationError : Type := mkError {
  row_id : value;
  field : string;
  error_reason : reason
}.

#[global] Instance ValidationError_eq_dec : EqDecision ValidationError.
Proof. solve_decision. Defined.

(** An entry of [api_mock.json]. *)
Record EnrichmentResult : Type := mkEnrichment {
  personal_email : value;
  phone_number : value
}.

#[global] Instance EnrichmentResult_eq_dec : EqDecision EnrichmentResult.
Proof. solve_decision. Defined.

(** The input files under [DATA_DIR]: the three tables as written (header
    and records) and the two JSON objects. *)
Record Table : Type := mkTable {
  header : list string;
  records : list Row
}.

Record Sources : Type := mkSources {
  EMPLOYEES : Table;
  PLANS : Table;
  CLAIMS : Table;
  COMPANY_LOOKUP : gmap string string;
  API_MOCK : gmap string EnrichmentResult
}.

(** The files under [OUTPUT_DIR] that live across runs. *)
Record FS : Type := mkFS {
  WATERMARK : option Z;
  CLEAN_DATA : option DataFrame;
  VALIDATION_ERRORS : option (list ValidationError)
}.

Record Metrics : Type := mkMetrics {
  rows_in : Z;
  rows_out : Z;
  errors : Z;
  duplicates_removed : Z;
  nulls_filled : Z;
  eins_inferred : Z
}.

Definition len {A : Type} (l : list A) : Z := Z.of_nat (length l).

(** ** Watermark *)

(** Number of days from 1970-01-01 to the civil date [y]-[m]-[d]
    (proleptic Gregorian calendar). *)
Definition days_from_civil (y m d : Z) : Z :=
  let y' := if (m <=? 2)%Z then y - 1 else y in
  let era := y' / 400 in
  let yoe := y' - era * 400 in
  let mp := (m + 9) mod 12 in
  let doy := (153 * mp + 2) / 5 + d - 1 in
  let doe := yoe * 365 + yoe / 4 - yoe / 100 + doy in
  era * 146097 + doe - 719468.

Definition ns_per_day : Z := 86400 * 1000000000.

(** ['1900-01-01T00:00:00'] *)
Definition MIN_WATERMARK : Z := days_from_civil 1900 1 1 * ns_per_day.

Definition get_high_water_mark (fs : FS) : Z :=
  match WATERMARK fs with
  | None => MIN_WATERMARK
  | Some t => t
  end.

(** [now] is the reading of [datetime.now()]. *)
Definition update_high_water_mark (now : Z) (fs : FS) : FS :=
  mkFS (Some now) (CLEAN_DATA fs) (VALIDATION_ERRORS fs).

(** ** Ingestion *)

(** [pd.to_datetime(..., errors='coerce')] on one cell. *)
Definition to_datetime (v : value) : value :=
  match v with
  | VTs t => VTs t
  | VInt z => VTs z
  | VStr _ => VNull
  | VNull => VNull
  end.

Definition is_text (v : value) : bool :=
  match v with VStr _ => true | _ => false end.

(** [pd.read_csv(path, header=0)]. *)
Definition read_csv (t : Table) : DataFrame :=
  mkFrame (header t) (relabel 0 (records t)).

(** [pd.read_csv(path, header=0, parse_dates=[c])]: the column becomes a
    datetime column when every cell of it is a date or is missing, and is
    left as read otherwise. *)
Definition read_csv_dates (c : string) (t : Table) : DataFrame :=
  let df := read_csv t in
  if forallb (fun ir => negb (is_text (cell ir.2 c))) (body df)
  then set_col c (fun ir => to_datetime (cell ir.2 c)) df
  else df.

(** [pd.Timestamp.min] and [pd.Timestamp.max], in nanoseconds since the
    epoch: 1677-09-21 and 2262-04-11.  [pd.to_datetime] raises
    [OutOfBoundsDatetime] on an instant outside them. *)
Definition TIMESTAMP_MIN : Z := - 2 ^ 63 + 1.

Definition TIMESTAMP_MAX : Z := 2 ^ 63 - 1.

Definition in_bounds (ts : Z) : bool :=
  (TIMESTAMP_MIN <=? ts) && (ts <=? TIMESTAMP_MAX).

(** The row test of [df[df[c] > ts]]: on a datetime column a missing value
    compares false. *)
Definition after (c : string) (ts : Z) (r : Row) : bool :=
  match cell r c with
  | VTs t => (ts <? t)%Z
  | _ => false
  end.

(** [df[df[c] > pd.to_datetime(ts)]].  [None] when [pd.to_datetime] raises
    on the watermark, or when the column still holds text and cannot be
    compared with a timestamp ([TypeError]). *)
Definition filter_after (c : string) (ts : Z) (df : DataFrame)
  : option DataFrame :=
  if negb (in_bounds ts) then None
  else if existsb (fun ir => is_text (cell ir.2 c)) (body df) then None
  else Some (filter_rows (after c ts) df).

(** [ingest_data].  [read_csv(..., parse_dates=[c])] raises when the file
    has no column [c]. *)
Definition ingest_data (src : Sources) (last_run_timestamp : Z)
  : option (DataFrame * DataFrame * DataFrame) :=
  if negb (bool_decide ("start_date" ∈ header (EMPLOYEES src))) then None
  else if negb (bool_decide ("service_date" ∈ header (CLAIMS src))) then None
  else
    let employees_df := read_csv_dates "start_date" (EMPLOYEES src) in
    let claims_df := read_csv_dates "service_date" (CLAIMS src) in
    let plans_df := read_csv (PLANS src) in
    employees_df ← filter_after "start_date" last_run_timestamp employees_df;
    claims_df ← filter_after "service_date" last_run_timestamp claims_df;
    Some (employees_df, plans_df, claims_df).

(** ** Cleaning and validation *)

Record CleanMetrics : Type := mkCleanMetrics {
  cm_duplicates_removed : Z;
  cm_nulls_filled : Z
}.

(** [df[c] = series], the series being aligned with the rows of [df]. *)
Definition assign_col (c : string) (vals : list value) (df : DataFrame)
  : DataFrame :=
  mkFrame (if has_column c df then columns df else columns df ++ [c])
          (zip_with (fun ir v => (ir.1, <[c := v]> ir.2)) (body df) vals).

(** [Series.ffill()]: a missing value takes the last value seen before it. *)
Fixpoint ffill_from (prev : value) (l : list value) : list value :=
  match l with
  | [] => []
  | v :: rest =>
      let v' := if isna v then prev else v in
      v' :: ffill_from v' rest
  end.

Definition ffill (l : list value) : list value := ffill_from VNull l.

(** [Series.bfill()]: the same from the other end. *)
Definition bfill (l : list value) : list value := rev (ffill (rev l)).

(** [df.groupby(key)[col].transform(f)]: [f] is applied to the column [col]
    of each group, and every row receives the entry of its group's result at
    its rank inside the group.  Rows with a missing key belong to no group
    and receive a missing value. *)
Definition groupby_transform (key col : string)
    (f : list value -> list value) (rows : list (Z * Row)) : list value :=
  imap (fun i ir =>
          let k := cell ir.2 key in
          if isna k then VNull
          else
            let same := fun jr : Z * Row => bool_decide (cell jr.2 key = k) in
            let group := filter same rows in
            let rank := length (filter same (take i rows)) in
            default VNull (f (map (fun jr => cell jr.2 col) group) !! rank))
       rows.

Definition count_nulls (c : string) (df : DataFrame) : Z :=
  len (filter (fun ir => isna (cell ir.2 c)) (body df)).

(** [Series.fillna(v)]. *)
Definition fillna (c : string) (v : value) (df : DataFrame) : DataFrame :=
  mkFrame (columns df)
          (map (fun ir => (ir.1, if isna (cell ir.2 c) then <[c := v]> ir.2
                                 else ir.2))
               (body df)).

Definition email_error (ir : Z * Row) : ValidationError :=
  mkError (cell ir.2 "row_id") "email"
          (Fmt "Invalid email format: " (cell ir.2 "email")).

Definition date_error (col : string) (ir : Z * Row) : ValidationError :=
  mkError (cell ir.2 "row_id") col
          (Fmt "Invalid date format: " (cell ir.2 col)).

Definition title_error (ir : Z * Row) : ValidationError :=
  mkError (cell ir.2 "row_id") "title"
          (Plain "Missing title - no value to forward/backward fill").

Definition date_cols : list string :=
  ["start_date"; "end_date"; "last_updated"].

(** One turn of the loop over [date_cols]. *)
Definition coerce_date_col (st : DataFrame * list ValidationError)
    (col : string) : DataFrame * list ValidationError :=
  let '(clean_df, errs) := st in
  if has_column col clean_df then
    let invalid_dates :=
      filter (fun ir => isna (to_datetime (cell ir.2 col))) (body clean_df) in
    let errs := errs ++ map (date_error col) invalid_dates in
    let clean_df := set_col col (fun ir => to_datetime (cell ir.2 col)) clean_df in
    let clean_df :=
      if bool_decide (col ∈ ["start_date"; "last_updated"])
      then dropna col clean_df else clean_df in
    (clean_df, errs)
  else st.

(** [clean_data].  The last step, [clean_df['title'].fillna('Unknown',
    inplace=True)], is taken to update the frame itself, as pandas does
    without copy-on-write. *)
Definition clean_data (df : DataFrame)
  : DataFrame * list ValidationError * CleanMetrics :=
  if df_empty df then (empty_frame, [], mkCleanMetrics 0 0)
  else
    let clean_df := set_col "row_id" (fun ir => VInt ir.1) df in
    (* 1. Deduplication *)
    let initial_rows := len (body clean_df) in
    let clean_df :=
      drop_duplicates ["person_id"; "email"; "start_date"] KeepFirst clean_df in
    let duplicates_removed := initial_rows - len (body clean_df) in
    (* 2. Email validation *)
    let valid_emails := fun r : Row => str_match_email (cell r "email") in
    let invalid_email_rows :=
      filter (fun ir => negb (valid_emails ir.2)) (body clean_df) in
    let errs := map email_error invalid_email_rows in
    let clean_df := filter_rows valid_emails clean_df in
    (* 3. Date coercion and validation *)
    let '(clean_df, errs) := foldl coerce_date_col (clean_df, errs) date_cols in
    (* 4. Carry titles forward, then backward *)
    let clean_df := sort_values ["person_id"; "start_date"] clean_df in
    let nulls_before := count_nulls "title" clean_df in
    let clean_df :=
      assign_col "title"
        (groupby_transform "person_id" "title" (fun x => bfill (ffill x))
           (body clean_df))
        clean_df in
    let nulls_after := count_nulls "title" clean_df in
    let remaining_nulls :=
      filter (fun ir => isna (cell ir.2 "title")) (body clean_df) in
    let errs := errs ++ map title_error remaining_nulls in
    let clean_df := fillna "title" (VStr "Unknown") clean_df in
    (clean_df, errs, mkCleanMetrics duplicates_removed (nulls_before - nulls_after)).

(** ** Enrichment *)

(** [sep in s] and [s.split(sep)] for a one-character separator. *)
Definition contains_char (sep : ascii) (s : string) : bool :=
  bool_decide (sep ∈ list_ascii_of_string s).

Fixpoint split_on (sep : ascii) (s : string) : list string :=
  match s with
  | EmptyString => [EmptyString]
  | String a rest =>
      if Ascii.eqb a sep then EmptyString :: split_on sep rest
      else match split_on sep rest with
           | [] => [String a EmptyString]
           | w :: ws => String a w :: ws
           end
  end.

(** The closure [get_ein] of [enrich_data].  A cell that is not text holds
    no ['@'] once printed; an index out of range ([IndexError]) and a falsy
    (empty) identifier both give [None]. *)
Definition get_ein (domain_to_ein : gmap string string) (row : Row) : value :=
  if notna (cell row "company_ein") then cell row "company_ein"
  else
    match cell row "email" with
    | VStr email =>
        if negb (contains_char "@" email) then VNull
        else
          match split_on "@" email !! 1%nat with
          | None => VNull
          | Some domain =>
              match domain_to_ein !! domain with
              | Some inferred =>
                  if bool_decide (inferred = "") then VNull else VStr inferred
              | None => VNull
              end
          end
    | _ => VNull
    end.

(** The in-run cache [api_cache], and, as a ghost field, the list of the
    requests that reached the enrichment source, oldest first. *)
Record ApiState : Type := mkApi {
  api_cache : gmap value EnrichmentResult;
  api_calls : list value
}.

Definition NOT_FOUND : EnrichmentResult := mkEnrichment VNull VNull.

(** [person_id in api_mock_data] / [api_mock_data[person_id]]: the keys of a
    JSON object are text. *)
Definition source_lookup (api_mock_data : gmap string EnrichmentResult)
    (person_id : value) : option EnrichmentResult :=
  match person_id with
  | VStr s => api_mock_data !! s
  | _ => None
  end.

Inductive outcome : Type :=
  | Returned (result : EnrichmentResult)
  | Raised.

(** The body of the [try]: one request to the source.  A hit is cached, a
    miss is answered with the all-null record and is not cached.  Nothing in
    the body raises. *)
Definition api_attempt (api_mock_data : gmap string EnrichmentResult)
    (person_id : value) (st : ApiState) : outcome * ApiState :=
  let calls := api_calls st ++ [person_id] in
  match source_lookup api_mock_data person_id with
  | Some result =>
      (Returned result, mkApi (<[person_id := result]> (api_cache st)) calls)
  | None => (Returned NOT_FOUND, mkApi (api_cache st) calls)
  end.

(** [for i in range(retries): try: ... except: ...] *)
Fixpoint api_retry (api_mock_data : gmap string EnrichmentResult)
    (retries : nat) (person_id : value) (st : ApiState)
  : EnrichmentResult * ApiState :=
  match retries with
  | O => (NOT_FOUND, st)
  | S n =>
      match api_attempt api_mock_data person_id st with
      | (Returned result, st') => (result, st')
      | (Raised, st') => api_retry api_mock_data n person_id st'
      end
  end.

Definition get_enrichment_data (api_mock_data : gmap string EnrichmentResult)
    (retries : nat) (person_id : value) (st : ApiState)
  : EnrichmentResult * ApiState :=
  match api_cache st !! person_id with
  | Some cached => (cached, st)
  | None => api_retry api_mock_data retries person_id st
  end.

(** [series.apply(get_enrichment_data)], with the default [retries=3]. *)
Fixpoint apply_get_enrichment_data
    (api_mock_data : gmap string EnrichmentResult) (ids : list value)
    (st : ApiState) : list EnrichmentResult * ApiState :=
  match ids with
  | [] => ([], st)
  | person_id :: rest =>
      let '(result, st) := get_enrichment_data api_mock_data 3 person_id st in
      let '(results, st) := apply_get_enrichment_data api_mock_data rest st in
      (result :: results, st)
  end.

Definition enrichment_row (e : EnrichmentResult) : Row :=
  <["personal_email" := personal_email e]>
    (<["phone_number" := phone_number e]> ∅).

(** [pd.json_normalize(results)]. *)
Definition json_normalize (results : list EnrichmentResult) : DataFrame :=
  match results with
  | [] => empty_frame
  | _ => mkFrame ["personal_email"; "phone_number"]
                 (relabel 0 (map enrichment_row results))
  end.

(** [pd.concat([a, b], axis=1)] for two frames with the same labels. *)
Definition concat_columns (a b : DataFrame) : DataFrame :=
  mkFrame (columns a ++ columns b)
          (zip_with (fun ir jr => (ir.1, jr.2 ∪ ir.2)) (body a) (body b)).

Definition FINAL_COLUMNS : list string :=
  ["person_id"; "full_name"; "title"; "email"; "company_ein"; "start_date";
   "notes"; "row_id"; "personal_email"; "phone_number"].

Definition init_api : ApiState := mkApi ∅ [].

(** The enrichment requests of one run over the frame [df]. *)
Definition enrichment_requests (src : Sources) (df : DataFrame)
  : list EnrichmentResult * ApiState :=
  apply_get_enrichment_data (API_MOCK src)
    (map (fun ir => cell ir.2 "person_id") (body df)) init_api.

Definition enrich_data (src : Sources) (df : DataFrame) : DataFrame * Z :=
  if df_empty df then (df, 0)
  else
    (* 1. Infer missing EINs *)
    let domain_to_ein := COMPANY_LOOKUP src in
    let nulls_before := count_nulls "company_ein" df in
    let enriched_df :=
      set_col "company_ein" (fun ir => get_ein domain_to_ein ir.2) df in
    let nulls_after := count_nulls "company_ein" enriched_df in
    (* 2. Cached, retrying lookups *)
    let enrichment_results := (enrichment_requests src enriched_df).1 in
    let enrichment_df := json_normalize enrichment_results in
    let final_df := concat_columns (reset_index enriched_df) enrichment_df in
    let final_df :=
      reindex_columns
        (filter (fun c => has_column c final_df) FINAL_COLUMNS) final_df in
    (final_df, nulls_before - nulls_after).

(** ** Saving: the validation ledger and the canonical store *)

Definition CANONICAL_COLUMNS : list string :=
  ["person_id"; "full_name"; "title"; "email"; "company_ein"; "start_date";
   "notes"; "row_id"; "personal_email"; "phone_number"].

(** [list(set(a) | set(b))].  Python leaves the order of a set open; the
    columns of [a] are listed first here. *)
Definition union_columns (a b : list string) : list string :=
  a ++ filter (fun c => c ∉ a) b.

(** [for col in all_columns: if col not in df.columns: df[col] = None] *)
Definition add_missing_columns (all_columns : list string) (df : DataFrame)
  : DataFrame :=
  foldl (fun df col => if has_column col df then df
                       else set_col col (fun _ => VNull) df)
        df all_columns.

(** [pd.concat([a, b], ignore_index=True)]. *)
Definition concat_rows (a b : DataFrame) : DataFrame :=
  mkFrame (union_columns (columns a) (columns b))
          (relabel 0 (map snd (body a ++ body b))).

(** The part of [save_outputs] that appends to the validation file. *)
Definition save_errors (errors_df : list ValidationError)
    (file : option (list ValidationError)) : option (list ValidationError) :=
  match errors_df, file with
  | _ :: _, Some old => Some (old ++ errors_df)
  | _ :: _, None => Some errors_df
  | [], None => Some []
  | [], Some old => Some old
  end.

(** The merge branch of [save_outputs]: a store exists and the new relation
    is not empty. *)
Definition merge_store (existing_df clean_df : DataFrame) : DataFrame :=
  let all_columns := union_columns (columns existing_df) (columns clean_df) in
  let existing_df := add_missing_columns all_columns existing_df in
  let clean_df := add_missing_columns all_columns clean_df in
  let merged_df := concat_rows existing_df clean_df in
  let final_columns :=
    CANONICAL_COLUMNS
      ++ filter (fun c => c ∉ CANONICAL_COLUMNS) all_columns in
  let merged_df :=
    reindex_columns (filter (fun c => has_column c merged_df) final_columns)
      merged_df in
  drop_duplicates ["person_id"; "start_date"] KeepLast merged_df.

(** [df.to_parquet(path, index=False)]: the labels are not written, so a
    later [pd.read_parquet] sees the rows labelled [0 .. n-1]. *)
Definition to_parquet (df : DataFrame) : DataFrame := reset_index df.

(** The part of [save_outputs] that writes the store; the second component
    is the metric [rows_out]. *)
Definition save_store (clean_df : DataFrame) (file : option DataFrame)
  : option DataFrame * Z :=
  match file with
  | Some existing_df =>
      if negb (df_empty clean_df) then
        let merged_df := merge_store existing_df clean_df in
        (Some (to_parquet merged_df), len (body merged_df))
      else
        (* No new data, keep existing *)
        (Some existing_df, len (body existing_df))
  | None =>
      if negb (df_empty clean_df) then
        (* First run or no existing data *)
        (Some (to_parquet clean_df), len (body clean_df))
      else
        (* No data at all: an empty store is created *)
        (Some (to_parquet clean_df), 0)
  end.

Definition save_outputs (clean_df : DataFrame)
    (errors_df : list ValidationError) (fs : FS) : FS * Z :=
  let ledger := save_errors errors_df (VALIDATION_ERRORS fs) in
  let '(store, rows_out) := save_store clean_df (CLEAN_DATA fs) in
  (mkFS (WATERMARK fs) store ledger, rows_out).

(** ** The whole run *)

(** The dtype pandas gives a column when the file is read: text ([object])
    as soon as one cell of the column is text.  Selecting rows keeps the
    dtype. *)
Definition text_dtype (c : string) (t : Table) : bool :=
  existsb (fun r => is_text (cell r c)) (records t).

(** [clean_data(employees_df)] runs to its end.  On a frame that is not
    empty it indexes the four columns below ([KeyError] when one is absent)
    and applies [.str] to the e-mail column, which raises [AttributeError]
    unless the column has the text dtype -- also when every e-mail of the
    file is missing. *)
Definition clean_data_runs (src : Sources) (employees_df : DataFrame) : bool :=
  df_empty employees_df
  || (forallb (fun c => has_column c employees_df)
        ["person_id"; "email"; "start_date"; "title"]
      && text_dtype "email" (EMPLOYEES src)).

(** [enrich_data(clean_df)] runs to its end.  On a frame that is not empty
    it indexes [company_ein] ([KeyError] when absent); the other columns it
    reads, [email] and [person_id], are there once [clean_data] has run. *)
Definition enrich_data_runs (clean_df : DataFrame) : bool :=
  df_empty clean_df || has_column "company_ein" clean_df.

Definition run_etl (src : Sources) (now : Z) (fs : FS) : option (FS * Metrics) :=
  (* 1. Incrementalism: get the high-water mark *)
  let last_run_timestamp := get_high_water_mark fs in
  (* 2. Ingest *)
  '(employees_df, plans_df, claims_df) ← ingest_data src last_run_timestamp;
  let rows_in := len (body employees_df) in
  if df_empty employees_df && df_empty claims_df && df_empty plans_df then
    (* No new data: the ledger is created if absent, nothing else changes *)
    let ledger :=
      match VALIDATION_ERRORS fs with
      | None => Some []
      | Some old => Some old
      end in
    Some (mkFS (WATERMARK fs) (CLEAN_DATA fs) ledger,
          mkMetrics rows_in 0 0 0 0 0)
  else if negb (clean_data_runs src employees_df) then None
  else
    (* 3. Clean *)
    let '(clean_df, errors_df, cm) := clean_data employees_df in
    if negb (enrich_data_runs clean_df) then None
    else
    (* 4. Enrich *)
    let '(enriched_df, eins) := enrich_data src clean_df in
    (* 5. Save outputs *)
    let '(fs, rows_out) := save_outputs enriched_df errors_df fs in
    (* 6. Update the high-water mark *)
    let fs := update_high_water_mark now fs in
    Some (fs,
          mkMetrics rows_in rows_out (len errors_df)
            (cm_duplicates_removed cm) (cm_nulls_filled cm) eins).

(** * The SQL analyses of [run_sql_analysis]

    A relation is a list of records.  A window clause is evaluated partition
    by partition: the rows with one partition key are sorted (stably, NULLs
    last) and the window column is computed along the sorted list. *)

(** The [company_name_mapping] common table expression. *)
Definition company_name_mapping : list (string * string) :=
  [("11-1111111", "Hillwinds Health");
   ("22-2222222", "Summit Solutions");
   ("33-3333333", "Peak Performers")].

(** [x JOIN company_name_mapping cnm ON x.company_ein = cnm.company_ein]:
    the company names matching an identifier; NULL matches nothing. *)
Definition company_names (ein : option string) : list string :=
  match ein with
  | None => []
  | Some e => map snd (filter (fun m => m.1 = e) company_name_mapping)
  end.

(** The partitions of a relation, in order of first appearance of the key. *)
Fixpoint distinct {K : Type} `{EqDecision K} (seen l : list K) : list K :=
  match l with
  | [] => []
  | k :: rest =>
      if bool_decide (k ∈ seen) then distinct seen rest
      else k :: distinct (k :: seen) rest
  end.

Definition partitions {A K : Type} `{EqDecision K} (key : A -> K)
    (l : list A) : list (list A) :=
  map (fun k => filter (fun x => key x = k) l) (distinct [] (map key l)).

(** [ORDER BY] on a nullable date, ascending, NULLs last. *)
Definition date_leb (a b : option Z) : bool :=
  match a, b with
  | Some x, Some y => x <=? y
  | Some _, None => true
  | None, Some _ => false
  | None, None => true
  end.

Definition min_date (a b : option Z) : option Z :=
  match a, b with
  | Some x, Some y => Some (Z.min x y)
  | Some x, None => Some x
  | None, o => o
  end.

Definition max_date (a b : option Z) : option Z :=
  match a, b with
  | Some x, Some y => Some (Z.max x y)
  | Some x, None => Some x
  | None, o => o
  end.

Definition min_text (a b : option string) : option string :=
  match a, b with
  | Some x, Some y => Some (if String.leb x y then x else y)
  | Some x, None => Some x
  | None, o => o
  end.

(** ** Task 1: plan gap detection *)

(** A row of the view [plans_raw]. *)
Record PlanRaw : Type := mkPlanRaw {
  pr_company_ein : option string;
  pr_plan_type : option string;
  pr_carrier_name : option string;
  pr_start_date : option Z;
  pr_end_date : option Z
}.

(** A row of [plans_clean]; the [WHERE] clause leaves no NULL start date. *)
Record PlanClean : Type := mkPlanClean {
  pc_company_name : string;
  pc_plan_type : option string;
  pc_carrier : option string;
  pc_start_date : Z;
  pc_end_date : option Z
}.

Definition plans_clean (plans_raw : list PlanRaw) : list PlanClean :=
  p ← plans_raw;
  company_name ← company_names (pr_company_ein p);
  match pr_start_date p with
  | Some start_date =>
      [mkPlanClean company_name (pr_plan_type p) (pr_carrier_name p)
         start_date (pr_end_date p)]
  | None => []
  end.

Definition plan_group (p : PlanClean) : string * option string :=
  (pc_company_name p, pc_plan_type p).

(** The inner query of [deduped], along one partition sorted by start date:
    [prev_end] is [LAG(end_date)], NULL on the first row; the flag is 0 when
    [start_date <= COALESCE(LAG(end_date) + 1 day, start_date)]. *)
Fixpoint new_groups (prev_end : option Z) (l : list PlanClean)
  : list (PlanClean * Z) :=
  match l with
  | [] => []
  | p :: rest =>
      let bound := match prev_end with
                   | Some e => e + 1
                   | None => pc_start_date p
                   end in
      (p, if pc_start_date p <=? bound then 0 else 1)
        :: new_groups (pc_end_date p) rest
  end.

(** [ORDER BY start_date, end_date] as a comparison of two rows. *)
Definition plan_leb (p q : PlanClean) : bool :=
  if pc_start_date p <? pc_start_date q then true
  else if pc_start_date q <? pc_start_date p then false
  else date_leb (pc_end_date p) (pc_end_date q).

Definition sumZ (l : list Z) : Z := foldr Z.add 0 l.

(** [SUM(new_group) OVER (PARTITION BY ... ORDER BY start_date, end_date)]:
    with the default frame the sum runs over every row of the partition that
    is not after the current one, its peers included. *)
Definition running_group (part : list (PlanClean * Z)) (p : PlanClean) : Z :=
  sumZ (map snd (filter (fun x => plan_leb x.1 p) part)).

Definition deduped (plans : list PlanClean) : list (PlanClean * Z) :=
  part ← partitions plan_group plans;
  let flagged :=
    new_groups None
      (stable_sort (fun p q => pc_start_date p <=? pc_start_date q) part) in
  map (fun x => (x.1, running_group flagged x.1)) flagged.

Record Island : Type := mkIsland {
  is_company_name : string;
  is_plan_type : option string;
  island_start : option Z;
  island_end : option Z;
  carrier_during_island : option string
}.

(** [GROUP BY company_name, plan_type, grp]. *)
Definition islands (rows : list (PlanClean * Z)) : list Island :=
  map (fun g : list (PlanClean * Z) =>
         match g with
         | [] => mkIsland "" None None None None
         | x :: _ =>
             mkIsland (pc_company_name x.1) (pc_plan_type x.1)
               (foldr min_date None (map (fun y => Some (pc_start_date y.1)) g))
               (foldr max_date None (map (fun y => pc_end_date y.1) g))
               (foldr min_text None (map (fun y => pc_carrier y.1) g))
         end)
      (partitions (fun x : PlanClean * Z => (plan_group x.1, x.2)) rows).

Record WithNext : Type := mkWithNext {
  wn_island : Island;
  wn_next_start : option Z;
  wn_next_carrier : option string
}.

(** [LEAD(...)] along one partition sorted by [island_start]. *)
Fixpoint leads (l : list Island) : list WithNext :=
  match l with
  | [] => []
  | i :: rest =>
      mkWithNext i (head rest ≫= island_start)
                 (head rest ≫= carrier_during_island)
        :: leads rest
  end.

Definition with_next (isl : list Island) : list WithNext :=
  part ← partitions (fun i => (is_company_name i, is_plan_type i)) isl;
  leads (stable_sort (fun i j => date_leb (island_start i) (island_start j)) part).

(** [DATEDIFF('day', a, b)]. *)
Definition datediff_day (a b : Z) : Z := b - a.

Record GapRow : Type := mkGapRow {
  g_company_name : string;
  gap_start : Z;
  gap_end : Z;
  gap_length_days : Z;
  previous_carrier : option string;
  next_carrier : option string
}.

#[global] Instance GapRow_eq_dec : EqDecision GapRow.
Proof. solve_decision. Defined.

(** The [WHERE] clause of the final [SELECT] on one row of [with_next]; a
    comparison with NULL is not true. *)
Definition is_reported_gap (w : WithNext) : bool :=
  match wn_next_start w, island_end (wn_island w) with
  | Some next_start, Some island_end =>
      7 <? datediff_day island_end next_start
  | _, _ => false
  end.

(** The select list of the final [SELECT]. *)
Definition gap_row (w : WithNext) : option GapRow :=
  if is_reported_gap w then
    next_start ← wn_next_start w;
    island_end ← island_end (wn_island w);
    Some (mkGapRow (is_company_name (wn_island w))
            (island_end + 1)
            (next_start - 1)
            (datediff_day (island_end + 1) (next_start - 1))
            (carrier_during_island (wn_island w))
            (wn_next_carrier w))
  else None.

Definition text_then_date_leb (a : string) (x : option Z) (b : string)
    (y : option Z) : bool :=
  match String.compare a b with
  | Lt => true
  | Gt => false
  | Eq => date_leb x y
  end.

(** [plan_gaps_query], ending with [ORDER BY company_name, gap_start]. *)
Definition plan_gaps_query (plans_raw : list PlanRaw) : list GapRow :=
  stable_sort
    (fun a b => text_then_date_leb (g_company_name a) (Some (gap_start a))
                  (g_company_name b) (Some (gap_start b)))
    (omap gap_row (with_next (islands (deduped (plans_clean plans_raw))))).

(** ** Task 2: claims cost spikes *)

(** A row of the view [claims_raw].  [amount] is a DOUBLE, the type
    [read_csv_auto] gives a column of decimal numbers.  (A column of whole
    numbers only is typed BIGINT; its sums are exact, and equal to the
    sums below as long as they stay under [2 ^ 53].) *)
Record ClaimRaw : Type := mkClaimRaw {
  cr_company_ein : option string;
  cr_service_date : option Z;
  cr_amount : option float
}.

Record ClaimCost : Type := mkClaimCost {
  cc_company_name : string;
  cc_service_date : option Z;
  claim_cost : option float
}.

Definition claims_with_company (claims_raw : list ClaimRaw) : list ClaimCost :=
  c ← claims_raw;
  company_name ← company_names (cr_company_ein c);
  [mkClaimCost company_name (cr_service_date c) (cr_amount c)].

(** One step of [SUM] over DOUBLE values: the sum so far (0 before the
    first value) plus the next value; NULLs are skipped. *)
Definition sum_step (acc x : option float) : option float :=
  match acc, x with
  | Some a, Some b => Some (a + b)%float
  | None, Some b => Some (0 + b)%float
  | o, None => o
  end.

(** [SUM]: the values are added one after the other in the order of the
    rows, as a single pass over them does; the result is NULL when every
    input is. *)
Definition sql_sum (l : list (option float)) : option float :=
  foldl sum_step None l.

Record DailyCost : Type := mkDailyCost {
  dc_company_name : string;
  dc_service_date : option Z;
  total_daily_cost : option float
}.

(** [GROUP BY 1, 2]. *)
Definition daily_costs (claims : list ClaimCost) : list DailyCost :=
  map (fun g : list ClaimCost =>
         match g with
         | [] => mkDailyCost "" None None
         | c :: _ =>
             mkDailyCost (cc_company_name c) (cc_service_date c)
               (sql_sum (map claim_cost g))
         end)
      (partitions (fun c => (cc_company_name c, cc_service_date c)) claims).

Record Rolling : Type := mkRolling {
  ro_company_name : string;
  ro_service_date : option Z;
  rolling_90d_cost : option float
}.

(** [ROWS BETWEEN 89 PRECEDING AND CURRENT ROW] along one sorted partition:
    [before] holds the costs of the rows already passed, nearest first; the
    frame is summed from its oldest row to the current one. *)
Fixpoint rolling_sums (before : list (option float)) (l : list DailyCost)
  : list Rolling :=
  match l with
  | [] => []
  | d :: rest =>
      mkRolling (dc_company_name d) (dc_service_date d)
        (sql_sum (reverse (total_daily_cost d :: take 89 before)))
        :: rolling_sums (total_daily_cost d :: before) rest
  end.

Definition rolling_90d (daily : list DailyCost) : list Rolling :=
  part ← partitions dc_company_name daily;
  rolling_sums []
    (stable_sort (fun a b => date_leb (dc_service_date a) (dc_service_date b))
       part).

Record RollingWindow : Type := mkRollingWindow {
  rw_company_name : string;
  window_end : option Z;
  window_start : option Z;
  current_90d_cost : option float;
  prev_90d_cost : option float
}.

(** [LAG(rolling_90d_cost, 1)] along one sorted partition. *)
Fixpoint lag_windows (prev : option float) (l : list Rolling)
  : list RollingWindow :=
  match l with
  | [] => []
  | r :: rest =>
      mkRollingWindow (ro_company_name r) (ro_service_date r)
        ((fun d => d - 89) <$> ro_service_date r)
        (rolling_90d_cost r) prev
        :: lag_windows (rolling_90d_cost r) rest
  end.

Definition rolling_windows (rolling : list Rolling) : list RollingWindow :=
  part ← partitions ro_company_name rolling;
  lag_windows None
    (stable_sort (fun a b => date_leb (ro_service_date a) (ro_service_date b))
       part).

(** C's [round] on a double: the nearest whole number, a tie going away
    from zero.  A finite double is [m * 2 ^ e] with [m < 2 ^ 53]; when
    [e < 0] the whole number found is at most [2 ^ 53] and is a double. *)
Definition std_round (x : float) : float :=
  match Prim2SF x with
  | S754_finite s m e =>
      if 0 <=? e then x
      else
        let q := Z.shiftr (Zpos m) (- e) in
        let r := Zpos m - Z.shiftl q (- e) in
        let n := if Z.shiftl 1 (- e - 1) <=? r then q + 1 else q in
        let y := of_uint63 (Uint63Axioms.of_Z n) in
        if s then (- y)%float else y
  | _ => x
  end.

(** [ROUND(x, 2)] on a DOUBLE, as DuckDB computes it:
    [round(x * 100) / 100], and [x] itself when that is not finite. *)
Definition double_round2 (x : float) : float :=
  let rounded_value := (std_round (x * 100) / 100)%float in
  if is_infinity rounded_value || is_nan rounded_value then x
  else rounded_value.

Record SpikeRow : Type := mkSpikeRow {
  sp_company_name : string;
  sp_window_start : option Z;
  sp_window_end : option Z;
  sp_prev_90d_cost : option float;
  sp_current_90d_cost : option float;
  pct_change : option float
}.

(** The [WHERE] clause:
    [prev IS NOT NULL AND prev > 0 AND (cur - prev) / prev > 2.0], the
    comparisons and the quotient being those of DOUBLE. *)
Definition is_spike (w : RollingWindow) : bool :=
  match prev_90d_cost w, current_90d_cost w with
  | Some prev, Some cur =>
      (0 <? prev)%float && (2 <? (cur - prev) / prev)%float
  | _, _ => false
  end.

(** [ROUND(CASE WHEN prev = 0 THEN NULL ELSE (cur - prev) / prev * 100 END, 2)] *)
Definition pct_change_of (w : RollingWindow) : option float :=
  match prev_90d_cost w, current_90d_cost w with
  | Some prev, Some cur =>
      if (prev =? 0)%float then None
      else Some (double_round2 ((cur - prev) / prev * 100)%float)
  | _, _ => None
  end.

Definition spike_row (w : RollingWindow) : SpikeRow :=
  mkSpikeRow (rw_company_name w) (window_start w) (window_end w)
    (prev_90d_cost w) (current_90d_cost w) (pct_change_of w).

(** [claims_spike_query], ending with [ORDER BY company_name, window_end]. *)
Definition claims_spike_query (claims_raw : list ClaimRaw) : list SpikeRow :=
  stable_sort
    (fun a b => text_then_date_leb (sp_company_name a) (sp_window_end a)
                  (sp_company_name b) (sp_window_end b))
    (map spike_row
       (filter (fun w => is_spike w)
          (rolling_windows
             (rolling_90d (daily_costs (claims_with_company claims_raw)))))).

(** ** Task 3: employee roster mismatch *)

Definition Qlt_bool (a b : Q) : bool := negb (Qle_bool b a).

(** The nearest whole number, a tie going away from zero. *)
Definition round_half_away (q : Q) : Z :=
  if Qle_bool 0 q then Qfloor (q + (1 # 2)) else Qceiling (q - (1 # 2)).

(** [ROUND(x, 2)] in the roster query.  The query rounds the DOUBLE
    quotient of a whole number by 60, 45 or 40; a hundred times such a
    quotient is a whole number or lies at least 1/18 from a tie, so the
    rounding of the exact quotient gives the same hundredths. *)
Definition sql_round2 (q : Q) : Q := Qred (round_half_away (q * 100) # 100).

(** The columns of the view [employees_raw] the query reads. *)
Record EmployeeRaw : Type := mkEmployeeRaw {
  er_company_ein : option string;
  er_person_id : option string
}.

Definition company_expected_counts : list (string * Z) :=
  [("Hillwinds Health", 60);
   ("Summit Solutions", 45);
   ("Peak Performers", 40)].

(** [COUNT(DISTINCT x)]: NULLs are not counted. *)
Definition count_distinct (l : list (option string)) : Z :=
  len (distinct [] (omap id l)).

(** [GROUP BY cnm.company_name] over the join. *)
Definition observed_employee_counts (employees_raw : list EmployeeRaw)
  : list (string * Z) :=
  let joined :=
    e ← employees_raw;
    company_name ← company_names (er_company_ein e);
    [(company_name, er_person_id e)] in
  map (fun g : list (string * option string) =>
         match g with
         | [] => ("", 0)
         | x :: _ => (x.1, count_distinct (map snd g))
         end)
      (partitions fst joined).

Record Comparison : Type := mkComparison {
  co_company_name : string;
  expected : Z;
  observed : Z;
  pct_diff : Q
}.

(** [ROUND(ABS(observed - expected) * 100.0 / expected, 2)] *)
Definition pct_diff_of (expected observed : Z) : Q :=
  sql_round2 (inject_Z (Z.abs (observed - expected)) * 100 / inject_Z expected).

Definition comparison (employees_raw : list EmployeeRaw) : list Comparison :=
  cec ← company_expected_counts;
  oec ← observed_employee_counts employees_raw;
  if bool_decide (cec.1 = oec.1)
  then [mkComparison cec.1 cec.2 oec.2 (pct_diff_of cec.2 oec.2)]
  else [].

Inductive severity_level : Type := Critical | High | Medium | Low.

(** The [CASE] of the final [SELECT]. *)
Definition severity_of (pct_diff : Q) : severity_level :=
  if Qlt_bool 100 pct_diff then Critical
  else if Qlt_bool 50 pct_diff then High
  else if Qlt_bool 20 pct_diff then Medium
  else Low.

Record RosterRow : Type := mkRosterRow {
  ro_comparison : Comparison;
  severity : severity_level
}.

(** [roster_mismatch_query], ending with [ORDER BY pct_diff DESC]. *)
Definition roster_mismatch_query (employees_raw : list EmployeeRaw)
  : list RosterRow :=
  stable_sort
    (fun a b => Qle_bool (pct_diff (ro_comparison b)) (pct_diff (ro_comparison a)))
    (map (fun c => mkRosterRow c (severity_of (pct_diff c)))
       (comparison employees_raw)).

(** * Notions used to state the properties *)

(** Number of requests for [k] among [calls]. *)
Definition requests_for (k : value) (calls : list value) : nat :=
  length (filter (fun j => j = k) calls).

(** The cache holds answers of the source only. *)
Definition cache_sound (api_mock_data : gmap string EnrichmentResult)
    (st : ApiState) : Prop :=
  forall k r, api_cache st !! k = Some r ->
              source_lookup api_mock_data k = Some r.

(** A key the source knows is cached as soon as it has been requested, and
    has been requested at most once. *)
Definition requested_once (k : value) (st : ApiState) : Prop :=
  (requests_for k (api_calls st) <= 1)%nat
  /\ (k ∈ api_calls st -> is_Some (api_cache st !! k)).

(** Every row of a frame satisfies [P]. *)
Definition all_rows (P : Row -> Prop) (df : DataFrame) : Prop :=
  forall ir, ir ∈ body df -> P ir.2.

(** [P] does not look at column [c]. *)
Definition ignores (c : string) (P : Row -> Prop) : Prop :=
  forall r v, P r -> P (<[c := v]> r).

(** The three conditions of the cleaned relation, on one row: the e-mail,
    when it is text, matches the address pattern; the start date is a
    timestamp; the title is present. *)
Definition email_ok (r : Row) : Prop :=
  forall s, cell r "email" = VStr s -> re_fullmatch email_regex s = true.

Definition start_date_ok (r : Row) : Prop :=
  exists t, cell r "start_date" = VTs t.

Definition title_ok (r : Row) : Prop := cell r "title" ≠ VNull.

(** * Concrete inputs used by the examples below *)

Definition date_ns (y m d : Z) : Z := days_from_civil y m d * ns_per_day.

Definition employee_header : list string :=
  ["person_id"; "full_name"; "title"; "email"; "company_ein"; "start_date";
   "end_date"; "notes"].

Definition employee (person_id full_name : string)
    (title email company_ein start_date end_date : value) : Row :=
  list_to_map
    [("person_id", VStr person_id); ("full_name", VStr full_name);
     ("title", title); ("email", email); ("company_ein", company_ein);
     ("start_date", start_date); ("end_date", end_date); ("notes", VNull)].

Definition plan_header : list string :=
  ["company_ein"; "plan_type"; "carrier_name"; "start_date"; "end_date"].

(** A plan that started and ended in 2020. *)
Definition old_plan : Row :=
  list_to_map
    [("company_ein", VStr "11-1111111"); ("plan_type", VStr "Medical");
     ("carrier_name", VStr "Aetna");
     ("start_date", VTs (date_ns 2020 1 1));
     ("end_date", VTs (date_ns 2020 12 31))].

Definition ann : Row :=
  employee "P001" "Ann Lee" (VStr "Engineer") (VStr "ann.lee@hillwinds.com")
    (VStr "11-1111111") (VTs (date_ns 2023 5 1)) VNull.

Definition ann_promoted : Row :=
  employee "P001" "Ann Lee" (VStr "Director") (VStr "ann.lee@hillwinds.com")
    (VStr "11-1111111") (VTs (date_ns 2024 3 1)) VNull.

(** An employee whose e-mail cell is empty in the file. *)
Definition bob_no_email : Row :=
  employee "P002" "Bob Ray" (VStr "Analyst") VNull
    (VStr "22-2222222") (VTs (date_ns 2024 2 1)) VNull.

(** An employee whose e-mail is not an address. *)
Definition cy_bad_email : Row :=
  employee "P003" "Cy Day" (VStr "Clerk") (VStr "cy.day-at-peak")
    (VStr "33-3333333") (VTs (date_ns 2024 2 15)) VNull.

Definition sample_sources : Sources :=
  mkSources (mkTable employee_header [ann; ann_promoted; bob_no_email])
            (mkTable plan_header [old_plan])
            (mkTable ["company_ein"; "service_date"; "amount"] [])
            (<["hillwinds.com" := "11-1111111"]> ∅)
            (<["P001" := mkEnrichment (VStr "ann@home.org") (VStr "555-0101")]> ∅).

(** The employee frame ingested from [sample_sources] with the watermark at
    2024-01-01. *)
Definition new_in_2024 : DataFrame :=
  mkFrame employee_header [(1, ann_promoted); (2, bob_no_email)].

(** A store holding Ann's first record, as an earlier run leaves it. *)
Definition ann_stored : Row :=
  project_row FINAL_COLUMNS
    (<["row_id" := VInt 0]>
       (<["personal_email" := VStr "ann@home.org"]>
          (<["phone_number" := VStr "555-0101"]> ann))).

Definition store_with_ann : DataFrame := mkFrame FINAL_COLUMNS [(0, ann_stored)].

(** Sources whose only employee is Ann, hired in 2023. *)
Definition ann_only : Sources :=
  mkSources (mkTable employee_header [ann])
            (mkTable plan_header [old_plan])
            (mkTable ["company_ein"; "service_date"; "amount"] [])
            (<["hillwinds.com" := "11-1111111"]> ∅)
            (<["P001" := mkEnrichment (VStr "ann@home.org") (VStr "555-0101")]> ∅).

(** Sources whose only employee has no e-mail: the e-mail column of the
    file holds no text. *)
Definition bob_only : Sources :=
  mkSources (mkTable employee_header [bob_no_email])
            (mkTable plan_header [old_plan])
            (mkTable ["company_ein"; "service_date"; "amount"] [])
            ∅ ∅.

(** Sources whose employees file has no e-mail column. *)
Definition no_email_column : Sources :=
  mkSources (mkTable ["person_id"; "title"; "start_date"]
               [list_to_map [("person_id", VStr "P001"); ("title", VStr "Engineer");
                             ("start_date", VTs (date_ns 2024 3 1))]])
            (mkTable plan_header [old_plan])
            (mkTable ["company_ein"; "service_date"; "amount"] [])
            ∅ ∅.

(** Nothing has been written yet. *)
Definition nothing_saved : FS := mkFS None None None.

(** The state left by a first run over [ann_only] that ended on 2024-01-01:
    the watermark, Ann's record in the store, and one ledger entry for her
    empty end date. *)
Definition committed_2024 : FS :=
  mkFS (Some (date_ns 2024 1 1)) (Some store_with_ann)
       (Some [mkError (VInt 0) "end_date" (Fmt "Invalid date format: " VNull)]).

(** Two records of one person the enrichment source does not know. *)
Definition two_rows_unknown_person : DataFrame :=
  mkFrame employee_header
    [(0, employee "P404" "Dee Poe" (VStr "Nurse") (VStr "dee@hillwinds.com")
           VNull (VTs (date_ns 2024 2 1)) VNull);
     (1, employee "P404" "Dee Poe" (VStr "Head Nurse") (VStr "dee@hillwinds.com")
           VNull (VTs (date_ns 2024 4 1)) VNull)].

(** Medical plans of Hillwinds Health. *)
Definition medical_plan (carrier : string) (start_date end_date : Z) : PlanRaw :=
  mkPlanRaw (Some "11-1111111") (Some "Medical") (Some carrier)
            (Some start_date) (Some end_date).

(** [2023-01-01, 2023-01-31] followed by [2023-02-20, 2023-03-01]. *)
Definition plans_gap_19 : list PlanRaw :=
  [medical_plan "Aetna" (days_from_civil 2023 1 1) (days_from_civil 2023 1 31);
   medical_plan "Cigna" (days_from_civil 2023 2 20) (days_from_civil 2023 3 1)].

(** The second plan starts on 2023-02-06: five days are uncovered. *)
Definition plans_gap_5 : list PlanRaw :=
  [medical_plan "Aetna" (days_from_civil 2023 1 1) (days_from_civil 2023 1 31);
   medical_plan "Cigna" (days_from_civil 2023 2 6) (days_from_civil 2023 3 1)].


(** The second plan starts on 2023-02-08, eight days after the first one
    ends: the seven days from 2023-02-01 to 2023-02-07 are uncovered. *)
Definition plans_gap_7 : list PlanRaw :=
  [medical_plan "Aetna" (days_from_civil 2023 1 1) (days_from_civil 2023 1 31);
   medical_plan "Cigna" (days_from_civil 2023 2 8) (days_from_civil 2023 3 1)].

(** Claims of Hillwinds Health on two consecutive days. *)
Definition claim (service_date : Z) (amount : float) : ClaimRaw :=
  mkClaimRaw (Some "11-1111111") (Some service_date) (Some amount).

(** Rolling sums 1000, then 3500. *)
Definition claims_jump_250 : list ClaimRaw :=
  [claim (days_from_civil 2023 1 1) 1000; claim (days_from_civil 2023 1 2) 2500].




(** The doubles written [0.1] and [0.2]; the second is twice the first. *)
Definition one_tenth : float := (1 / 10)%float.

Definition two_tenths : float := (2 / 10)%float.

(** Rolling sums [0.1], then [0.1 + 0.2]. *)
Definition claims_tenths : list ClaimRaw :=
  [claim (days_from_civil 2023 1 1) one_tenth;
   claim (days_from_civil 2023 1 2) two_tenths].

(** Three claims of one day: [0.1], [0.2] and [0.3]. *)
Definition claims_one_day : list ClaimRaw :=
  [claim (days_from_civil 2023 1 1) one_tenth;
   claim (days_from_civil 2023 1 1) two_tenths;
   claim (days_from_civil 2023 1 1) (3 / 10)%float].

(** [n] employees of Hillwinds Health with pairwise different identifiers. *)
Definition hillwinds_staff (n : nat) : list EmployeeRaw :=
  map (fun i => mkEmployeeRaw (Some "11-1111111")
                  (Some (String (ascii_of_nat i) EmptyString)))
      (seq 0 n).

(** Ann's stored record with a new title, as a later run delivers it. *)
Definition ann_retitled : DataFrame :=
  mkFrame FINAL_COLUMNS [(0, <["title" := VStr "Senior Engineer"]> ann_stored)].

(** Sources whose only employee record has a malformed e-mail. *)
Definition only_cy : Sources :=
  mkSources (mkTable employee_header [cy_bad_email])
            (mkTable plan_header [old_plan])
            (mkTable ["company_ein"; "service_date"; "amount"] [])
            ∅ ∅.


(** Two records of Ann with one start date and two e-mail addresses. *)
Definition ann_other_email : Row :=
  employee "P001" "Ann Lee" (VStr "Engineer") (VStr "a.lee@hillwinds.com")
    (VStr "11-1111111") (VTs (date_ns 2023 5 1)) VNull.

Definition ann_twice : Sources :=
  mkSources (mkTable employee_header [ann; ann_other_email])
            (mkTable plan_header [old_plan])
            (mkTable ["company_ein"; "service_date"; "amount"] [])
            ∅ ∅.

(** * Further notions and inputs *)

(** Input files without any record. *)
Definition empty_files : Sources :=
  mkSources (mkTable employee_header [])
            (mkTable plan_header [])
            (mkTable ["company_ein"; "service_date"; "amount"] [])
            ∅ ∅.

(** The successive values of [clean_df] inside [clean_data], named: after
    deduplication and the e-mail check, after the date loop (with the
    errors so far), after sorting, and after the titles are carried. *)
Definition with_row_id (df : DataFrame) : DataFrame :=
  set_col "row_id" (fun ir => VInt ir.1) df.

Definition deduplicated (df : DataFrame) : DataFrame :=
  drop_duplicates ["person_id"; "email"; "start_date"] KeepFirst (with_row_id df).

Definition valid_emails (df : DataFrame) : DataFrame :=
  filter_rows (fun r => str_match_email (cell r "email")) (deduplicated df).

Definition dated (df : DataFrame) : DataFrame * list ValidationError :=
  foldl coerce_date_col
    (valid_emails df,
     map email_error
       (filter (fun ir => negb (str_match_email (cell ir.2 "email")))
          (body (deduplicated df))))
    date_cols.

Definition sorted (df : DataFrame) : DataFrame :=
  sort_values ["person_id"; "start_date"] (dated df).1.

Definition titled (df : DataFrame) : DataFrame :=
  assign_col "title"
    (groupby_transform "person_id" "title" (fun x => bfill (ffill x))
       (body (sorted df)))
    (sorted df).

(** The columns [clean_data] writes to. *)
Definition written_by_cleaning : list string :=
  ["row_id"; "start_date"; "end_date"; "last_updated"; "title"].

(** The row [r] stems from a row of [df]: it carries that row's label as
    [row_id] and that row's cells wherever [clean_data] does not write. *)
Definition stems_from (df : DataFrame) (r : Row) : Prop :=
  exists i r0,
    (i, r0) ∈ body df
    /\ cell r "row_id" = VInt i
    /\ forall c, c ∉ written_by_cleaning -> cell r c = cell r0 c.

(** A filled cell [v] keeps the cell [u] it replaces when [u] is present. *)
Definition keeps (u v : value) : Prop := u ≠ VNull -> v = u.

(** As [stems_from], for the columns [cs] written so far. *)
Definition stems_except (cs : list string) (df : DataFrame) (r : Row) : Prop :=
  exists i r0,
    (i, r0) ∈ body df
    /\ cell r "row_id" = VInt i
    /\ forall c, c ∉ cs -> cell r c = cell r0 c.

(** Number of ledger entries on the field [f]. *)
Definition entries_for (f : string) (errs : list ValidationError) : Z :=
  len (filter (fun e => field e = f) errs).

(** The key of the deduplication step of [clean_data]. *)
Definition dedup_key (ir : Z * Row) : list value :=
  subset_key ["person_id"; "email"; "start_date"] ir.2.

(** The start date of [r] is not a bare number. *)
Definition no_number_date (r : Row) : Prop :=
  forall z, cell r "start_date" ≠ VInt z.

(** The answer of the enrichment source for [person_id]: its entry, or the
    all-null record. *)
Definition source_answer (api_mock_data : gmap string EnrichmentResult)
    (person_id : value) : EnrichmentResult :=
  default NOT_FOUND (source_lookup api_mock_data person_id).

(** A row whose identifier [get_ein] fills in. *)
Definition ein_inferred (domain_to_ein : gmap string string)
    (ir : Z * Row) : bool :=
  isna (cell ir.2 "company_ein") && notna (get_ein domain_to_ein ir.2).

(** The key of the store. *)
Definition store_key (r : Row) : list value :=
  subset_key ["person_id"; "start_date"] r.

(** Ann's second record as an enrichment step delivers it. *)
Definition ann_promoted_enriched : DataFrame :=
  mkFrame FINAL_COLUMNS
    [(0, project_row FINAL_COLUMNS (<["row_id" := VInt 1]> ann_promoted))].

(** The join with [company_name_mapping] finds a company. *)
Definition in_mapping (ein : option string) : bool :=
  match company_names ein with [] => false | _ => true end.

(** The [GROUP BY] key of [daily_costs]. *)
Definition daily_key (d : DailyCost) : string * option Z :=
  (dc_company_name d, dc_service_date d).

Definition claim_key (c : ClaimCost) : string * option Z :=
  (cc_company_name c, cc_service_date c).

(** Two claims of Hillwinds Health 400 days apart. *)
Definition claims_400_days_apart : list ClaimRaw :=
  [claim (days_from_civil 2023 1 1) 1000;
   claim (days_from_civil 2023 1 1 + 400) 3500].

(** A plan that covers all of 2023, and three shorter plans inside it. *)
Definition plans_nested : list PlanRaw :=
  [medical_plan "Aetna" (days_from_civil 2023 1 1) (days_from_civil 2023 12 31);
   medical_plan "Cigna" (days_from_civil 2023 1 10) (days_from_civil 2023 1 20);
   medical_plan "Kaiser" (days_from_civil 2023 3 1) (days_from_civil 2023 3 31);
   medical_plan "Cigna" (days_from_civil 2023 6 1) (days_from_civil 2023 6 30)].

(** The columns [enrich_data] writes to. *)
Definition written_by_enrichment : list string :=
  ["company_ein"; "personal_email"; "phone_number"].

(** Row [k] of the enriched frame, built from row [ir] of the input. *)
Definition enriched_row (src : Sources) (cols : list string) (k : nat)
    (ir : Z * Row) : Z * Row :=
  (Z.of_nat k,
   project_row cols
     (enrichment_row (source_answer (API_MOCK src) (cell ir.2 "person_id"))
        ∪ <["company_ein" := get_ein (COMPANY_LOOKUP src) ir.2]> ir.2)).

(** The columns of the employees file that no step of the pipeline writes
    to. *)
Definition passed_through : list string :=
  ["person_id"; "full_name"; "email"; "notes"].

(** The row [r] carries, on the columns selected by [keep], the cells of a
    record of the employees file whose start date is after [wm]. *)
Definition newly_ingested (src : Sources) (wm : Z) (keep : string -> Prop)
    (r : Row) : Prop :=
  exists r0 t,
    r0 ∈ records (EMPLOYEES src)
    /\ to_datetime (cell r0 "start_date") = VTs t
    /\ wm < t
    /\ forall c, keep c -> cell r c = cell r0 c.

(** The rows of the store that a run leaves. *)
Definition stored_rows (result : option (FS * Metrics)) : list Row :=
  match result with
  | Some (fs', _) =>
      match CLEAN_DATA fs' with
      | Some store => map snd (body store)
      | None => []
      end
  | None => []
  end.

(** The words of a regular expression. *)
Inductive matches : regex -> list ascii -> Prop :=
  | matches_empty : matches Empty []
  | matches_class (p : ascii -> bool) (a : ascii) :
      p a = true -> matches (Class p) [a]
  | matches_cat (r s : regex) (u v : list ascii) :
      matches r u -> matches s v -> matches (Cat r s) (u ++ v)
  | matches_or_l (r s : regex) (u : list ascii) :
      matches r u -> matches (Or r s) u
  | matches_or_r (r s : regex) (u : list ascii) :
      matches s u -> matches (Or r s) u
  | matches_many_nil (r : regex) : matches (Many r) []
  | matches_many_cons (r : regex) (u v : list ascii) :
      matches r u -> matches (Many r) v -> matches (Many r) (u ++ v).

(** The shape of an e-mail address: a local part, ['@'], a domain, ['.'],
    two letters or more, and possibly one final newline. *)
Definition address_shape (w : list ascii) : Prop :=
  exists local domain tld nl,
    w = local ++ "@"%char :: domain ++ "."%char :: tld ++ nl
    /\ local <> [] /\ forallb local_char local = true
    /\ domain <> [] /\ forallb domain_char domain = true
    /\ (2 <= length tld)%nat /\ forallb is_alpha tld = true
    /\ (nl = [] \/ nl = [newline]).

(** * Properties *)

(** ** Cells and frames *)

Lemma cell_insert_eq (r : Row) (c : string) (v : value) :
  cell (<[c := v]> r) c = v.
Proof. unfold cell. by rewrite lookup_insert_eq. Qed.

Lemma cell_insert_ne (r : Row) (c d : string) (v : value) :
  c ≠ d -> cell (<[c := v]> r) d = cell r d.
Proof. intros Hne. unfold cell. by rewrite lookup_insert_ne. Qed.

Lemma df_empty_body (df : DataFrame) : body df = [] -> df_empty df = true.
Proof. unfold df_empty. intros ->. by destruct (columns df). Qed.

Lemma filter_after_Some (c : string) (ts : Z) (df df' : DataFrame) :
  filter_after c ts df = Some df' -> df' = filter_rows (after c ts) df.
Proof.
  unfold filter_after. destruct (in_bounds ts); [|done]. simpl.
  destruct (existsb _ _); [done|]. by intros [= <-].
Qed.

Lemma filter_after_in_bounds (c : string) (ts : Z) (df df' : DataFrame) :
  filter_after c ts df = Some df' ->
  in_bounds ts = true
  /\ existsb (fun ir => is_text (cell ir.2 c)) (body df) = false.
Proof.
  unfold filter_after. destruct (in_bounds ts); [|done]. simpl.
  by destruct (existsb _ _).
Qed.

(** What a return of the reader tells. *)
Lemma ingest_data_Some (src : Sources) (wm : Z) (e p c : DataFrame) :
  ingest_data src wm = Some (e, p, c) <->
  "start_date" ∈ header (EMPLOYEES src)
  /\ "service_date" ∈ header (CLAIMS src)
  /\ filter_after "start_date" wm (read_csv_dates "start_date" (EMPLOYEES src))
     = Some e
  /\ filter_after "service_date" wm (read_csv_dates "service_date" (CLAIMS src))
     = Some c
  /\ p = read_csv (PLANS src).
Proof.
  unfold ingest_data.
  destruct (bool_decide_reflect ("start_date" ∈ header (EMPLOYEES src))) as [H1|H1];
    [|split; [done|tauto]].
  destruct (bool_decide_reflect ("service_date" ∈ header (CLAIMS src))) as [H2|H2];
    [|split; [done|tauto]].
  cbn [negb].
  destruct (filter_after "start_date" _ _) as [e'|];
    [|split; [done|by intros (_ & _ & ? & _)]].
  destruct (filter_after "service_date" _ _) as [c'|];
    [|split; [done|by intros (_ & _ & _ & ? & _)]].
  simpl. split.
  - by intros [= <- <- <-].
  - by intros (_ & _ & [= <-] & [= <-] & ->).
Qed.

Lemma after_spec (c : string) (ts : Z) (r : Row) :
  after c ts r = true <-> exists t, cell r c = VTs t /\ ts < t.
Proof.
  unfold after. destruct (cell r c) as [|s|z|t]; split; try done;
    try (intros (t' & [=] & _); done).
  - intros H. exists t. split; [done|]. by apply Z.ltb_lt.
  - intros (t' & [= <-] & Hlt). by apply Z.ltb_lt.
Qed.

(** ** C4: the incremental reader *)

Lemma elem_of_filter_rows (p : Row -> bool) (df : DataFrame) (ir : Z * Row) :
  ir ∈ body (filter_rows p df) <-> p ir.2 = true /\ ir ∈ body df.
Proof.
  unfold filter_rows; simpl. rewrite list_elem_of_filter.
  by rewrite Is_true_true.
Qed.

(** C4, as the code has it.  When [ingest_data] returns, the employee rows
    are exactly the rows read whose [start_date] is a timestamp strictly
    after the watermark, the claim rows exactly those whose [service_date]
    is, and the plan table is the whole table as read. *)
Theorem ingest_data_filters_employees_and_claims
    (src : Sources) (wm : Z) (e p c : DataFrame) :
  ingest_data src wm = Some (e, p, c) ->
  e = filter_rows (after "start_date" wm)
        (read_csv_dates "start_date" (EMPLOYEES src))
  /\ (forall ir, ir ∈ body e <->
        ir ∈ body (read_csv_dates "start_date" (EMPLOYEES src))
        /\ exists t, cell ir.2 "start_date" = VTs t /\ wm < t)
  /\ c = filter_rows (after "service_date" wm)
           (read_csv_dates "service_date" (CLAIMS src))
  /\ (forall ir, ir ∈ body c <->
        ir ∈ body (read_csv_dates "service_date" (CLAIMS src))
        /\ exists t, cell ir.2 "service_date" = VTs t /\ wm < t)
  /\ p = read_csv (PLANS src).
Proof.
  intros (_ & _ & He & Hc & ->)%ingest_data_Some.
  apply filter_after_Some in He, Hc. subst e c.
  split; [done|]. split.
  { intros ir. rewrite elem_of_filter_rows, after_spec. tauto. }
  split; [done|]. split; [|done].
  intros ir. rewrite elem_of_filter_rows, after_spec. tauto.
Qed.

Lemma ingest_data_filters_employees_and_claims_witness :
  ingest_data sample_sources (date_ns 2024 1 1)
  = Some (new_in_2024,
          mkFrame plan_header [(0, old_plan)],
          mkFrame ["company_ein"; "service_date"; "amount"] [])
  /\ mkFrame plan_header [(0, old_plan)] = read_csv (PLANS sample_sources).
Proof.
  assert (H : ingest_data sample_sources (date_ns 2024 1 1)
    = Some (new_in_2024,
            mkFrame plan_header [(0, old_plan)],
            mkFrame ["company_ein"; "service_date"; "amount"] []))
    by (vm_compute; reflexivity).
  split; [exact H|].
  exact (proj2 (proj2 (proj2 (proj2
    (ingest_data_filters_employees_and_claims _ _ _ _ _ H))))).
Defined.

Lemma map_snd_relabel (i : Z) (l : list Row) : map snd (relabel i l) = l.
Proof.
  revert i. induction l as [|r l IH]; intros i; simpl; [done|]. by rewrite IH.
Qed.

Lemma elem_of_relabel (i : Z) (l : list Row) (ir : Z * Row) :
  ir ∈ relabel i l -> ir.2 ∈ l.
Proof.
  intros H. rewrite <- (map_snd_relabel i l).
  apply list_elem_of_fmap. by exists ir.
Qed.

Lemma read_csv_dates_no_text (c : string) (t : Table) :
  (forall r, r ∈ records t -> is_text (cell r c) = false) ->
  existsb (fun ir => is_text (cell ir.2 c)) (body (read_csv_dates c t)) = false.
Proof.
  intros Ht. apply not_true_is_false. intros Hex.
  apply existsb_exists in Hex as (ir & Hin & Htxt).
  apply list_elem_of_In in Hin. unfold read_csv_dates in Hin.
  destruct (forallb _ _) eqn:Hall.
  - simpl in Hin. apply list_elem_of_fmap in Hin as (jr & -> & _).
    simpl in Htxt. rewrite cell_insert_eq in Htxt.
    by destruct (cell jr.2 c).
  - simpl in Hin. apply elem_of_relabel in Hin.
    rewrite (Ht _ Hin) in Htxt. done.
Qed.

(** The reader returns whenever the two files have their date column, the
    watermark is an instant [pd.Timestamp] can hold, and no date cell holds
    text that is not a date. *)
Lemma ingest_data_returns (src : Sources) (wm : Z) :
  "start_date" ∈ header (EMPLOYEES src) ->
  "service_date" ∈ header (CLAIMS src) ->
  in_bounds wm = true ->
  (forall r, r ∈ records (EMPLOYEES src) -> is_text (cell r "start_date") = false) ->
  (forall r, r ∈ records (CLAIMS src) -> is_text (cell r "service_date") = false) ->
  is_Some (ingest_data src wm).
Proof.
  intros H1 H2 Hwm He Hc. eexists (_, _, _). apply ingest_data_Some.
  unfold filter_after. rewrite Hwm.
  rewrite (read_csv_dates_no_text _ _ He), (read_csv_dates_no_text _ _ Hc).
  by repeat split.
Qed.

(** C4, as stated, fails on the plan table: with the watermark at
    2024-01-01, the plan that started and ended in 2020 is returned, next to
    the two employee records of 2024. *)
Lemma ingest_data_returns_old_plan :
  ingest_data sample_sources (date_ns 2024 1 1)
  = Some (new_in_2024,
          mkFrame plan_header [(0, old_plan)],
          mkFrame ["company_ein"; "service_date"; "amount"] [])
  /\ after "start_date" (date_ns 2024 1 1) old_plan = false
  /\ after "end_date" (date_ns 2024 1 1) old_plan = false.
Proof. repeat split; vm_compute; reflexivity. Qed.

(** ** C1: a run without new rows *)

Lemma clean_data_empty (df : DataFrame) :
  df_empty df = true -> clean_data df = (empty_frame, [], mkCleanMetrics 0 0).
Proof. unfold clean_data. by intros ->. Qed.

Lemma enrich_data_empty (src : Sources) (df : DataFrame) :
  df_empty df = true -> enrich_data src df = (df, 0).
Proof. unfold enrich_data. by intros ->. Qed.

(** The short circuit of [run_etl]: when the three frames are empty the
    watermark and the store are left as they are. *)
Lemma run_etl_no_data (src : Sources) (now : Z) (fs : FS) (e p c : DataFrame) :
  ingest_data src (get_high_water_mark fs) = Some (e, p, c) ->
  df_empty e = true -> df_empty c = true -> df_empty p = true ->
  exists fs' m, run_etl src now fs = Some (fs', m)
    /\ WATERMARK fs' = WATERMARK fs /\ CLEAN_DATA fs' = CLEAN_DATA fs.
Proof.
  intros Hin He Hc Hp. unfold run_etl. rewrite Hin. simpl.
  rewrite He, Hc, Hp. simpl. eauto.
Qed.

(** C1 at its failing input, in general form.  Let no employee row and no
    claim row be newer than the watermark, and let the plan table hold a
    row.  The run does not take the short circuit: it goes through cleaning,
    enrichment and saving with an empty relation, keeps an existing store as
    it is, and then overwrites the watermark with the clock reading. *)
Theorem run_etl_overwrites_watermark_without_new_rows
    (src : Sources) (now : Z) (fs : FS) (e p c : DataFrame) :
  ingest_data src (get_high_water_mark fs) = Some (e, p, c) ->
  body e = [] -> body c = [] -> df_empty p = false ->
  exists fs' m, run_etl src now fs = Some (fs', m)
    /\ WATERMARK fs' = Some now
    /\ (forall s, CLEAN_DATA fs = Some s -> CLEAN_DATA fs' = Some s).
Proof.
  intros Hin He Hc Hp. unfold run_etl. rewrite Hin. simpl.
  rewrite (df_empty_body e He), (df_empty_body c Hc), Hp. simpl.
  unfold clean_data_runs. rewrite (df_empty_body e He). cbn [orb negb].
  rewrite (clean_data_empty e (df_empty_body e He)).
  change (enrich_data_runs empty_frame) with true. cbn [negb].
  rewrite (enrich_data_empty src empty_frame eq_refl).
  unfold save_outputs, save_store.
  destruct (CLEAN_DATA fs) as [s|] eqn:Hs; simpl.
  - eexists _, _. split; [reflexivity|]. split; [done|].
    simpl. by intros s' [= <-].
  - eexists _, _. split; [reflexivity|]. split; [done|]. done.
Qed.

Lemma run_etl_overwrites_watermark_without_new_rows_witness :
  exists fs' m,
    run_etl ann_only (date_ns 2024 6 1) committed_2024 = Some (fs', m)
    /\ WATERMARK fs' = Some (date_ns 2024 6 1)
    /\ (forall s, CLEAN_DATA committed_2024 = Some s -> CLEAN_DATA fs' = Some s).
Proof.
  apply (run_etl_overwrites_watermark_without_new_rows ann_only
           (date_ns 2024 6 1) committed_2024
           (mkFrame employee_header [])
           (mkFrame plan_header [(0, old_plan)])
           (mkFrame ["company_ein"; "service_date"; "amount"] [])).
  - vm_compute. reflexivity.
  - reflexivity.
  - reflexivity.
  - reflexivity.
Defined.

(** The same input, evaluated.  A first run over [ann_only] ends on
    2024-01-01 in the state [committed_2024]; a second run over the same
    files ends on 2024-06-01 with the same store and the ledger untouched,
    and with the watermark moved to 2024-06-01. *)
Lemma second_run_moves_watermark :
  fst <$> run_etl ann_only (date_ns 2024 1 1) nothing_saved = Some committed_2024
  /\ fst <$> run_etl ann_only (date_ns 2024 6 1) committed_2024
     = Some (mkFS (Some (date_ns 2024 6 1)) (CLEAN_DATA committed_2024)
               (VALIDATION_ERRORS committed_2024))
  /\ date_ns 2024 6 1 ≠ date_ns 2024 1 1.
Proof.
  split; [vm_compute; reflexivity|]. split; [vm_compute; reflexivity|].
  by vm_compute.
Qed.

(** ** C2: the enrichment cache *)

Section Enrichment.
Variable api_mock_data : gmap string EnrichmentResult.

(** One call of [get_enrichment_data]: either a cache hit, which leaves
    the state alone, or one request, cached exactly when answered. *)
Lemma get_enrichment_data_step (person_id : value) (st : ApiState) :
  let '(_, st') := get_enrichment_data api_mock_data 3 person_id st in
  match api_cache st !! person_id with
  | Some _ => st' = st
  | None =>
      api_calls st' = api_calls st ++ [person_id]
      /\ api_cache st' =
           match source_lookup api_mock_data person_id with
           | Some result => <[person_id := result]> (api_cache st)
           | None => api_cache st
           end
  end.
Proof.
  unfold get_enrichment_data.
  destruct (api_cache st !! person_id) eqn:Hc; [done|].
  simpl. unfold api_attempt.
  by destruct (source_lookup api_mock_data person_id).
Qed.

#[local] Abbreviation cache_sound := (cache_sound api_mock_data).

Lemma requests_for_snoc (k j : value) (calls : list value) :
  requests_for k (calls ++ [j])
  = (requests_for k calls + if decide (j = k) then 1 else 0)%nat.
Proof.
  unfold requests_for. rewrite filter_app, length_app. f_equal.
  rewrite filter_cons, filter_nil. by destruct (decide (j = k)).
Qed.

Lemma requests_for_zero (k : value) (calls : list value) :
  k ∉ calls -> requests_for k calls = 0%nat.
Proof.
  intros Hk. unfold requests_for.
  destruct (filter _ calls) as [|x l] eqn:Hf; [done|].
  assert (Hx : x ∈ filter (fun j => j = k) calls) by (rewrite Hf; left).
  apply list_elem_of_filter in Hx as [-> Hx]. done.
Qed.

Lemma cache_sound_step (person_id : value) (st : ApiState) :
  cache_sound st ->
  cache_sound (get_enrichment_data api_mock_data 3 person_id st).2.
Proof.
  intros Hs. pose proof (get_enrichment_data_step person_id st) as Hstep.
  destruct (get_enrichment_data _ _ _ _) as [res st']. simpl.
  destruct (api_cache st !! person_id) eqn:Hc; [by subst|].
  destruct Hstep as [_ Hcache]. intros k r. rewrite Hcache.
  destruct (source_lookup api_mock_data person_id) eqn:Hsrc; [|apply Hs].
  destruct (decide (person_id = k)) as [->|Hne].
  - rewrite lookup_insert_eq. by intros [= <-].
  - rewrite lookup_insert_ne by done. apply Hs.
Qed.

Lemma requested_once_step (k person_id : value) (st : ApiState) :
  is_Some (source_lookup api_mock_data k) ->
  requested_once k st ->
  requested_once k (get_enrichment_data api_mock_data 3 person_id st).2.
Proof.
  intros [r Hr] [Hle Hin].
  pose proof (get_enrichment_data_step person_id st) as Hstep.
  destruct (get_enrichment_data _ _ _ _) as [res st']. simpl.
  destruct (api_cache st !! person_id) eqn:Hc; [by subst|].
  destruct Hstep as [Hcalls Hcache]. unfold requested_once.
  rewrite Hcalls, Hcache, requests_for_snoc.
  destruct (decide (person_id = k)) as [->|Hne].
  - rewrite Hr, lookup_insert_eq. split; [|eauto].
    rewrite requests_for_zero; [lia|].
    intros Hk. apply Hin in Hk as [? Hk]. congruence.
  - split; [lia|]. intros Hk. apply elem_of_app in Hk as [Hk|Hk].
    + destruct (source_lookup api_mock_data person_id);
        [rewrite lookup_insert_ne by done|]; by apply Hin.
    + apply list_elem_of_singleton in Hk. congruence.
Qed.

(** Requests for a key the source does not know: one per call. *)
Lemma absent_step (k person_id : value) (st : ApiState) :
  source_lookup api_mock_data k = None ->
  cache_sound st ->
  requests_for k (api_calls (get_enrichment_data api_mock_data 3 person_id st).2)
  = (requests_for k (api_calls st) + if decide (person_id = k) then 1 else 0)%nat.
Proof.
  intros Hnone Hs.
  pose proof (get_enrichment_data_step person_id st) as Hstep.
  destruct (get_enrichment_data _ _ _ _) as [res st']. simpl.
  destruct (api_cache st !! person_id) eqn:Hc.
  - subst st'. destruct (decide (person_id = k)) as [->|]; [|lia].
    apply Hs in Hc. congruence.
  - destruct Hstep as [-> _]. apply requests_for_snoc.
Qed.

Lemma apply_cache_sound (ids : list value) (st : ApiState) :
  cache_sound st ->
  cache_sound (apply_get_enrichment_data api_mock_data ids st).2.
Proof.
  revert st. induction ids as [|j ids IH]; intros st Hs; simpl; [done|].
  pose proof (cache_sound_step j st Hs) as H1.
  destruct (get_enrichment_data _ _ _ _) as [res st1]. simpl in H1.
  specialize (IH st1 H1).
  by destruct (apply_get_enrichment_data _ _ _) as [results st2].
Qed.

Lemma apply_requested_once (k : value) (ids : list value) (st : ApiState) :
  is_Some (source_lookup api_mock_data k) ->
  requested_once k st ->
  requested_once k (apply_get_enrichment_data api_mock_data ids st).2.
Proof.
  intros Hk. revert st. induction ids as [|j ids IH]; intros st Hs; simpl; [done|].
  pose proof (requested_once_step k j st Hk Hs) as H1.
  destruct (get_enrichment_data _ _ _ _) as [res st1]. simpl in H1.
  specialize (IH st1 H1).
  by destruct (apply_get_enrichment_data _ _ _) as [results st2].
Qed.

Lemma apply_absent (k : value) (ids : list value) (st : ApiState) :
  source_lookup api_mock_data k = None ->
  cache_sound st ->
  requests_for k (api_calls (apply_get_enrichment_data api_mock_data ids st).2)
  = (requests_for k (api_calls st) + requests_for k ids)%nat.
Proof.
  intros Hk. revert st. induction ids as [|j ids IH]; intros st Hs; simpl.
  - unfold requests_for at 3. simpl. lia.
  - pose proof (absent_step k j st Hk Hs) as H1.
    pose proof (cache_sound_step j st Hs) as H2.
    destruct (get_enrichment_data _ _ _ _) as [res st1]. simpl in H1, H2.
    specialize (IH st1 H2).
    destruct (apply_get_enrichment_data _ _ _) as [results st2].
    simpl in *. rewrite IH, H1. unfold requests_for at 4.
    rewrite filter_cons. destruct (decide (j = k)); simpl;
      fold (requests_for k ids); lia.
Qed.
End Enrichment.

Lemma cache_sound_init (api_mock_data : gmap string EnrichmentResult) :
  cache_sound api_mock_data init_api.
Proof. intros k r. unfold init_api. simpl. by rewrite lookup_empty. Qed.

(** The half of C2 the code keeps: a person the source knows is requested
    at most once in a run, however many rows carry the identifier. *)
Lemma known_person_requested_once (src : Sources) (df : DataFrame) (k : value) :
  is_Some (source_lookup (API_MOCK src) k) ->
  (requests_for k (api_calls (enrichment_requests src df).2) <= 1)%nat.
Proof.
  intros Hk. unfold enrichment_requests.
  apply (apply_requested_once (API_MOCK src) k _ init_api Hk).
  split; [unfold requests_for; simpl; lia|]. simpl. by intros ?%elem_of_nil.
Qed.

(** C2 at its failing input, in general form: a person the source does not
    know is requested once for every row carrying the identifier, because
    the not-found answer is returned without being cached. *)
Theorem unknown_person_requested_for_every_row
    (src : Sources) (df : DataFrame) (k : value) :
  source_lookup (API_MOCK src) k = None ->
  requests_for k (api_calls (enrichment_requests src df).2)
  = requests_for k (map (fun ir => cell ir.2 "person_id") (body df)).
Proof.
  intros Hk. unfold enrichment_requests.
  rewrite (apply_absent (API_MOCK src) k _ init_api Hk (cache_sound_init _)).
  unfold requests_for at 1. simpl. lia.
Qed.

Lemma unknown_person_requested_for_every_row_witness :
  source_lookup (API_MOCK sample_sources) (VStr "P404") = None
  /\ requests_for (VStr "P404")
       (api_calls (enrichment_requests sample_sources two_rows_unknown_person).2)
     = 2%nat.
Proof.
  split; [reflexivity|].
  rewrite (unknown_person_requested_for_every_row sample_sources
             two_rows_unknown_person (VStr "P404") eq_refl).
  reflexivity.
Defined.

(** The same input, evaluated: both rows reach the source. *)
Lemma unknown_person_two_requests :
  api_calls (enrichment_requests sample_sources two_rows_unknown_person).2
  = [VStr "P404"; VStr "P404"].
Proof. vm_compute. reflexivity. Qed.

(** ** C3: what cleaning guarantees *)

Lemma insert_sorted_perm {A : Type} (leb : A -> A -> bool) (x : A) (l : list A) :
  insert_sorted leb x l ≡ₚ x :: l.
Proof.
  induction l as [|y l IH]; simpl; [done|].
  destruct (leb x y); [done|]. rewrite IH. apply Permutation_swap.
Qed.

Lemma stable_sort_perm {A : Type} (leb : A -> A -> bool) (l : list A) :
  stable_sort leb l ≡ₚ l.
Proof.
  induction l as [|x l IH]; simpl; [done|].
  unfold stable_sort in *. simpl. by rewrite insert_sorted_perm, IH.
Qed.

Lemma elem_of_stable_sort {A : Type} (leb : A -> A -> bool) (l : list A) (x : A) :
  x ∈ stable_sort leb l <-> x ∈ l.
Proof. by rewrite stable_sort_perm. Qed.

Lemma all_rows_filter_rows (P : Row -> Prop) (p : Row -> bool) (df : DataFrame) :
  all_rows P df -> all_rows P (filter_rows p df).
Proof. intros H ir Hin. apply elem_of_filter_rows in Hin as [_ Hin]. by apply H. Qed.

Lemma all_rows_set_col (P : Row -> Prop) (c : string) (f : Z * Row -> value)
    (df : DataFrame) :
  ignores c P -> all_rows P df -> all_rows P (set_col c f df).
Proof.
  intros Hc H ir Hin. unfold set_col in Hin; simpl in Hin.
  apply list_elem_of_fmap in Hin as (jr & -> & Hjr). simpl. apply Hc. by apply H.
Qed.

Lemma all_rows_sort_values (P : Row -> Prop) (cs : list string) (df : DataFrame) :
  all_rows P df -> all_rows P (sort_values cs df).
Proof.
  intros H ir Hin. unfold sort_values in Hin; simpl in Hin.
  apply elem_of_stable_sort in Hin. by apply H.
Qed.

Lemma elem_of_zip_with_l {A B C : Type} (f : A -> B -> C) (l : list A) (k : list B) (z : C) :
  z ∈ zip_with f l k -> exists x y, z = f x y /\ x ∈ l /\ y ∈ k.
Proof.
  revert k. induction l as [|a l IH]; intros [|b k] Hz; simpl in Hz;
    try by apply elem_of_nil in Hz.
  apply elem_of_cons in Hz as [->|Hz].
  - exists a, b. split; [done|]. split; left.
  - destruct (IH k Hz) as (x & y & -> & Hx & Hy).
    exists x, y. split; [done|]. split; by right.
Qed.

Lemma all_rows_assign_col (P : Row -> Prop) (c : string) (vals : list value)
    (df : DataFrame) :
  ignores c P -> all_rows P df -> all_rows P (assign_col c vals df).
Proof.
  intros Hc H ir Hin. unfold assign_col in Hin; simpl in Hin.
  apply elem_of_zip_with_l in Hin as (jr & v & -> & Hjr & _). simpl.
  apply Hc. by apply H.
Qed.

Lemma all_rows_fillna (P : Row -> Prop) (c : string) (v : value) (df : DataFrame) :
  ignores c P -> all_rows P df -> all_rows P (fillna c v df).
Proof.
  intros Hc H ir Hin. unfold fillna in Hin; simpl in Hin.
  apply list_elem_of_fmap in Hin as (jr & -> & Hjr). simpl.
  destruct (isna (cell jr.2 c)); [apply Hc|]; by apply H.
Qed.

Lemma all_rows_coerce_date_col (P : Row -> Prop) (col : string)
    (st : DataFrame * list ValidationError) :
  ignores col P -> all_rows P st.1 -> all_rows P (coerce_date_col st col).1.
Proof.
  intros Hc H. destruct st as [df errs]. unfold coerce_date_col. simpl in *.
  destruct (has_column col df); [|done]. simpl.
  assert (H1 : all_rows P (set_col col (fun ir => to_datetime (cell ir.2 col)) df))
    by by apply all_rows_set_col.
  destruct (bool_decide _); [|done]. by apply all_rows_filter_rows.
Qed.

Lemma email_ok_ignores (c : string) : c ≠ "email" -> ignores c email_ok.
Proof. intros Hne r v H s. rewrite cell_insert_ne by done. apply H. Qed.

Lemma start_date_ok_ignores (c : string) :
  c ≠ "start_date" -> ignores c start_date_ok.
Proof. intros Hne r v [t H]. exists t. by rewrite cell_insert_ne. Qed.

(** The turn of the date loop for [start_date] leaves timestamps only. *)
Lemma coerce_start_date (st : DataFrame * list ValidationError) :
  has_column "start_date" st.1 = true ->
  all_rows start_date_ok (coerce_date_col st "start_date").1.
Proof.
  destruct st as [df errs]. simpl. intros Hcol.
  unfold coerce_date_col. rewrite Hcol. simpl.
  intros ir Hin. apply elem_of_filter_rows in Hin as [Hna Hin].
  unfold set_col in Hin; simpl in Hin.
  apply list_elem_of_fmap in Hin as (jr & -> & Hjr). simpl in *.
  rewrite cell_insert_eq in Hna. unfold start_date_ok.
  rewrite cell_insert_eq.
  destruct (cell jr.2 "start_date"); simpl in *; try done; eauto.
Qed.

(** C3, as the code has it.  In every row of the cleaned relation the e-mail
    is missing or matches the address pattern, the start date is a valid
    timestamp, and the title is present. *)
Theorem clean_data_postcondition (df : DataFrame) :
  "start_date" ∈ columns df ->
  forall ir, ir ∈ body (clean_data df).1.1 ->
    email_ok ir.2 /\ start_date_ok ir.2 /\ title_ok ir.2.
Proof.
  intros Hcol. unfold clean_data.
  destruct (df_empty df); [intros ir Hin; by apply elem_of_nil in Hin|].
  set (df0 := filter_rows _ (drop_duplicates _ _ _)).
  set (errs0 := map email_error _).
  assert (Hc0 : has_column "start_date" df0 = true).
  { unfold has_column, df0, set_col. simpl. apply bool_decide_eq_true.
    destruct (has_column "row_id" df); [done|]. apply elem_of_app. by left. }
  assert (He0 : all_rows email_ok df0).
  { intros ir Hin. apply elem_of_filter_rows in Hin as [Hm _].
    intros s Hs. rewrite Hs in Hm. exact Hm. }
  unfold date_cols. cbn [foldl].
  set (st1 := coerce_date_col (df0, errs0) "start_date").
  set (st2 := coerce_date_col st1 "end_date").
  pose proof (coerce_start_date (df0, errs0) Hc0) as Hs1. fold st1 in Hs1.
  assert (He1 : all_rows email_ok st1.1)
    by (by apply all_rows_coerce_date_col; [apply email_ok_ignores|]).
  assert (He2 : all_rows email_ok st2.1)
    by (by apply all_rows_coerce_date_col; [apply email_ok_ignores|]).
  assert (Hs2 : all_rows start_date_ok st2.1)
    by (by apply all_rows_coerce_date_col; [apply start_date_ok_ignores|]).
  assert (He3 : all_rows email_ok (coerce_date_col st2 "last_updated").1)
    by (by apply all_rows_coerce_date_col; [apply email_ok_ignores|]).
  assert (Hs3 : all_rows start_date_ok (coerce_date_col st2 "last_updated").1)
    by (by apply all_rows_coerce_date_col; [apply start_date_ok_ignores|]).
  destruct (coerce_date_col st2 "last_updated") as [df3 errs3].
  cbn [fst snd] in *.
  assert (Hkeep : forall P, ignores "title" P -> all_rows P df3 ->
     all_rows P (fillna "title" (VStr "Unknown")
       (assign_col "title"
          (groupby_transform "person_id" "title" (fun x => bfill (ffill x))
             (body (sort_values ["person_id"; "start_date"] df3)))
          (sort_values ["person_id"; "start_date"] df3)))).
  { intros P HP H3. apply all_rows_fillna; [done|].
    apply all_rows_assign_col; [done|]. by apply all_rows_sort_values. }
  intros ir Hin. split; [|split].
  - by apply (Hkeep email_ok (email_ok_ignores "title" ltac:(done)) He3).
  - by apply (Hkeep start_date_ok (start_date_ok_ignores "title" ltac:(done)) Hs3).
  - unfold fillna in Hin; cbn [body] in Hin.
    apply list_elem_of_fmap in Hin as (jr & -> & Hjr). cbn [snd]. unfold title_ok.
    destruct (isna (cell jr.2 "title")) eqn:Hna.
    + by rewrite cell_insert_eq.
    + intros Hnull. by rewrite Hnull in Hna.
Qed.

Lemma clean_data_postcondition_witness :
  "start_date" ∈ columns new_in_2024
  /\ forall ir, ir ∈ body (clean_data new_in_2024).1.1 ->
       email_ok ir.2 /\ start_date_ok ir.2 /\ title_ok ir.2.
Proof.
  assert (H : "start_date" ∈ columns new_in_2024)
    by (apply (bool_decide_unpack _); vm_compute; exact I).
  split; [exact H|]. exact (clean_data_postcondition new_in_2024 H).
Defined.

(** C3, as stated, fails on the e-mail: Bob's record, whose e-mail is
    missing, passes the format check and is part of the cleaned relation. *)
Lemma clean_data_keeps_missing_email :
  map (fun ir => (cell ir.2 "person_id", cell ir.2 "email"))
      (body (clean_data new_in_2024).1.1)
  = [(VStr "P001", VStr "ann.lee@hillwinds.com"); (VStr "P002", VNull)].
Proof. vm_compute. reflexivity. Qed.

(** ** C5 and C6: plan gap detection *)

(** C5 on the code.  For [2023-01-01, 2023-01-31] followed by
    [2023-02-20, 2023-03-01] one gap is reported, from 2023-02-01 to
    2023-02-19; these bounds enclose 19 days, and the reported
    [gap_length_days] is 18.  With five uncovered days nothing is
    reported. *)
Theorem plan_gaps_query_example :
  plan_gaps_query plans_gap_19
  = [mkGapRow "Hillwinds Health"
       (days_from_civil 2023 2 1) (days_from_civil 2023 2 19) 18
       (Some "Aetna") (Some "Cigna")]
  /\ days_from_civil 2023 2 19 - days_from_civil 2023 2 1 + 1 = 19
  /\ plan_gaps_query plans_gap_5 = [].
Proof. repeat split; vm_compute; reflexivity. Qed.

Lemma is_reported_gap_spec (w : WithNext) :
  is_reported_gap w = true <->
  exists e n, island_end (wn_island w) = Some e
              /\ wn_next_start w = Some n /\ n - e > 7.
Proof.
  unfold is_reported_gap, datediff_day.
  destruct (wn_next_start w) as [n|], (island_end (wn_island w)) as [e|];
    split; try done; try (intros (? & ? & ? & ? & ?); done).
  - intros H. apply Z.ltb_lt in H. exists e, n. repeat split; lia.
  - intros (e' & n' & [= <-] & [= <-] & H). apply Z.ltb_lt. lia.
Qed.


(** The reported bounds of that last row enclose the seven days from
    2023-02-01 to 2023-02-07, and its [gap_length_days] is 6. *)
Lemma eight_day_gap_row :
  plan_gaps_query plans_gap_7
  = [mkGapRow "Hillwinds Health"
       (days_from_civil 2023 2 1) (days_from_civil 2023 2 7) 6
       (Some "Aetna") (Some "Cigna")]
  /\ days_from_civil 2023 2 7 - days_from_civil 2023 2 1 + 1 = 7.
Proof. split; vm_compute; reflexivity. Qed.

(** Every reported length is the difference of the two reported bounds, one
    less than the number of days from [gap_start] through [gap_end]. *)
Lemma gap_length_days_is_bounds_difference (plans_raw : list PlanRaw) (g : GapRow) :
  g ∈ plan_gaps_query plans_raw ->
  gap_length_days g = gap_end g - gap_start g.
Proof.
  unfold plan_gaps_query. rewrite elem_of_stable_sort, list_elem_of_omap.
  intros (w & _ & Hg). unfold gap_row in Hg.
  destruct (is_reported_gap w); [|done].
  destruct (wn_next_start w) as [n|]; [|done].
  destruct (island_end (wn_island w)) as [e|]; [|done].
  simpl in Hg. injection Hg as <-. reflexivity.
Qed.

(** ** C8: claim cost spikes *)




(** Along one company's dates in order, the previous sum of a row is the
    rolling sum of the row just before it, and is missing on the first
    row. *)
Lemma lag_windows_lookup (prev : option float) (l : list Rolling) (i : nat)
    (w : RollingWindow) :
  lag_windows prev l !! i = Some w ->
  exists r, l !! i = Some r
    /\ current_90d_cost w = rolling_90d_cost r
    /\ window_end w = ro_service_date r
    /\ prev_90d_cost w
       = match i with
         | O => prev
         | S j => l !! j ≫= rolling_90d_cost
         end.
Proof.
  revert prev i. induction l as [|r l IH]; intros prev i Hw; [done|].
  destruct i as [|i]; simpl in Hw.
  - injection Hw as <-. exists r. by repeat split.
  - destruct (IH _ _ Hw) as (r' & Hr' & Hc & He & Hp).
    exists r'. repeat split; try done.
    rewrite Hp. by destruct i.
Qed.


(** ** C9: roster mismatch *)

(** The strict comparison of the roster query. *)
Lemma Qlt_bool_iff (a b : Q) : Qlt_bool a b = true <-> (a < b)%Q.
Proof.
  unfold Qlt_bool. rewrite negb_true_iff. split.
  - intros H. apply Qnot_le_lt. intros Hle.
    apply Qle_bool_iff in Hle. congruence.
  - intros H. apply not_true_is_false. intros Hle.
    apply Qle_bool_iff in Hle. by apply Qlt_not_le in H.
Qed.

Lemma severity_of_spec (p : Q) :
  ((100 < p)%Q -> severity_of p = Critical)
  /\ (~ (100 < p)%Q -> (50 < p)%Q -> severity_of p = High)
  /\ (~ (50 < p)%Q -> (20 < p)%Q -> severity_of p = Medium)
  /\ (~ (20 < p)%Q -> severity_of p = Low).
Proof.
  unfold severity_of.
  destruct (Qlt_bool 100 p) eqn:H100, (Qlt_bool 50 p) eqn:H50,
    (Qlt_bool 20 p) eqn:H20;
    try apply Qlt_bool_iff in H100; try apply Qlt_bool_iff in H50;
    try apply Qlt_bool_iff in H20;
    repeat split; intros; try done;
    try (apply not_true_iff_false in H100; rewrite Qlt_bool_iff in H100);
    try (apply not_true_iff_false in H50; rewrite Qlt_bool_iff in H50);
    try (apply not_true_iff_false in H20; rewrite Qlt_bool_iff in H20);
    try tauto; exfalso; lra.
Qed.

Lemma elem_of_comparison (employees_raw : list EmployeeRaw) (c : Comparison) :
  c ∈ comparison employees_raw <->
  exists name exp obs,
    (name, exp) ∈ company_expected_counts
    /\ (name, obs) ∈ observed_employee_counts employees_raw
    /\ c = mkComparison name exp obs (pct_diff_of exp obs).
Proof.
  unfold comparison. rewrite list_elem_of_bind. split.
  - intros ([name exp] & Hc & Hexp). apply list_elem_of_bind in Hc.
    destruct Hc as ([name' obs] & Hc & Hobs). simpl in Hc.
    destruct (bool_decide (name = name')) eqn:Hn.
    + apply bool_decide_eq_true in Hn. subst name'.
      apply list_elem_of_singleton in Hc. eauto 10.
    + by apply elem_of_nil in Hc.
  - intros (name & exp & obs & Hexp & Hobs & ->).
    exists (name, exp). split; [|done]. apply list_elem_of_bind.
    exists (name, obs). split; [|done]. simpl.
    rewrite bool_decide_eq_true_2 by done. by apply list_elem_of_singleton.
Qed.

(** C9.  The output has one row for every organization found both in the
    expected-headcount table and in the observed counts, and no other row;
    its [pct_diff] is [|observed - expected| * 100 / expected] rounded to two
    decimals and its severity follows the thresholds 100, 50 and 20 on that
    rounded value.  Expected 60 and observed 130 give 116.67 and
    [Critical]. *)
Theorem roster_mismatch_query_reports :
  (forall (employees_raw : list EmployeeRaw) (r : RosterRow),
     r ∈ roster_mismatch_query employees_raw <->
     exists name exp obs,
       (name, exp) ∈ company_expected_counts
       /\ (name, obs) ∈ observed_employee_counts employees_raw
       /\ r = mkRosterRow
                (mkComparison name exp obs
                   (sql_round2 (inject_Z (Z.abs (obs - exp)) * 100 / inject_Z exp)))
                (severity_of
                   (sql_round2 (inject_Z (Z.abs (obs - exp)) * 100 / inject_Z exp))))
  /\ (forall p : Q,
        ((100 < p)%Q -> severity_of p = Critical)
        /\ (~ (100 < p)%Q -> (50 < p)%Q -> severity_of p = High)
        /\ (~ (50 < p)%Q -> (20 < p)%Q -> severity_of p = Medium)
        /\ (~ (20 < p)%Q -> severity_of p = Low))
  /\ roster_mismatch_query (hillwinds_staff 130)
     = [mkRosterRow (mkComparison "Hillwinds Health" 60 130 (11667 # 100))
          Critical].
Proof.
  split; [|split; [apply severity_of_spec|vm_compute; reflexivity]].
  intros employees_raw r. unfold roster_mismatch_query.
  rewrite elem_of_stable_sort, list_elem_of_fmap. split.
  - intros (c & -> & Hc).
    apply elem_of_comparison in Hc as (name & exp & obs & Hexp & Hobs & ->).
    exists name, exp, obs. by repeat split.
  - intros (name & exp & obs & Hexp & Hobs & ->).
    exists (mkComparison name exp obs (pct_diff_of exp obs)).
    split; [done|]. apply elem_of_comparison. eauto 10.
Qed.

(** Repeated and missing identifiers do not count. *)
Lemma observed_counts_distinct_ids :
  observed_employee_counts
    (hillwinds_staff 130 ++ hillwinds_staff 7
       ++ [mkEmployeeRaw (Some "11-1111111") None;
           mkEmployeeRaw (Some "99-9999999") (Some "X");
           mkEmployeeRaw None (Some "Y")])
  = [("Hillwinds Health", 130)].
Proof. vm_compute. reflexivity. Qed.

(** ** C7: the merge into the canonical store *)

Lemma relabel_app (i : Z) (l1 l2 : list Row) :
  relabel i (l1 ++ l2) = relabel i l1 ++ relabel (i + len l1) l2.
Proof.
  revert i. induction l1 as [|r l1 IH]; intros i; simpl.
  - f_equal. unfold len. simpl. lia.
  - rewrite IH. do 3 f_equal. unfold len. simpl length. lia.
Qed.

Lemma dedup_last_subset (cs : list string) (l : list (Z * Row)) (ir : Z * Row) :
  ir ∈ dedup_last cs l -> ir ∈ l.
Proof.
  induction l as [|jr l IH]; simpl; [done|].
  destruct (bool_decide _).
  - intros H. right. by apply IH.
  - intros [->|H]%elem_of_cons; [left|right; by apply IH].
Qed.

Lemma dedup_last_NoDup (cs : list string) (l : list (Z * Row)) :
  NoDup (map (fun ir => subset_key cs ir.2) (dedup_last cs l)).
Proof.
  induction l as [|jr l IH]; simpl; [constructor|].
  destruct (bool_decide _) eqn:Hd; [done|].
  apply bool_decide_eq_false in Hd. simpl. constructor; [|done].
  intros Hin. apply Hd. apply list_elem_of_fmap in Hin as (kr & Hk & Hkr).
  apply list_elem_of_fmap. exists kr. split; [done|].
  by apply dedup_last_subset in Hkr.
Qed.

(** The last row carrying a key survives [keep='last']. *)
Lemma dedup_last_keeps_last (cs : list string) (l1 l2 : list (Z * Row))
    (ir : Z * Row) :
  subset_key cs ir.2 ∉ map (fun jr => subset_key cs jr.2) l2 ->
  ir ∈ dedup_last cs (l1 ++ ir :: l2).
Proof.
  intros Hlast. induction l1 as [|jr l1 IH]; simpl.
  - rewrite bool_decide_eq_false_2 by done. left.
  - destruct (bool_decide _); [done|]. by right.
Qed.

Lemma NoDup_fmap_eq {A B : Type} (f : A -> B) (l : list A) (x y : A) :
  NoDup (map f l) -> x ∈ l -> y ∈ l -> f x = f y -> x = y.
Proof.
  induction l as [|a l IH]; intros Hnd Hx Hy Hf; [by apply elem_of_nil in Hx|].
  simpl in Hnd. apply NoDup_cons in Hnd as [Ha Hnd].
  apply elem_of_cons in Hx as [->|Hx]; apply elem_of_cons in Hy as [->|Hy]; try done.
  - exfalso. apply Ha. rewrite Hf. apply list_elem_of_fmap. by exists y.
  - exfalso. apply Ha. rewrite <- Hf. apply list_elem_of_fmap. by exists x.
  - by apply IH.
Qed.

Lemma cell_project_row (cs : list string) (r : Row) (c : string) :
  cell (project_row cs r) c = if bool_decide (c ∈ cs) then cell r c else VNull.
Proof.
  unfold project_row. induction cs as [|d cs IH]; simpl.
  - unfold cell at 1. by rewrite lookup_empty.
  - destruct (decide (d = c)) as [->|Hne].
    + rewrite cell_insert_eq. rewrite bool_decide_eq_true_2; [done|left].
    + rewrite cell_insert_ne by done. rewrite IH.
      destruct (bool_decide (c ∈ cs)) eqn:Hc.
      * apply bool_decide_eq_true in Hc.
        rewrite bool_decide_eq_true_2; [done|by right].
      * apply bool_decide_eq_false in Hc.
        rewrite bool_decide_eq_false_2; [done|].
        intros [?|?]%elem_of_cons; [congruence|done].
Qed.

(** Aligning a frame on [all_columns] touches no column the frame has, and
    leaves it with its own columns and those of [all_columns]. *)
Lemma add_missing_columns_spec (all_columns : list string) (df : DataFrame) :
  exists h : Row -> Row,
    body (add_missing_columns all_columns df)
    = map (fun ir => (ir.1, h ir.2)) (body df)
    /\ (forall r c, c ∈ columns df -> cell (h r) c = cell r c)
    /\ (forall c, c ∈ columns (add_missing_columns all_columns df) <->
                  c ∈ columns df \/ c ∈ all_columns).
Proof.
  revert df. induction all_columns as [|col cols IH]; intros df.
  - exists id. simpl. split; [|split].
    + induction (body df) as [|[i r] l IHl]; simpl; [done|]. by rewrite <- IHl.
    + done.
    + intros c. rewrite elem_of_nil. tauto.
  - unfold add_missing_columns. simpl foldl.
    destruct (has_column col df) eqn:Hcol.
    + destruct (IH df) as (h & Hb & Hc & Hcs). exists h.
      split; [exact Hb|]. split; [exact Hc|].
      intros c. unfold add_missing_columns in Hcs. rewrite Hcs.
      apply bool_decide_eq_true in Hcol. rewrite elem_of_cons.
      split; [tauto|]. intros [?|[->|?]]; tauto.
    + destruct (IH (set_col col (fun _ => VNull) df)) as (h & Hb & Hc & Hcs).
      pose proof Hcol as Hcolb. apply bool_decide_eq_false in Hcol.
      exists (fun r => h (<[col := VNull]> r)). split; [|split].
      * unfold add_missing_columns in Hb. rewrite Hb. unfold set_col. simpl.
        rewrite map_map. done.
      * intros r c Hin. rewrite Hc.
        -- apply cell_insert_ne. intros ->. done.
        -- unfold set_col. simpl. rewrite Hcolb. apply elem_of_app. by left.
      * intros c. unfold add_missing_columns in Hcs. rewrite Hcs.
        unfold set_col. simpl. rewrite Hcolb.
        rewrite elem_of_app, list_elem_of_singleton, elem_of_cons. tauto.
Qed.

Lemma elem_of_union_columns (a b : list string) (c : string) :
  c ∈ union_columns a b <-> c ∈ a \/ c ∈ b.
Proof.
  unfold union_columns. rewrite elem_of_app, list_elem_of_filter.
  destruct (decide (c ∈ a)); tauto.
Qed.

(** The shape of a merge: the rows of the old store, then the new rows, each
    aligned without touching the columns it had, projected on the final
    columns, and deduplicated on the key keeping the last occurrence.  The
    final columns are those of the two frames. *)
Lemma merge_store_spec (existing_df clean_df : DataFrame) :
  exists (hE hC : Row -> Row) (fc : list string),
    body (merge_store existing_df clean_df)
    = dedup_last ["person_id"; "start_date"]
        (map (fun ir => (ir.1, project_row fc ir.2))
           (relabel 0 (map hE (map snd (body existing_df))
                       ++ map hC (map snd (body clean_df)))))
    /\ columns (merge_store existing_df clean_df) = fc
    /\ (forall r c, c ∈ columns existing_df -> cell (hE r) c = cell r c)
    /\ (forall r c, c ∈ columns clean_df -> cell (hC r) c = cell r c)
    /\ (forall c, c ∈ fc <-> c ∈ columns existing_df \/ c ∈ columns clean_df).
Proof.
  unfold merge_store.
  set (all_columns := union_columns (columns existing_df) (columns clean_df)).
  destruct (add_missing_columns_spec all_columns existing_df)
    as (hE & HbE & HcE & HcolE).
  destruct (add_missing_columns_spec all_columns clean_df)
    as (hC & HbC & HcC & HcolC).
  set (E' := add_missing_columns all_columns existing_df) in *.
  set (C' := add_missing_columns all_columns clean_df) in *.
  set (fc := filter (fun c => has_column c (concat_rows E' C')) _).
  exists hE, hC, fc. split; [|split; [done|split; [done|split; [done|]]]].
  - unfold drop_duplicates, reindex_columns, concat_rows. simpl.
    rewrite map_app, HbE, HbC, !map_map. reflexivity.
  - intros c. unfold fc. rewrite list_elem_of_filter.
    unfold has_column, concat_rows. cbn [columns].
    rewrite Is_true_true, bool_decide_eq_true, elem_of_union_columns.
    rewrite HcolE, HcolC, elem_of_app, list_elem_of_filter.
    unfold all_columns. rewrite elem_of_union_columns.
    destruct (decide (c ∈ CANONICAL_COLUMNS)); tauto.
Qed.

(** C7.  After a merge (a store exists and the new relation is not empty)
    the store holds at most one row per [(person_id, start_date)], and every
    stored row that has the key of an incoming row carries, on all the
    columns of the new relation, the values of the last incoming row with
    that key: an old row with the key has been replaced. *)
Theorem save_store_upserts (existing_df clean_df : DataFrame) :
  df_empty clean_df = false ->
  "person_id" ∈ columns clean_df -> "start_date" ∈ columns clean_df ->
  exists store,
    (save_store clean_df (Some existing_df)).1 = Some store
    /\ NoDup (map (subset_key ["person_id"; "start_date"])
                (map snd (body store)))
    /\ forall before r after,
         map snd (body clean_df) = before ++ r :: after ->
         subset_key ["person_id"; "start_date"] r
           ∉ map (subset_key ["person_id"; "start_date"]) after ->
         (exists s, s ∈ map snd (body store)
            /\ subset_key ["person_id"; "start_date"] s
               = subset_key ["person_id"; "start_date"] r)
         /\ (forall s, s ∈ map snd (body store) ->
               subset_key ["person_id"; "start_date"] s
               = subset_key ["person_id"; "start_date"] r ->
               forall c, c ∈ columns clean_df -> cell s c = cell r c).
Proof.
  intros Hne Hpid Hsd. unfold save_store. rewrite Hne. cbn [negb fst].
  eexists. split; [reflexivity|].
  unfold to_parquet, reset_index. cbn [body]. rewrite map_snd_relabel.
  destruct (merge_store_spec existing_df clean_df)
    as (hE & hC & fc & Hbody & _ & _ & HcC & Hfc).
  rewrite Hbody.
  set (key := subset_key ["person_id"; "start_date"]).
  assert (Hnd : NoDup (map key (map snd
     (dedup_last ["person_id"; "start_date"]
        (map (fun ir => (ir.1, project_row fc ir.2))
           (relabel 0 (map hE (map snd (body existing_df))
                       ++ map hC (map snd (body clean_df)))))))))
    by (rewrite map_map; apply dedup_last_NoDup).
  split; [exact Hnd|].
  (* an incoming row keeps its cells on the columns of the new relation *)
  assert (Hcell : forall r c, c ∈ columns clean_df ->
            cell (project_row fc (hC r)) c = cell r c).
  { intros r c Hc. rewrite cell_project_row, bool_decide_eq_true_2.
    - by apply HcC.
    - apply Hfc. by right. }
  assert (Hkey : forall r, key (project_row fc (hC r)) = key r).
  { intros r. unfold key, subset_key. simpl. by rewrite !Hcell. }
  intros before r after Hsplit Hlast.
  (* the image of [r] survives the deduplication *)
  assert (Hin : project_row fc (hC r) ∈ map snd
     (dedup_last ["person_id"; "start_date"]
        (map (fun ir => (ir.1, project_row fc ir.2))
           (relabel 0 (map hE (map snd (body existing_df))
                       ++ map hC (map snd (body clean_df))))))).
  { rewrite Hsplit, map_app. simpl map. rewrite app_assoc, relabel_app.
    simpl relabel. rewrite map_app. simpl map.
    apply list_elem_of_fmap.
    eexists (_, project_row fc (hC r)). split; [done|].
    apply dedup_last_keeps_last. cbn [snd]. fold key. rewrite Hkey.
    intros Hk. apply Hlast.
    apply list_elem_of_fmap in Hk as (jr & Hjr & Hin).
    apply list_elem_of_fmap in Hin as (kr & -> & Hkr). cbn [snd] in Hjr.
    apply elem_of_relabel in Hkr.
    apply list_elem_of_fmap in Hkr as (r' & Hr' & Hin').
    rewrite Hr', Hkey in Hjr. rewrite Hjr.
    apply list_elem_of_fmap. by exists r'. }
  split.
  - exists (project_row fc (hC r)). split; [exact Hin|apply Hkey].
  - intros s Hs Hks c Hc.
    assert (s = project_row fc (hC r)) as ->.
    { apply (NoDup_fmap_eq key _ _ _ Hnd Hs Hin). by rewrite Hkey. }
    by apply Hcell.
Qed.

Lemma save_store_upserts_witness :
  df_empty ann_retitled = false
  /\ exists store,
       (save_store ann_retitled (Some store_with_ann)).1 = Some store
       /\ NoDup (map (subset_key ["person_id"; "start_date"])
                   (map snd (body store)))
       /\ forall before r after,
            map snd (body ann_retitled) = before ++ r :: after ->
            subset_key ["person_id"; "start_date"] r
              ∉ map (subset_key ["person_id"; "start_date"]) after ->
            (exists s, s ∈ map snd (body store)
               /\ subset_key ["person_id"; "start_date"] s
                  = subset_key ["person_id"; "start_date"] r)
            /\ (forall s, s ∈ map snd (body store) ->
                  subset_key ["person_id"; "start_date"] s
                  = subset_key ["person_id"; "start_date"] r ->
                  forall c, c ∈ columns ann_retitled -> cell s c = cell r c).
Proof.
  split; [reflexivity|].
  apply (save_store_upserts store_with_ann ann_retitled).
  - reflexivity.
  - apply (bool_decide_unpack _). vm_compute. exact I.
  - apply (bool_decide_unpack _). vm_compute. exact I.
Defined.

(** The same merge, evaluated: one row is left for Ann's key and it carries
    the new title. *)
Lemma save_store_replaces_title :
  (fun s => map (fun ir => (cell ir.2 "person_id", cell ir.2 "start_date",
                            cell ir.2 "title")) (body s))
    <$> (save_store ann_retitled (Some store_with_ann)).1
  = Some [(VStr "P001", VTs (date_ns 2023 5 1), VStr "Senior Engineer")].
Proof. vm_compute. reflexivity. Qed.

(** The first save, onto an absent store, is not a merge: the relation is
    written as it is. *)
Lemma first_save_writes_relation (df : DataFrame) :
  df_empty df = false ->
  (save_store df None).1 = Some (to_parquet df).
Proof. intros H. unfold save_store. by rewrite H. Qed.

(** On a first run, two records with one [(person_id, start_date)] and two
    e-mail addresses pass the deduplication of [clean_data], which also
    looks at the e-mail, and are both stored. *)
Lemma first_run_stores_both_records :
  (fun r => map (fun ir => (cell ir.2 "person_id", cell ir.2 "start_date",
                            cell ir.2 "email")) <$> (body <$> CLEAN_DATA r.1))
    <$> run_etl ann_twice (date_ns 2024 6 1) nothing_saved
  = Some (Some [(VStr "P001", VTs (date_ns 2023 5 1), VStr "ann.lee@hillwinds.com");
                (VStr "P001", VTs (date_ns 2023 5 1), VStr "a.lee@hillwinds.com")]).
Proof. vm_compute. reflexivity. Qed.

(** ** C10: the columns of the store *)

Lemma enrich_data_columns (src : Sources) (df : DataFrame) (c : string) :
  df_empty df = false ->
  c ∈ columns (enrich_data src df).1 -> c ∈ FINAL_COLUMNS.
Proof.
  intros Hne. unfold enrich_data. rewrite Hne. simpl.
  intros Hc. by apply list_elem_of_filter in Hc as [_ Hc].
Qed.

Lemma save_store_columns (clean_df : DataFrame) (file : option DataFrame)
    (store : DataFrame) (c : string) :
  (save_store clean_df file).1 = Some store ->
  c ∈ columns store ->
  c ∈ columns clean_df \/ (exists old, file = Some old /\ c ∈ columns old).
Proof.
  unfold save_store. destruct file as [old|].
  - destruct (df_empty clean_df); simpl.
    + intros [= <-] Hc. right. eauto.
    + intros [= <-]. unfold to_parquet, reset_index. cbn [columns].
      destruct (merge_store_spec old clean_df) as (hE & hC & fc & _ & -> & _ & _ & Hfc).
      rewrite Hfc. intros [?|?]; eauto.
  - destruct (df_empty clean_df); simpl; intros [= <-];
      unfold to_parquet, reset_index; simpl; eauto.
Qed.

(** C10, as the code has it.  [FINAL_COLUMNS] and [CANONICAL_COLUMNS] omit
    [end_date] and [last_updated].  Consequently, for a column outside
    [FINAL_COLUMNS], a run leaves the store without that column when the
    store it found, if any, was without it and, in case it found no store,
    either no employee row was ingested or the cleaned relation was not
    empty. *)
Theorem run_etl_store_columns :
  ("end_date" ∉ FINAL_COLUMNS) /\ ("last_updated" ∉ FINAL_COLUMNS)
  /\ ("end_date" ∉ CANONICAL_COLUMNS) /\ ("last_updated" ∉ CANONICAL_COLUMNS)
  /\ forall (src : Sources) (now : Z) (fs fs' : FS) (m : Metrics)
            (e p c : DataFrame) (col : string),
       col ∉ FINAL_COLUMNS ->
       ingest_data src (get_high_water_mark fs) = Some (e, p, c) ->
       run_etl src now fs = Some (fs', m) ->
       (forall s, CLEAN_DATA fs = Some s -> col ∉ columns s) ->
       (CLEAN_DATA fs = None ->
        df_empty e = true \/ df_empty (clean_data e).1.1 = false) ->
       forall s', CLEAN_DATA fs' = Some s' -> col ∉ columns s'.
Proof.
  assert (Hmem : forall c l, bool_decide (c ∈ l) = false -> c ∉ (l : list string))
    by (intros c l H; by apply bool_decide_eq_false in H).
  repeat (split; [apply Hmem; reflexivity|]).
  intros src now fs fs' m e p c col Hcol Hin Hrun Hold Hnew s' Hs'.
  unfold run_etl in Hrun. rewrite Hin in Hrun. cbn [mbind option_bind] in Hrun.
  destruct (df_empty e && df_empty c && df_empty p) eqn:Hshort.
  - injection Hrun as <- _. simpl in Hs'. by apply Hold.
  - destruct (clean_data_runs src e); [|done]. cbn [negb] in Hrun.
    destruct (clean_data e) as [[clean_df errors_df] cm] eqn:Hclean.
    destruct (enrich_data_runs clean_df); [|done]. cbn [negb] in Hrun.
    destruct (enrich_data src clean_df) as [enriched_df eins] eqn:Henrich.
    unfold save_outputs in Hrun.
    destruct (save_store enriched_df (CLEAN_DATA fs)) as [store rows_out] eqn:Hsave.
    injection Hrun as <- _. simpl in Hs'. subst store.
    intros Hc.
    assert (Hsave1 : (save_store enriched_df (CLEAN_DATA fs)).1 = Some s')
      by by rewrite Hsave.
    destruct (save_store_columns _ _ _ _ Hsave1 Hc) as [Hc'|(old & Hf & Hc')];
      [|by apply (Hold old Hf)].
    assert (Henr : enriched_df = (enrich_data src clean_df).1) by by rewrite Henrich.
    destruct (df_empty clean_df) eqn:Hce.
    + (* nothing survived cleaning: the frame is written as it is only when
         no store exists *)
      rewrite (enrich_data_empty src clean_df Hce) in Henr. simpl in Henr.
      subst enriched_df.
      destruct (CLEAN_DATA fs) as [old|] eqn:Hf.
      * unfold save_store in Hsave1. rewrite Hce in Hsave1. simpl in Hsave1.
        injection Hsave1 as <-. by apply (Hold old eq_refl).
      * destruct (Hnew eq_refl) as [He|He].
        -- rewrite (clean_data_empty e He) in Hclean.
           injection Hclean as <- _ _. by apply elem_of_nil in Hc'.
        -- simpl in He. congruence.
    + subst enriched_df. apply Hcol.
      by apply (enrich_data_columns src clean_df col Hce).
Qed.

(** C10, as stated, fails.  On a first run in which cleaning rejects every
    ingested row, the rejected relation skips the projection of
    [enrich_data] and founds a store that has the column [end_date] and no
    row; the merge of the next run appends that column after the canonical
    ones, so the store keeps it from then on. *)
Lemma store_keeps_end_date :
  (r1 ← run_etl only_cy (date_ns 2024 1 1) nothing_saved;
   r2 ← run_etl sample_sources (date_ns 2024 6 1) r1.1;
   Some (columns <$> CLEAN_DATA r1.1, columns <$> CLEAN_DATA r2.1,
         (fun s => length (body s)) <$> CLEAN_DATA r2.1))
  = Some (Some (employee_header ++ ["row_id"]),
          Some (FINAL_COLUMNS ++ ["end_date"]),
          Some 2%nat)
  /\ "end_date" ∈ employee_header ++ ["row_id"]
  /\ "end_date" ∈ FINAL_COLUMNS ++ ["end_date"].
Proof.
  split; [vm_compute; reflexivity|].
  split; apply (bool_decide_unpack _); vm_compute; exact I.
Qed.

Lemma run_etl_store_columns_witness :
  exists fs' m,
    run_etl sample_sources (date_ns 2024 6 1) committed_2024 = Some (fs', m)
    /\ forall s', CLEAN_DATA fs' = Some s' -> "end_date" ∉ columns s'.
Proof.
  destruct (run_etl sample_sources (date_ns 2024 6 1) committed_2024)
    as [[fs' m]|] eqn:Hrun; [|vm_compute in Hrun; discriminate].
  exists fs', m. split; [reflexivity|].
  eapply (proj2 (proj2 (proj2 (proj2 run_etl_store_columns)))
            sample_sources (date_ns 2024 6 1) committed_2024 fs' m).
  - apply (bool_decide_eq_false_1 _). vm_compute. reflexivity.
  - vm_compute. reflexivity.
  - exact Hrun.
  - intros s [= <-]. apply (bool_decide_eq_false_1 _). vm_compute. reflexivity.
  - intros [=].
Defined.

(** * Further properties of the pipeline *)

(** ** Ingestion and the watermark *)

(** X1.  A later watermark selects among the rows an earlier one selects.
    Let [wm1] lie within the bounds of a timestamp and [wm1 <= wm2]: when the
    reader returns at [wm2] it returns at [wm1], and the frames read at [wm2]
    are those read at [wm1], filtered again at [wm2].  The plan table is the
    same. *)
Theorem ingest_data_later_watermark (src : Sources) (wm1 wm2 : Z)
    (e2 p2 c2 : DataFrame) :
  in_bounds wm1 = true ->
  wm1 <= wm2 ->
  ingest_data src wm2 = Some (e2, p2, c2) ->
  exists e1 c1,
    ingest_data src wm1 = Some (e1, p2, c1)
    /\ e2 = filter_rows (after "start_date" wm2) e1
    /\ c2 = filter_rows (after "service_date" wm2) c1
    /\ body e2 `sublist_of` body e1
    /\ body c2 `sublist_of` body c1.
Proof.
  intros Hb Hle (H1 & H2 & He & Hc & ->)%ingest_data_Some.
  destruct (filter_after_in_bounds _ _ _ _ He) as [_ Hte].
  destruct (filter_after_in_bounds _ _ _ _ Hc) as [_ Htc].
  apply filter_after_Some in He, Hc. subst e2 c2.
  eexists _, _. split.
  { apply ingest_data_Some. repeat split; try done.
    - unfold filter_after. rewrite Hb, Hte. reflexivity.
    - unfold filter_after. rewrite Hb, Htc. reflexivity. }
  assert (Hff : forall c df,
    filter_rows (after c wm2) df
    = filter_rows (after c wm2) (filter_rows (after c wm1) df)).
  { intros c df. unfold filter_rows. simpl. f_equal.
    rewrite list_filter_filter. apply list_filter_iff. intros [i r]. simpl.
    rewrite !Is_true_true, !after_spec. split; [|tauto].
    intros (t & Ht & Hlt). split; exists t; split; try done; lia. }
  split; [apply Hff|]. split; [apply Hff|].
  split; rewrite Hff; unfold filter_rows at 1; simpl; apply sublist_filter.
Qed.

Lemma ingest_data_later_watermark_witness :
  in_bounds (date_ns 2023 1 1) = true
  /\ date_ns 2023 1 1 <= date_ns 2024 1 1
  /\ exists e1 c1,
       ingest_data sample_sources (date_ns 2023 1 1)
       = Some (e1, mkFrame plan_header [(0, old_plan)], c1)
       /\ new_in_2024 = filter_rows (after "start_date" (date_ns 2024 1 1)) e1
       /\ mkFrame ["company_ein"; "service_date"; "amount"] []
          = filter_rows (after "service_date" (date_ns 2024 1 1)) c1
       /\ body new_in_2024 `sublist_of` body e1
       /\ body (mkFrame ["company_ein"; "service_date"; "amount"] [])
            `sublist_of` body c1.
Proof.
  assert (Hb : in_bounds (date_ns 2023 1 1) = true) by (vm_compute; reflexivity).
  assert (H : date_ns 2023 1 1 <= date_ns 2024 1 1) by (vm_compute; discriminate).
  split; [exact Hb|]. split; [exact H|].
  apply (ingest_data_later_watermark sample_sources _ _ _ _ _ Hb H).
  vm_compute. reflexivity.
Defined.

(** ** The run as a whole *)

(** The run returns when the reader returns and the two later steps find
    the columns they index. *)
Lemma run_etl_returns (src : Sources) (now : Z) (fs : FS) (e p c : DataFrame) :
  ingest_data src (get_high_water_mark fs) = Some (e, p, c) ->
  clean_data_runs src e = true ->
  enrich_data_runs (clean_data e).1.1 = true ->
  is_Some (run_etl src now fs).
Proof.
  intros Hin Hclean Henrich. unfold run_etl. rewrite Hin. simpl.
  destruct (df_empty e && df_empty c && df_empty p); [eauto|].
  rewrite Hclean. cbn [negb].
  destruct (clean_data e) as [[clean_df errors_df] cm].
  cbn [fst] in Henrich. rewrite Henrich. cbn [negb].
  destruct (enrich_data src clean_df) as [enriched_df eins].
  destruct (save_outputs _ _ _). eauto.
Qed.

(** The run raises, after the reader has returned, when no e-mail of the
    employees file is text and when the file has no e-mail column. *)
Lemma run_etl_raises_without_email :
  is_Some (ingest_data bob_only (get_high_water_mark nothing_saved))
  /\ run_etl bob_only (date_ns 2024 6 1) nothing_saved = None
  /\ is_Some (ingest_data no_email_column (get_high_water_mark nothing_saved))
  /\ run_etl no_email_column (date_ns 2024 6 1) nothing_saved = None.
Proof.
  repeat split; try (vm_compute; reflexivity); vm_compute; eauto.
Qed.

(** X3.  The ledger only grows: a run that returns leaves a ledger made of the
    entries it found followed by the entries of this run, whose number is
    the metric [errors]. *)
Theorem run_etl_ledger_grows (src : Sources) (now : Z) (fs fs' : FS)
    (m : Metrics) :
  run_etl src now fs = Some (fs', m) ->
  exists new,
    VALIDATION_ERRORS fs' = Some (default [] (VALIDATION_ERRORS fs) ++ new)
    /\ len new = errors m.
Proof.
  unfold run_etl.
  destruct (ingest_data src _) as [[[e p] c]|]; [|done]. simpl.
  destruct (df_empty e && df_empty c && df_empty p).
  - intros [= <- <-]. exists []. simpl.
    destruct (VALIDATION_ERRORS fs); simpl; by rewrite ?app_nil_r.
  - destruct (clean_data_runs src e); [|done]. cbn [negb].
    destruct (clean_data e) as [[clean_df errors_df] cm].
    destruct (enrich_data_runs clean_df); [|done]. cbn [negb].
    destruct (enrich_data src clean_df) as [enriched_df eins].
    unfold save_outputs. destruct (save_store _ _) as [store rows_out].
    intros [= <- <-]. exists errors_df. simpl. split; [|done].
    unfold save_errors.
    destruct errors_df, (VALIDATION_ERRORS fs); simpl; by rewrite ?app_nil_r.
Qed.

Lemma run_etl_ledger_grows_witness :
  exists fs' m new,
    run_etl sample_sources (date_ns 2024 6 1) committed_2024 = Some (fs', m)
    /\ VALIDATION_ERRORS fs'
       = Some (default [] (VALIDATION_ERRORS committed_2024) ++ new)
    /\ len new = errors m.
Proof.
  destruct (run_etl sample_sources (date_ns 2024 6 1) committed_2024)
    as [[fs' m]|] eqn:Hrun; [|vm_compute in Hrun; discriminate].
  destruct (run_etl_ledger_grows _ _ _ _ _ Hrun) as (new & H1 & H2).
  exists fs', m, new. by repeat split.
Defined.

(** The no-data exit.  When the three ingested frames are empty, the run
    returns with the watermark and the store as found, with the ledger
    created empty if it was absent, and with every counter at zero. *)
Theorem run_etl_short_circuit (src : Sources) (now : Z) (fs : FS)
    (e p c : DataFrame) :
  ingest_data src (get_high_water_mark fs) = Some (e, p, c) ->
  body e = [] -> df_empty c = true -> df_empty p = true ->
  run_etl src now fs
  = Some (mkFS (WATERMARK fs) (CLEAN_DATA fs)
            (Some (default [] (VALIDATION_ERRORS fs))),
          mkMetrics 0 0 0 0 0 0).
Proof.
  intros Hin He Hc Hp. unfold run_etl. rewrite Hin. simpl.
  rewrite (df_empty_body e He), Hc, Hp, He. simpl.
  by destruct (VALIDATION_ERRORS fs).
Qed.

Lemma run_etl_short_circuit_witness :
  run_etl empty_files (date_ns 2024 6 1) nothing_saved
  = Some (mkFS None None (Some []), mkMetrics 0 0 0 0 0 0).
Proof.
  apply (run_etl_short_circuit empty_files (date_ns 2024 6 1) nothing_saved
           (mkFrame employee_header [])
           (mkFrame plan_header [])
           (mkFrame ["company_ein"; "service_date"; "amount"] []));
    reflexivity.
Defined.

(** X4.  Every other run that returns commits: the watermark read by the next
    run is the clock reading, and a store file exists. *)
Theorem run_etl_commits (src : Sources) (now : Z) (fs fs' : FS) (m : Metrics)
    (e p c : DataFrame) :
  ingest_data src (get_high_water_mark fs) = Some (e, p, c) ->
  df_empty e && df_empty c && df_empty p = false ->
  run_etl src now fs = Some (fs', m) ->
  get_high_water_mark fs' = now
  /\ is_Some (CLEAN_DATA fs')
  /\ rows_in m = len (body e).
Proof.
  intros Hin Hne. unfold run_etl. rewrite Hin. simpl. rewrite Hne.
  destruct (clean_data_runs src e); [|done]. cbn [negb].
  destruct (clean_data e) as [[clean_df errors_df] cm].
  destruct (enrich_data_runs clean_df); [|done]. cbn [negb].
  destruct (enrich_data src clean_df) as [enriched_df eins].
  unfold save_outputs, save_store.
  destruct (CLEAN_DATA fs), (df_empty enriched_df); simpl;
    intros [= <- <-]; simpl; eauto.
Qed.

Lemma run_etl_commits_witness :
  exists fs' m,
    run_etl sample_sources (date_ns 2024 6 1) committed_2024 = Some (fs', m)
    /\ get_high_water_mark fs' = date_ns 2024 6 1
    /\ is_Some (CLEAN_DATA fs')
    /\ rows_in m = len (body new_in_2024).
Proof.
  destruct (run_etl sample_sources (date_ns 2024 6 1) committed_2024)
    as [[fs' m]|] eqn:Hrun; [|vm_compute in Hrun; discriminate].
  exists fs', m. split; [reflexivity|].
  apply (run_etl_commits sample_sources (date_ns 2024 6 1) committed_2024 fs' m
           new_in_2024 (mkFrame plan_header [(0, old_plan)])
           (mkFrame ["company_ein"; "service_date"; "amount"] [])).
  - vm_compute. reflexivity.
  - reflexivity.
  - exact Hrun.
Defined.

(** ** Cleaning *)

Lemma clean_data_stages (df : DataFrame) :
  df_empty df = false ->
  clean_data df
  = (fillna "title" (VStr "Unknown") (titled df),
     (dated df).2
       ++ map title_error
            (filter (fun ir => isna (cell ir.2 "title")) (body (titled df))),
     mkCleanMetrics
       (len (body (with_row_id df)) - len (body (deduplicated df)))
       (count_nulls "title" (sorted df) - count_nulls "title" (titled df))).
Proof.
  intros Hne. unfold clean_data. rewrite Hne.
  unfold titled, sorted, dated, valid_emails, deduplicated, with_row_id.
  by destruct (foldl _ _ _) as [d errs].
Qed.

Lemma dedup_first_subset (cs : list string) (seen : list (list value))
    (l : list (Z * Row)) (ir : Z * Row) :
  ir ∈ dedup_first cs seen l -> ir ∈ l.
Proof.
  revert seen. induction l as [|jr l IH]; intros seen; simpl; [done|].
  destruct (bool_decide _).
  - intros H. right. by apply (IH seen).
  - intros [->|H]%elem_of_cons; [left|right; by apply (IH _ H)].
Qed.

Lemma all_rows_drop_duplicates (P : Row -> Prop) (cs : list string)
    (keep : keep_policy) (df : DataFrame) :
  all_rows P df -> all_rows P (drop_duplicates cs keep df).
Proof.
  intros H ir Hin. apply H. unfold drop_duplicates in Hin. simpl in Hin.
  destruct keep; [by apply dedup_first_subset in Hin|by apply dedup_last_subset in Hin].
Qed.

(** What holds of the rows once labelled, and does not depend on the date
    columns, holds of the rows that are sorted. *)
Lemma all_rows_sorted (P : Row -> Prop) (df : DataFrame) :
  ignores "start_date" P -> ignores "end_date" P -> ignores "last_updated" P ->
  all_rows P (with_row_id df) -> all_rows P (sorted df).
Proof.
  intros H1 H2 H3 H0. unfold sorted. apply all_rows_sort_values.
  unfold dated, date_cols. cbn [foldl].
  do 3 (apply all_rows_coerce_date_col; [done|]).
  cbn [fst]. unfold valid_emails, deduplicated.
  by apply all_rows_filter_rows, all_rows_drop_duplicates.
Qed.

Lemma all_rows_cleaned (P : Row -> Prop) (df : DataFrame) :
  ignores "start_date" P -> ignores "end_date" P -> ignores "last_updated" P ->
  ignores "title" P ->
  all_rows P (with_row_id df) -> all_rows P (clean_data df).1.1.
Proof.
  intros H1 H2 H3 H4 H0. destruct (df_empty df) eqn:Hne.
  - rewrite (clean_data_empty df Hne). intros ir Hin. by apply elem_of_nil in Hin.
  - rewrite (clean_data_stages df Hne). cbn [fst].
    apply all_rows_fillna; [done|]. apply all_rows_assign_col; [done|].
    by apply all_rows_sorted.
Qed.

Lemma stems_from_ignores (df : DataFrame) (c : string) :
  c ∈ written_by_cleaning -> c ≠ "row_id" -> ignores c (stems_from df).
Proof.
  intros Hc Hne r v (i & r0 & Hin & Hid & Hcells). exists i, r0.
  split; [done|]. split; [by rewrite cell_insert_ne|].
  intros c' Hc'. rewrite cell_insert_ne; [by apply Hcells|]. by intros ->.
Qed.

(** X7.  Cleaning invents no row: every cleaned row carries as [row_id] the label
    of an input row and agrees with that row on every column other than
    [row_id], the date columns and [title]. *)
Theorem clean_data_stems_from_input (df : DataFrame) :
  forall ir, ir ∈ body (clean_data df).1.1 -> stems_from df ir.2.
Proof.
  assert (Hw : forall c, bool_decide (c ∈ written_by_cleaning) = true ->
                         c ∈ written_by_cleaning)
    by (intros c; apply bool_decide_eq_true).
  apply (all_rows_cleaned (stems_from df));
    try (apply stems_from_ignores; [by apply Hw|done]).
  intros ir Hin. unfold with_row_id, set_col in Hin. simpl in Hin.
  apply list_elem_of_fmap in Hin as ([i r0] & -> & Hin). simpl.
  exists i, r0. split; [done|]. split; [apply cell_insert_eq|].
  intros c Hc. apply cell_insert_ne. intros <-. apply Hc. by apply Hw.
Qed.

(** *** Carrying titles forward and backward *)

Lemma rev_is_reverse {A : Type} (l : list A) : rev l = reverse l.
Proof. unfold reverse. apply rev_alt. Qed.

Lemma ffill_from_keeps (p : value) (l : list value) :
  Forall2 keeps l (ffill_from p l).
Proof.
  revert p. induction l as [|u l IH]; intros p; simpl; constructor; [|apply IH].
  intros Hu. by destruct u.
Qed.

Lemma ffill_from_elem (p : value) (l : list value) (v : value) :
  v ∈ ffill_from p l -> v = p \/ v ∈ l.
Proof.
  revert p. induction l as [|u l IH]; intros p; simpl; [by intros ?%elem_of_nil|].
  intros [->|Hv]%elem_of_cons.
  - destruct (isna u); [by left|right; left].
  - apply IH in Hv as [->|Hv]; [|right; by right].
    destruct (isna u); [by left|right; left].
Qed.

Lemma ffill_from_present (p : value) (l : list value) :
  p ≠ VNull -> VNull ∉ ffill_from p l.
Proof.
  revert p. induction l as [|u l IH]; intros p Hp; simpl; [by intros ?%elem_of_nil|].
  intros [Hv|Hv]%elem_of_cons.
  - destruct u; simpl in Hv; congruence.
  - revert Hv. apply IH. destruct u; simpl; congruence.
Qed.

(** After a forward fill, a list that holds a value ends with a value and
    has its missing entries, if any, in front. *)
Lemma ffill_shape (l : list value) :
  (exists u, u ∈ l /\ u ≠ VNull) ->
  exists l1 x l2, ffill l = l1 ++ x :: l2 /\ x ≠ VNull
                  /\ (VNull ∉ l2) /\ Forall (fun v => v = VNull) l1.
Proof.
  unfold ffill. induction l as [|u l IH]; intros (w & Hw & Hnn);
    [by apply elem_of_nil in Hw|].
  simpl. destruct (isna u) eqn:Hu.
  - destruct u; try done. apply elem_of_cons in Hw as [->|Hw]; [done|].
    destruct IH as (l1 & x & l2 & -> & Hx & Hl2 & Hl1); [eauto|].
    exists (VNull :: l1), x, l2. repeat split; try done. by constructor.
  - exists [], u, (ffill_from u l). repeat split; try done.
    + intros ->. done.
    + apply ffill_from_present. intros ->. done.
Qed.

Lemma bfill_ffill_keeps (l : list value) : Forall2 keeps l (bfill (ffill l)).
Proof.
  assert (Htrans : forall l1 l2 l3,
    Forall2 keeps l1 l2 -> Forall2 keeps l2 l3 -> Forall2 keeps l1 l3).
  { intros l1 l2 l3 H. revert l3. induction H as [|u v l1 l2 Huv H IH];
      intros l3 H3; inversion H3 as [|? w ? l3' Hvw H3']; subst; constructor.
    - intros Hu. rewrite <- (Huv Hu). apply Hvw. by rewrite (Huv Hu).
    - by apply IH. }
  apply (Htrans _ (ffill l)); [apply ffill_from_keeps|].
  unfold bfill. rewrite !rev_is_reverse.
  rewrite <- (reverse_involutive (ffill l)) at 1.
  apply Forall2_reverse, ffill_from_keeps.
Qed.

Lemma bfill_ffill_elem (l : list value) (v : value) :
  v ∈ bfill (ffill l) -> v = VNull \/ v ∈ l.
Proof.
  intros Hv. unfold bfill in Hv. rewrite rev_is_reverse in Hv.
  rewrite elem_of_reverse in Hv. unfold ffill in Hv at 1.
  apply ffill_from_elem in Hv as [->|Hv]; [by left|].
  rewrite rev_is_reverse in Hv. rewrite elem_of_reverse in Hv.
  apply ffill_from_elem in Hv as [->|Hv]; [by left|by right].
Qed.

(** X12.  The three facts about [x.ffill().bfill()] that cleaning relies on: the
    length is kept; a present entry is kept; a filled entry is an entry of
    the list; and a list that holds a value is filled everywhere. *)
Theorem bfill_ffill_spec (l : list value) :
  length (bfill (ffill l)) = length l
  /\ (forall k u, l !! k = Some u -> u ≠ VNull -> bfill (ffill l) !! k = Some u)
  /\ (forall v, v ∈ bfill (ffill l) -> v = VNull \/ v ∈ l)
  /\ ((exists u, u ∈ l /\ u ≠ VNull) -> VNull ∉ bfill (ffill l)).
Proof.
  split; [symmetry; apply (Forall2_length _ _ _ (bfill_ffill_keeps l))|].
  split.
  { intros k u Hk Hu.
    destruct (Forall2_lookup_l _ _ _ _ _ (bfill_ffill_keeps l) Hk) as (v & Hv & Hkeep).
    by rewrite Hv, (Hkeep Hu). }
  split; [apply bfill_ffill_elem|].
  intros Hex. destruct (ffill_shape l Hex) as (l1 & x & l2 & Hf & Hx & Hl2 & Hl1).
  unfold bfill. rewrite Hf, !rev_is_reverse, elem_of_reverse.
  rewrite reverse_app, reverse_cons.
  destruct (reverse l2) as [|y l2'] eqn:Hr.
  - simpl. unfold ffill. simpl. destruct (isna x) eqn:Hna; [by destruct x|].
    intros [?|Hv]%elem_of_cons; [congruence|]. revert Hv. by apply ffill_from_present.
  - assert (Hy : y ≠ VNull).
    { intros ->. apply Hl2. apply elem_of_reverse. rewrite Hr. left. }
    simpl. unfold ffill. simpl. destruct (isna y) eqn:Hna; [by destruct y|].
    intros [?|Hv]%elem_of_cons; [congruence|]. revert Hv. by apply ffill_from_present.
Qed.

Lemma bfill_ffill_spec_witness :
  (exists u, u ∈ [VNull; VStr "Engineer"; VNull] /\ u ≠ VNull)
  /\ VNull ∉ bfill (ffill [VNull; VStr "Engineer"; VNull]).
Proof.
  assert (H : exists u, u ∈ [VNull; VStr "Engineer"; VNull] /\ u ≠ VNull).
  { exists (VStr "Engineer"). split; [right; left|discriminate]. }
  split; [exact H|].
  exact (proj2 (proj2 (proj2 (bfill_ffill_spec [VNull; VStr "Engineer"; VNull]))) H).
Defined.

(** An element that passes a filter sits, in the filtered list, at the
    number of elements before it that pass. *)
Lemma filter_rank {A : Type} (P : A -> Prop) `{forall x, Decision (P x)}
    (l : list A) (i : nat) (x : A) :
  l !! i = Some x -> P x ->
  filter P l !! length (filter P (take i l)) = Some x.
Proof.
  revert i. induction l as [|y l IH]; intros i Hi Hx; [done|].
  destruct i as [|i]; simpl in *.
  - injection Hi as ->. by rewrite filter_cons_True.
  - rewrite !filter_cons. destruct (decide (P y)); simpl; by apply IH.
Qed.

(** The value [groupby(...).transform(...)] gives the row at position [i]:
    with a person identifier, the row's own title if it has one, and in any
    case nothing or the title of a row of the same person. *)
Lemma carried_title (rows : list (Z * Row)) (i : nat) (ir : Z * Row) :
  rows !! i = Some ir ->
  exists v,
    groupby_transform "person_id" "title" (fun x => bfill (ffill x)) rows !! i
    = Some v
    /\ (cell ir.2 "person_id" ≠ VNull -> keeps (cell ir.2 "title") v)
    /\ (v = VNull
        \/ exists jr, jr ∈ rows
             /\ cell jr.2 "person_id" = cell ir.2 "person_id"
             /\ cell jr.2 "title" = v).
Proof.
  intros Hi. unfold groupby_transform. rewrite list_lookup_imap, Hi.
  cbn [fmap option_fmap option_map].
  destruct (isna (cell ir.2 "person_id")) eqn:Hna.
  { exists VNull. split; [done|]. split; [|by left].
    intros Hk. by destruct (cell ir.2 "person_id"). }
  set (k := cell ir.2 "person_id") in *.
  set (same := fun jr : Z * Row => bool_decide (cell jr.2 "person_id" = k)).
  set (group := filter same rows).
  set (rank := length (filter same (take i rows))).
  assert (Hg : group !! rank = Some ir).
  { unfold group, rank. apply filter_rank; [done|].
    unfold same. by apply bool_decide_pack. }
  set (titles := map (fun jr : Z * Row => cell jr.2 "title") group).
  assert (Ht : titles !! rank = Some (cell ir.2 "title"))
    by (unfold titles; by rewrite list_lookup_fmap, Hg).
  destruct (Forall2_lookup_l _ _ _ _ _ (bfill_ffill_keeps titles) Ht)
    as (v & Hv & Hkeep).
  exists v. split.
  { change (Some (default VNull (bfill (ffill titles) !! rank)) = Some v).
    by rewrite Hv. }
  split; [done|].
  destruct (bfill_ffill_elem titles v) as [->|Hin];
    [by apply list_elem_of_lookup_2 in Hv|by left|].
  right. unfold titles in Hin.
  apply list_elem_of_fmap in Hin as (jr & -> & Hjr).
  unfold group in Hjr. apply list_elem_of_filter in Hjr as [Hs Hjr].
  exists jr. split; [done|]. split; [|done].
  unfold same in Hs. by apply bool_decide_unpack in Hs.
Qed.

Lemma stems_except_ignores (cs : list string) (df : DataFrame) (c : string) :
  c ∈ cs -> c ≠ "row_id" -> ignores c (stems_except cs df).
Proof.
  intros Hc Hne r v (i & r0 & Hin & Hid & Hcells). exists i, r0.
  split; [done|]. split; [by rewrite cell_insert_ne|].
  intros c' Hc'. rewrite cell_insert_ne; [by apply Hcells|]. by intros ->.
Qed.

(** The rows that are sorted still have the person identifier and the title
    of the input row they stem from. *)
Lemma sorted_stems (df : DataFrame) :
  all_rows (stems_except ["row_id"; "start_date"; "end_date"; "last_updated"] df)
           (sorted df).
Proof.
  assert (Hw : forall (c : string) (cs : list string),
            bool_decide (c ∈ cs) = true -> c ∈ cs)
    by (intros c cs; apply bool_decide_eq_true).
  apply all_rows_sorted; try (apply stems_except_ignores; [by apply Hw|done]).
  intros ir Hin. unfold with_row_id, set_col in Hin. simpl in Hin.
  apply list_elem_of_fmap in Hin as ([i r0] & -> & Hin). simpl.
  exists i, r0. split; [done|]. split; [apply cell_insert_eq|].
  intros c Hc. apply cell_insert_ne. intros <-. apply Hc. by apply Hw.
Qed.

(** X13.  Titles after cleaning.  A cleaned row stems from an input row with the
    same person identifier.  If that row has an identifier and a title, the
    title is kept.  Otherwise the cleaned title is ["Unknown"] or the title
    of an input row of the same person. *)
Theorem clean_data_titles (df : DataFrame) (ir : Z * Row) :
  ir ∈ body (clean_data df).1.1 ->
  exists i r0,
    (i, r0) ∈ body df
    /\ cell ir.2 "row_id" = VInt i
    /\ cell ir.2 "person_id" = cell r0 "person_id"
    /\ (cell r0 "person_id" ≠ VNull -> cell r0 "title" ≠ VNull ->
        cell ir.2 "title" = cell r0 "title")
    /\ (cell ir.2 "title" = VStr "Unknown"
        \/ exists j r1, (j, r1) ∈ body df
             /\ cell r1 "person_id" = cell r0 "person_id"
             /\ cell r1 "title" = cell ir.2 "title").
Proof.
  assert (Hnotin : forall c : string,
    bool_decide (c ∈ ["row_id"; "start_date"; "end_date"; "last_updated"]) = false ->
    c ∉ ["row_id"; "start_date"; "end_date"; "last_updated"])
    by (intros c; apply bool_decide_eq_false).
  destruct (df_empty df) eqn:Hne.
  { rewrite (clean_data_empty df Hne). by intros ?%elem_of_nil. }
  rewrite (clean_data_stages df Hne). cbn [fst]. unfold fillna. cbn [body].
  intros Hin. apply list_elem_of_fmap in Hin as (jr & -> & Hjr). cbn [fst snd].
  unfold titled, assign_col in Hjr. cbn [body] in Hjr.
  apply elem_of_lookup_zip_with in Hjr as (n & s & v & -> & Hs & Hv).
  cbn [fst snd].
  destruct (carried_title _ _ _ Hs) as (v' & Hv' & Hkeep & Hfrom).
  rewrite Hv in Hv'. injection Hv' as <-.
  destruct (sorted_stems df s (list_elem_of_lookup_2 _ _ _ Hs))
    as (i & r0 & Hr0 & Hid & Hcells).
  assert (Hpid : cell s.2 "person_id" = cell r0 "person_id")
    by (apply Hcells; by apply Hnotin).
  assert (Htitle : cell s.2 "title" = cell r0 "title")
    by (apply Hcells; by apply Hnotin).
  rewrite cell_insert_eq. exists i, r0. split; [done|].
  destruct (isna v) eqn:Hna.
  - (* nothing to carry: the sentinel is written *)
    rewrite !cell_insert_eq, !cell_insert_ne by done.
    split; [done|]. split; [done|]. split; [|by left].
    intros Hp Ht. rewrite Hpid, Htitle in Hkeep.
    rewrite (Hkeep Hp Ht) in Hna. by destruct (cell r0 "title").
  - rewrite !cell_insert_eq, !cell_insert_ne by done.
    split; [done|]. split; [done|]. split.
    + intros Hp Ht. rewrite Hpid, Htitle in Hkeep. by apply Hkeep.
    + right. destruct Hfrom as [->|(kr & Hkr & Hkp & Hkt)]; [done|].
      destruct (sorted_stems df kr Hkr) as (j & r1 & Hr1 & _ & Hcells1).
      exists j, r1. split; [done|]. split.
      * rewrite <- (Hcells1 "person_id") by (by apply Hnotin). by rewrite Hkp.
      * rewrite <- (Hcells1 "title") by (by apply Hnotin). done.
Qed.

Lemma nonempty_elem_of {A : Type} (l : list A) :
  (0 <? length l)%nat = true -> exists x, x ∈ l.
Proof. destruct l as [|x l]; [done|]. intros _. exists x. left. Defined.

Lemma first_cleaned_row : exists ir, ir ∈ body (clean_data new_in_2024).1.1.
Proof. apply nonempty_elem_of. vm_compute. reflexivity. Defined.

Lemma clean_data_stems_from_input_witness :
  exists ir, ir ∈ body (clean_data new_in_2024).1.1
             /\ stems_from new_in_2024 ir.2.
Proof.
  destruct first_cleaned_row as (ir & Hh).
  exists ir. split; [done|].
  by apply (clean_data_stems_from_input new_in_2024).
Defined.

Lemma clean_data_titles_witness :
  exists ir i r0,
    ir ∈ body (clean_data new_in_2024).1.1
    /\ (i, r0) ∈ body new_in_2024
    /\ cell ir.2 "row_id" = VInt i
    /\ cell ir.2 "person_id" = cell r0 "person_id"
    /\ (cell r0 "person_id" ≠ VNull -> cell r0 "title" ≠ VNull ->
        cell ir.2 "title" = cell r0 "title").
Proof.
  destruct first_cleaned_row as (ir & Hin).
  destruct (clean_data_titles new_in_2024 ir Hin) as (i & r0 & H1 & H2 & H3 & H4 & _).
  exists ir, i, r0. by repeat split.
Defined.

(** *** The ledger *)

Lemma stems_except_weaken (cs cs' : list string) (df : DataFrame) (r : Row) :
  (forall c, c ∈ cs -> c ∈ cs') ->
  stems_except cs df r -> stems_except cs' df r.
Proof.
  intros Hsub (i & r0 & Hin & Hid & Hcells). exists i, r0.
  split; [done|]. split; [done|]. intros c Hc. apply Hcells. intros Hc'.
  by apply Hc, Hsub.
Qed.

Lemma coerce_date_col_errors (st : DataFrame * list ValidationError)
    (col : string) (err : ValidationError) :
  err ∈ (coerce_date_col st col).2 ->
  err ∈ st.2
  \/ exists ir, ir ∈ body st.1 /\ err = date_error col ir
                /\ to_datetime (cell ir.2 col) = VNull.
Proof.
  destruct st as [df errs]. unfold coerce_date_col. cbn [fst snd].
  destruct (has_column col df); [|by left]. cbn [snd].
  intros [Herr|Herr]%elem_of_app; [by left|right].
  apply list_elem_of_fmap in Herr as (ir & -> & Hir).
  apply list_elem_of_filter in Hir as [Hna Hir]. exists ir.
  split; [done|]. split; [done|].
  apply Is_true_true in Hna. by destruct (to_datetime (cell ir.2 col)).
Qed.

Lemma with_row_id_stems (df : DataFrame) :
  all_rows (stems_except ["row_id"] df) (with_row_id df).
Proof.
  intros ir Hin. unfold with_row_id, set_col in Hin. simpl in Hin.
  apply list_elem_of_fmap in Hin as ([i r0] & -> & Hin). simpl.
  exists i, r0. split; [done|]. split; [apply cell_insert_eq|].
  intros c Hc. apply cell_insert_ne. intros <-. apply Hc. left.
Qed.

(** X8.  Every entry of the ledger returned by [clean_data] cites, by [row_id],
    an input row that shows the defect: an e-mail that is text and fails
    the pattern; a date cell that is not a date; or, for the title, a row
    whose own title (or person identifier) is missing. *)
Theorem clean_data_ledger_sound (df : DataFrame) (err : ValidationError) :
  err ∈ (clean_data df).1.2 ->
  exists i r0,
    (i, r0) ∈ body df /\ row_id err = VInt i
    /\ ((field err = "email"
         /\ exists s, cell r0 "email" = VStr s
              /\ re_fullmatch email_regex s = false
              /\ error_reason err = Fmt "Invalid email format: " (VStr s))
        \/ (field err ∈ date_cols
            /\ to_datetime (cell r0 (field err)) = VNull
            /\ error_reason err
               = Fmt "Invalid date format: " (cell r0 (field err)))
        \/ (field err = "title"
            /\ (cell r0 "title" = VNull \/ cell r0 "person_id" = VNull)
            /\ error_reason err
               = Plain "Missing title - no value to forward/backward fill")).
Proof.
  assert (Hout : forall (c : string) (cs : list string),
            bool_decide (c ∈ cs) = false -> c ∉ cs)
    by (intros c cs; apply bool_decide_eq_false).
  assert (Hinl : forall (c : string) (cs : list string),
            bool_decide (c ∈ cs) = true -> c ∈ cs)
    by (intros c cs; apply bool_decide_eq_true).
  destruct (df_empty df) eqn:Hne.
  { rewrite (clean_data_empty df Hne). by intros ?%elem_of_nil. }
  rewrite (clean_data_stages df Hne). cbn [fst snd].
  intros [Herr|Herr]%elem_of_app.
  - (* entries of the e-mail check and of the date loop *)
    unfold dated, date_cols in Herr. cbn [foldl] in Herr.
    set (st0 := (valid_emails df, _)) in Herr.
    set (st1 := coerce_date_col st0 "start_date") in Herr.
    set (st2 := coerce_date_col st1 "end_date") in Herr.
    assert (H0 : all_rows (stems_except ["row_id"] df) st0.1).
    { unfold st0, valid_emails, deduplicated. cbn [fst].
      apply all_rows_filter_rows, all_rows_drop_duplicates, with_row_id_stems. }
    assert (H1 : all_rows (stems_except ["row_id"; "start_date"] df) st1.1).
    { apply all_rows_coerce_date_col;
        [apply stems_except_ignores; [by apply Hinl|done]|].
      intros ir Hir. apply (stems_except_weaken ["row_id"]); [|by apply H0].
      intros c Hc. apply list_elem_of_singleton in Hc as ->. left. }
    assert (H2 : all_rows
        (stems_except ["row_id"; "start_date"; "end_date"] df) st2.1).
    { apply all_rows_coerce_date_col;
        [apply stems_except_ignores; [by apply Hinl|done]|].
      intros ir Hir.
      apply (stems_except_weaken ["row_id"; "start_date"]); [|by apply H1].
      intros c Hc. apply Hinl. apply bool_decide_eq_true.
      apply elem_of_cons in Hc as [->|Hc]; [left|].
      apply list_elem_of_singleton in Hc as ->. right; left. }
    assert (Hdate : forall cs (st : DataFrame * list ValidationError) col ir,
      all_rows (stems_except cs df) st.1 -> col ∉ cs -> col ∈ date_cols ->
      ir ∈ body st.1 -> to_datetime (cell ir.2 col) = VNull ->
      exists i r0, (i, r0) ∈ body df /\ row_id (date_error col ir) = VInt i
        /\ field (date_error col ir) ∈ date_cols
        /\ to_datetime (cell r0 (field (date_error col ir))) = VNull
        /\ error_reason (date_error col ir)
           = Fmt "Invalid date format: " (cell r0 (field (date_error col ir)))).
    { intros cs st col ir Hall Hcol Hd Hir Hna.
      destruct (Hall ir Hir) as (i & r0 & Hr0 & Hid & Hcells).
      exists i, r0. simpl. rewrite <- (Hcells col Hcol). by repeat split. }
    apply coerce_date_col_errors in Herr as [Herr|(ir & Hir & -> & Hna)].
    2:{ destruct (Hdate _ st2 "last_updated" ir H2) as (i & r0 & ? & ? & ? & ? & ?);
          [by apply Hout|by apply Hinl|done|done|].
        exists i, r0. split; [done|]. split; [done|]. right; left. by repeat split. }
    apply coerce_date_col_errors in Herr as [Herr|(ir & Hir & -> & Hna)].
    2:{ destruct (Hdate _ st1 "end_date" ir H1) as (i & r0 & ? & ? & ? & ? & ?);
          [by apply Hout|by apply Hinl|done|done|].
        exists i, r0. split; [done|]. split; [done|]. right; left. by repeat split. }
    apply coerce_date_col_errors in Herr as [Herr|(ir & Hir & -> & Hna)].
    2:{ destruct (Hdate _ st0 "start_date" ir H0) as (i & r0 & ? & ? & ? & ? & ?);
          [by apply Hout|by apply Hinl|done|done|].
        exists i, r0. split; [done|]. split; [done|]. right; left. by repeat split. }
    unfold st0 in Herr. cbn [snd] in Herr.
    apply list_elem_of_fmap in Herr as (ir & -> & Hir).
    apply list_elem_of_filter in Hir as [Hbad Hir].
    assert (Hst : stems_except ["row_id"] df ir.2).
    { unfold deduplicated in Hir.
      exact (all_rows_drop_duplicates _ _ _ _ (with_row_id_stems df) ir Hir). }
    destruct Hst as (i & r0 & Hr0 & Hid & Hcells).
    exists i, r0. split; [done|]. split; [done|]. left. split; [done|].
    simpl. rewrite (Hcells "email") in * by (by apply Hout).
    apply Is_true_true, negb_true_iff in Hbad.
    destruct (cell r0 "email") as [|s| |]; try done. exists s. by repeat split.
  - (* entries for the titles left missing *)
    apply list_elem_of_fmap in Herr as (jr & -> & Hjr).
    apply list_elem_of_filter in Hjr as [Hna Hjr].
    unfold titled, assign_col in Hjr. cbn [body] in Hjr.
    apply elem_of_lookup_zip_with in Hjr as (n & s & v & -> & Hs & Hv).
    cbn [fst snd] in *. rewrite cell_insert_eq in Hna.
    destruct (carried_title _ _ _ Hs) as (v' & Hv' & Hkeep & _).
    rewrite Hv in Hv'. injection Hv' as <-.
    destruct (sorted_stems df s (list_elem_of_lookup_2 _ _ _ Hs))
      as (i & r0 & Hr0 & Hid & Hcells).
    exists i, r0. split; [done|]. split.
    { simpl. by rewrite cell_insert_ne. }
    right; right. split; [done|]. split; [|done].
    rewrite (Hcells "person_id"), (Hcells "title") in Hkeep by (by apply Hout).
    destruct (cell r0 "person_id") eqn:Hp; [by right| | |];
      (destruct (cell r0 "title") eqn:Ht; [by left| | |];
       rewrite Hkeep in Hna by done; done).
Qed.

Lemma clean_data_ledger_sound_witness :
  exists err i r0,
    err ∈ (clean_data new_in_2024).1.2
    /\ (i, r0) ∈ body new_in_2024 /\ row_id err = VInt i.
Proof.
  assert (Hh : exists err, err ∈ (clean_data new_in_2024).1.2)
    by (apply nonempty_elem_of; vm_compute; reflexivity).
  destruct Hh as (err & Hin).
  destruct (clean_data_ledger_sound new_in_2024 err Hin) as (i & r0 & H1 & H2 & _).
  exists err, i, r0. by repeat split.
Defined.

(** ** Sorting *)

(** For a total and transitive comparison, [stable_sort] gives a list in
    which every element is below all the later ones. *)
Lemma stable_sort_sorted {A : Type} (leb : A -> A -> bool) (l : list A) :
  (forall x y, leb x y = false -> leb y x = true) ->
  (forall x y z, leb x y = true -> leb y z = true -> leb x z = true) ->
  StronglySorted (fun x y => leb x y = true) (stable_sort leb l).
Proof.
  intros Htotal Htrans. unfold stable_sort.
  induction l as [|x l IH]; simpl; [constructor|].
  revert IH. generalize (foldr (insert_sorted leb) [] l). clear l.
  intros l Hl. induction Hl as [|y l Hl IH Hy]; simpl.
  - repeat constructor.
  - destruct (leb x y) eqn:Hxy.
    + constructor; [by constructor|]. constructor; [done|].
      eapply Forall_impl; [exact Hy|]. intros z Hz. by apply (Htrans x y z).
    + constructor; [done|].
      rewrite Forall_forall. intros z Hz.
      rewrite insert_sorted_perm in Hz. apply elem_of_cons in Hz as [->|Hz].
      * by apply Htotal.
      * rewrite Forall_forall in Hy. by apply Hy.
Qed.

Lemma ascii_compare_Lt (a b : ascii) :
  Ascii.compare a b = Lt <-> (N_of_ascii a < N_of_ascii b)%N.
Proof. unfold Ascii.compare. apply N.compare_lt_iff. Qed.

Lemma string_compare_Lt_trans (a b c : string) :
  String.compare a b = Lt -> String.compare b c = Lt -> String.compare a c = Lt.
Proof.
  revert b c. induction a as [|x a IH]; intros [|y b] [|z c]; simpl; try done.
  destruct (Ascii.compare x y) eqn:Hxy; try done.
  - apply Ascii.compare_eq_iff in Hxy as ->.
    destruct (Ascii.compare y z); try done. apply IH.
  - intros _. destruct (Ascii.compare y z) eqn:Hyz; try done.
    + apply Ascii.compare_eq_iff in Hyz as <-. by rewrite Hxy.
    + intros _. apply ascii_compare_Lt in Hxy, Hyz.
      assert (Hxz : Ascii.compare x z = Lt)
        by (apply ascii_compare_Lt; by apply (N.lt_trans _ (N_of_ascii y))).
      by rewrite Hxz.
Qed.

Lemma string_compare_refl (a : string) : String.compare a a = Eq.
Proof.
  induction a as [|x a IH]; simpl; [done|].
  assert (Hx : Ascii.compare x x = Eq) by apply N.compare_refl.
  by rewrite Hx.
Qed.

Lemma date_leb_total (a b : option Z) : date_leb a b = false -> date_leb b a = true.
Proof.
  destruct a, b; simpl; try done. intros H. apply Z.leb_gt in H.
  apply Z.leb_le. lia.
Qed.

Lemma date_leb_trans (a b c : option Z) :
  date_leb a b = true -> date_leb b c = true -> date_leb a c = true.
Proof.
  destruct a, b, c; simpl; try done. rewrite !Z.leb_le. lia.
Qed.

Lemma text_then_date_leb_spec (a : string) (x : option Z) (b : string)
    (y : option Z) :
  text_then_date_leb a x b y = true <->
  String.compare a b = Lt \/ (a = b /\ date_leb x y = true).
Proof.
  unfold text_then_date_leb. destruct (String.compare a b) eqn:Hab.
  - apply String.compare_eq_iff in Hab as ->. split; [by right|].
    by intros [H|[_ H]].
  - split; [by left|done].
  - split; [done|]. intros [?|[-> _]]; [done|].
    by rewrite string_compare_refl in Hab.
Qed.

Lemma text_then_date_leb_total (a : string) (x : option Z) (b : string)
    (y : option Z) :
  text_then_date_leb a x b y = false -> text_then_date_leb b y a x = true.
Proof.
  unfold text_then_date_leb. rewrite (String.compare_antisym b a).
  destruct (String.compare a b); simpl; try done. apply date_leb_total.
Qed.

Lemma text_then_date_leb_trans (a b c : string) (x y z : option Z) :
  text_then_date_leb a x b y = true -> text_then_date_leb b y c z = true ->
  text_then_date_leb a x c z = true.
Proof.
  rewrite !text_then_date_leb_spec.
  intros [Hab|[-> Hxy]] [Hbc|[-> Hyz]].
  - left. by apply (string_compare_Lt_trans a b c).
  - by left.
  - by left.
  - right. split; [done|]. by apply (date_leb_trans x y z).
Qed.

Lemma value_compare_antisym (a b : value) :
  value_compare a b = CompOpp (value_compare b a).
Proof.
  destruct a, b; simpl; try done;
    [apply String.compare_antisym|apply Z.compare_antisym|apply Z.compare_antisym].
Qed.

Lemma value_compare_Eq (a b : value) : value_compare a b = Eq -> a = b.
Proof.
  destruct a, b; simpl; try done.
  - by intros ->%String.compare_eq_iff.
  - by intros ->%Z.compare_eq.
  - by intros ->%Z.compare_eq.
Qed.

Lemma value_compare_Lt_trans (a b c : value) :
  value_compare a b = Lt -> value_compare b c = Lt -> value_compare a c = Lt.
Proof.
  destruct a, b, c; simpl; try done.
  - apply string_compare_Lt_trans.
  - rewrite !Z.compare_lt_iff. lia.
  - rewrite !Z.compare_lt_iff. lia.
Qed.

Lemma rows_leb_total (cs : list string) (r s : Row) :
  rows_leb cs r s = false -> rows_leb cs s r = true.
Proof.
  unfold rows_leb. induction cs as [|c cs IH]; simpl; [done|].
  rewrite (value_compare_antisym (cell s c) (cell r c)).
  destruct (value_compare (cell r c) (cell s c)); simpl; try done.
Qed.

Lemma rows_leb_trans (cs : list string) (r s t : Row) :
  rows_leb cs r s = true -> rows_leb cs s t = true -> rows_leb cs r t = true.
Proof.
  unfold rows_leb. induction cs as [|c cs IH]; simpl; [done|].
  destruct (value_compare (cell r c) (cell s c)) eqn:Hrs; try done.
  - apply value_compare_Eq in Hrs. rewrite Hrs.
    by destruct (value_compare (cell s c) (cell t c)).
  - intros _. destruct (value_compare (cell s c) (cell t c)) eqn:Hst; try done.
    + apply value_compare_Eq in Hst. by rewrite <- Hst, Hrs.
    + by rewrite (value_compare_Lt_trans _ _ _ Hrs Hst).
Qed.

Lemma StronglySorted_Forall2 {A : Type} (R : A -> A -> Prop) (Q : A -> A -> Prop)
    (l l' : list A) :
  (forall a b a' b', Q a a' -> Q b b' -> R a b -> R a' b') ->
  Forall2 Q l l' -> StronglySorted R l -> StronglySorted R l'.
Proof.
  intros HQ H2. induction H2 as [|a a' l l' Ha H2 IH]; [constructor|].
  intros Hs. apply StronglySorted_inv in Hs as [Hs Hall].
  constructor; [by apply IH|].
  rewrite Forall_forall in *. intros b' Hb'.
  apply list_elem_of_lookup in Hb' as [n Hn].
  destruct (Forall2_lookup_r _ _ _ _ _ H2 Hn) as (b & Hb & Hbb').
  apply (HQ a b); [done|done|]. apply Hall. by apply list_elem_of_lookup_2 in Hb.
Qed.

Lemma Forall2_zip_with_l {A B : Type} (Q : A -> A -> Prop) (f : A -> B -> A)
    (l : list A) (k : list B) :
  length l = length k -> (forall x y, Q x (f x y)) ->
  Forall2 Q l (zip_with f l k).
Proof.
  intros Hlen HQ. revert k Hlen.
  induction l as [|x l IH]; intros [|y k] Hlen; simpl in *; try done;
    constructor; [done|]. apply IH. lia.
Qed.

(** X11.  The cleaned relation is ordered by person identifier, then start date
    (missing values last): every row is below all the rows after it. *)
Theorem clean_data_sorted (df : DataFrame) :
  StronglySorted
    (fun ir jr => rows_leb ["person_id"; "start_date"] ir.2 jr.2 = true)
    (body (clean_data df).1.1).
Proof.
  destruct (df_empty df) eqn:Hne.
  { rewrite (clean_data_empty df Hne). constructor. }
  rewrite (clean_data_stages df Hne). cbn [fst].
  set (Q := fun ir jr : Z * Row =>
              cell jr.2 "person_id" = cell ir.2 "person_id"
              /\ cell jr.2 "start_date" = cell ir.2 "start_date").
  apply (StronglySorted_Forall2 _ Q (body (sorted df))).
  - intros a b a' b' [Ha1 Ha2] [Hb1 Hb2]. unfold rows_leb. simpl.
    by rewrite Ha1, Ha2, Hb1, Hb2.
  - unfold fillna, titled, assign_col. cbn [body]. apply Forall2_fmap_r.
    apply Forall2_zip_with_l.
    + unfold groupby_transform. by rewrite length_imap.
    + intros [i r] v. unfold Q, compose. cbn [fst snd].
      destruct (isna (cell _ "title")); cbn [snd];
        rewrite ?cell_insert_ne; done.
  - unfold sorted, sort_values. cbn [body]. apply stable_sort_sorted.
    + intros x y. apply rows_leb_total.
    + intros x y z. apply rows_leb_trans.
Qed.

(** *** Row accounting *)

Lemma len_app {A : Type} (l k : list A) : len (l ++ k) = len l + len k.
Proof. unfold len. rewrite length_app. lia. Qed.

Lemma len_filter_split {A : Type} (p : A -> bool) (l : list A) :
  len (filter (fun x => p x) l) + len (filter (fun x => negb (p x)) l) = len l.
Proof.
  unfold len. induction l as [|x l IH]; [done|].
  rewrite !filter_cons. destruct (p x) eqn:Hp; simpl; simpl in IH; lia.
Qed.

Lemma entries_for_app (f : string) (l k : list ValidationError) :
  entries_for f (l ++ k) = entries_for f l + entries_for f k.
Proof. unfold entries_for. by rewrite filter_app, len_app. Qed.

Lemma entries_for_same (f : string) (mk : Z * Row -> ValidationError)
    (l : list (Z * Row)) :
  (forall ir, field (mk ir) = f) -> entries_for f (map mk l) = len l.
Proof.
  intros Hf. unfold entries_for, len. f_equal.
  induction l as [|x l IH]; [done|]. simpl map.
  rewrite filter_cons_True by apply Hf. simpl. by rewrite IH.
Qed.

Lemma entries_for_other (f : string) (mk : Z * Row -> ValidationError)
    (l : list (Z * Row)) :
  (forall ir, field (mk ir) ≠ f) -> entries_for f (map mk l) = 0.
Proof.
  intros Hf. unfold entries_for, len.
  induction l as [|x l IH]; [done|]. simpl map.
  by rewrite filter_cons_False by apply Hf.
Qed.

(** One turn of the date loop: the rows dropped on a required date column
    are as many as the entries added on that column; the entries on other
    fields are left alone. *)
Lemma coerce_date_col_accounts (st : DataFrame * list ValidationError)
    (col : string) :
  len (body (coerce_date_col st col).1)
  + (if bool_decide (col ∈ ["start_date"; "last_updated"])
     then entries_for col (coerce_date_col st col).2 - entries_for col st.2
     else 0)
  = len (body st.1)
  /\ forall f, f ≠ col ->
       entries_for f (coerce_date_col st col).2 = entries_for f st.2.
Proof.
  destruct st as [df errs]. unfold coerce_date_col. cbn [fst snd].
  destruct (has_column col df).
  2:{ cbn [fst snd]. split; [|done]. destruct (bool_decide _); lia. }
  cbn [fst snd]. split.
  - rewrite entries_for_app, (entries_for_same col) by done.
    destruct (bool_decide _).
    + unfold dropna, filter_rows, set_col. cbn [body].
      assert (H1 : filter (fun ir : Z * Row => notna (cell ir.2 col))
                (map (fun ir : Z * Row =>
                        (ir.1, <[col := to_datetime (cell ir.2 col)]> ir.2)) (body df))
              = map (fun ir : Z * Row =>
                       (ir.1, <[col := to_datetime (cell ir.2 col)]> ir.2))
                  (filter (fun ir : Z * Row => notna (to_datetime (cell ir.2 col)))
                     (body df))).
      { induction (body df) as [|x l IH]; [done|]. simpl map.
        rewrite !filter_cons. cbn [snd]. rewrite cell_insert_eq.
        destruct (decide (notna (to_datetime (cell x.2 col)))); simpl;
          by rewrite IH. }
      pose proof (len_filter_split
        (fun ir : Z * Row => notna (to_datetime (cell ir.2 col))) (body df)) as Hsplit.
      rewrite H1. unfold len in *. rewrite length_map.
      assert (H2 : filter (fun ir : Z * Row => isna (to_datetime (cell ir.2 col))) (body df)
                   = filter (fun ir : Z * Row =>
                               negb (notna (to_datetime (cell ir.2 col)))) (body df)).
      { apply list_filter_iff. intros x. unfold notna. by rewrite negb_involutive. }
      rewrite H2. lia.
    + unfold set_col. cbn [body]. unfold len. rewrite length_map. lia.
  - intros f Hf. rewrite entries_for_app, (entries_for_other f); [lia|].
    intros ir. simpl. congruence.
Qed.

(** X9.  Row accounting of [clean_data]: every input row is kept, or removed as
    a duplicate, or rejected with a ledger entry on the e-mail, the start
    date or the last-updated date. *)
Theorem clean_data_accounts (df : DataFrame) :
  df_empty df = false ->
  len (body df)
  = len (body (clean_data df).1.1)
    + cm_duplicates_removed (clean_data df).2
    + entries_for "email" (clean_data df).1.2
    + entries_for "start_date" (clean_data df).1.2
    + entries_for "last_updated" (clean_data df).1.2.
Proof.
  intros Hne. rewrite (clean_data_stages df Hne). cbn [fst snd cm_duplicates_removed].
  rewrite !entries_for_app, !(entries_for_other _ title_error) by done.
  (* the rows that are written out are those that leave the date loop *)
  assert (Hout : len (body (fillna "title" (VStr "Unknown") (titled df)))
                 = len (body (dated df).1)).
  { unfold fillna, titled, assign_col, sorted, sort_values, len. cbn [body].
    rewrite length_map, length_zip_with_l_eq.
    - f_equal. apply Permutation_length, stable_sort_perm.
    - unfold groupby_transform. by rewrite length_imap. }
  rewrite Hout. unfold dated, date_cols. cbn [foldl].
  set (st0 := (valid_emails df, _)).
  set (st1 := coerce_date_col st0 "start_date").
  set (st2 := coerce_date_col st1 "end_date").
  destruct (coerce_date_col_accounts st0 "start_date") as [Ha1 Hb1].
  destruct (coerce_date_col_accounts st1 "end_date") as [Ha2 Hb2].
  destruct (coerce_date_col_accounts st2 "last_updated") as [Ha3 Hb3].
  fold st1 in Ha1, Hb1, Ha2, Hb2. fold st2 in Ha2, Hb2, Ha3, Hb3.
  rewrite bool_decide_eq_true_2 in Ha1 by (left).
  rewrite bool_decide_eq_false_2 in Ha2
    by (intros [?|[?|?%elem_of_nil]%elem_of_cons]%elem_of_cons; done).
  rewrite bool_decide_eq_true_2 in Ha3 by (right; left).
  pose proof (Hb3 "email" ltac:(done)) as He3.
  pose proof (Hb2 "email" ltac:(done)) as He2.
  pose proof (Hb1 "email" ltac:(done)) as He1.
  pose proof (Hb3 "start_date" ltac:(done)) as Hs3.
  pose proof (Hb2 "start_date" ltac:(done)) as Hs2.
  pose proof (Hb2 "last_updated" ltac:(done)) as Hl2.
  pose proof (Hb1 "last_updated" ltac:(done)) as Hl1.
  assert (Hst0 : len (body st0.1) + entries_for "email" st0.2
                 = len (body (deduplicated df))
                 /\ entries_for "start_date" st0.2 = 0
                 /\ entries_for "last_updated" st0.2 = 0).
  { unfold st0, valid_emails, filter_rows. cbn [fst snd body].
    rewrite (entries_for_same "email"), !(entries_for_other _ email_error) by done.
    split; [|done].
    apply (len_filter_split
             (fun ir : Z * Row => str_match_email (cell ir.2 "email"))). }
  destruct Hst0 as (H0 & H0s & H0l).
  assert (Hid : len (body (with_row_id df)) = len (body df)).
  { unfold with_row_id, set_col, len. cbn [body]. by rewrite length_map. }
  lia.
Qed.

Lemma clean_data_accounts_witness :
  df_empty new_in_2024 = false
  /\ len (body new_in_2024)
     = len (body (clean_data new_in_2024).1.1)
       + cm_duplicates_removed (clean_data new_in_2024).2
       + entries_for "email" (clean_data new_in_2024).1.2
       + entries_for "start_date" (clean_data new_in_2024).1.2
       + entries_for "last_updated" (clean_data new_in_2024).1.2.
Proof.
  split; [reflexivity|]. apply (clean_data_accounts new_in_2024). reflexivity.
Defined.

(** ** [clean_data]: the cleaned relation has no duplicate key *)

Lemma dedup_first_NoDup (cs : list string) (seen : list (list value))
    (l : list (Z * Row)) :
  NoDup (map (fun ir => subset_key cs ir.2) (dedup_first cs seen l))
  /\ forall ir, ir ∈ dedup_first cs seen l -> subset_key cs ir.2 ∉ seen.
Proof.
  revert seen. induction l as [|x l IH]; intros seen; simpl.
  - split; [constructor|]. by intros ir ?%elem_of_nil.
  - destruct (bool_decide_reflect (subset_key cs x.2 ∈ seen)) as [Hin|Hnin].
    + apply IH.
    + destruct (IH (subset_key cs x.2 :: seen)) as [Hnd Hseen]. split.
      * simpl. constructor; [|done].
        intros (jr & Hk & Hjr)%list_elem_of_fmap.
        apply (Hseen jr Hjr). rewrite <- Hk. left.
      * intros ir [->|Hir]%elem_of_cons; [done|].
        intros Hs. apply (Hseen ir Hir). by right.
Qed.

Lemma dedup_key_insert (ir : Z * Row) (c : string) (v : value) :
  c ∉ ["person_id"; "email"; "start_date"] ->
  dedup_key (ir.1, <[c := v]> ir.2) = dedup_key ir.
Proof.
  intros Hc. unfold dedup_key, subset_key. cbn [map snd].
  rewrite !cell_insert_ne; [done|..]; intros ->; apply Hc;
    [right; right; left|right; left|left].
Qed.

Lemma map_zip_with_l {A B C : Type} (g : A -> C) (f : A -> B -> A)
    (l : list A) (k : list B) :
  length l = length k -> (forall x y, g (f x y) = g x) ->
  map g (zip_with f l k) = map g l.
Proof.
  intros Hlen Hg. revert k Hlen.
  induction l as [|x l IH]; intros [|y k] Hlen; simpl in *; try done.
  rewrite Hg, IH; [done|lia].
Qed.

(** One turn of the date loop keeps the keys apart: a row that survives the
    coercion of its start date holds the date it held. *)
Lemma coerce_date_col_NoDup (st : DataFrame * list ValidationError)
    (col : string) :
  col ∈ date_cols ->
  (col = "start_date" -> all_rows no_number_date st.1) ->
  NoDup (map dedup_key (body st.1)) ->
  NoDup (map dedup_key (body (coerce_date_col st col).1)).
Proof.
  destruct st as [df errs]. cbn [fst]. intros Hcol HP Hnd.
  unfold coerce_date_col. destruct (has_column col df); [|done]. cbn [fst].
  destruct (decide (col = "start_date")) as [->|Hne].
  - rewrite bool_decide_eq_true_2 by left.
    unfold dropna, filter_rows, set_col. cbn [body].
    eapply sublist_NoDup; [exact Hnd|].
    specialize (HP eq_refl). unfold all_rows in HP.
    induction (body df) as [|x l IH]; [done|]. simpl map.
    rewrite filter_cons. cbn [snd]. rewrite cell_insert_eq.
    assert (IH' := IH (fun ir Hir => HP ir (list_elem_of_further _ _ _ Hir))
                      (NoDup_cons_1_2 _ _ Hnd)).
    destruct (decide (notna (to_datetime (cell x.2 "start_date")))) as [Hx|Hx].
    + simpl map.
      assert (Hk : dedup_key (x.1, <["start_date" :=
                      to_datetime (cell x.2 "start_date")]> x.2) = dedup_key x).
      { unfold dedup_key, subset_key. cbn [map snd].
        rewrite cell_insert_eq, !cell_insert_ne by done.
        pose proof (HP x (list_elem_of_here _ _)) as Hz. unfold no_number_date in Hz.
        destruct (cell x.2 "start_date") as [|s|z|t]; try done.
        by destruct (Hz z). }
      rewrite Hk. by apply sublist_skip.
    + by apply sublist_cons.
  - assert (Hc : col ∉ ["person_id"; "email"; "start_date"]).
    { unfold date_cols in Hcol.
      apply elem_of_cons in Hcol as [->|Hcol]; [done|].
      apply elem_of_cons in Hcol as [->|Hcol];
        [|apply list_elem_of_singleton in Hcol as ->];
        by intros [?|[?|[?|?%elem_of_nil]%elem_of_cons]%elem_of_cons]%elem_of_cons. }
    assert (Hmap : map dedup_key
                     (body (set_col col (fun ir => to_datetime (cell ir.2 col)) df))
                   = map dedup_key (body df)).
    { unfold set_col. cbn [body]. rewrite map_map. apply map_ext.
      intros ir. by apply dedup_key_insert. }
    destruct (bool_decide _).
    + unfold dropna, filter_rows. cbn [body].
      eapply sublist_NoDup; [exact Hnd|]. rewrite <- Hmap.
      apply (fmap_sublist dedup_key), sublist_filter.
    + by rewrite Hmap.
Qed.

(** No two rows of the cleaned relation agree on [person_id], [email] and
    [start_date], when no start date of the input is a bare number. *)
Lemma clean_data_NoDup (df : DataFrame) :
  all_rows no_number_date df ->
  NoDup (map dedup_key (body (clean_data df).1.1)).
Proof.
  intros HP. destruct (df_empty df) eqn:Hne.
  { unfold clean_data. rewrite Hne. constructor. }
  rewrite (clean_data_stages df Hne). cbn [fst].
  (* after the deduplication *)
  assert (Hd : NoDup (map dedup_key (body (deduplicated df)))).
  { unfold deduplicated, drop_duplicates. cbn [body].
    apply (dedup_first_NoDup ["person_id"; "email"; "start_date"] []). }
  assert (Hv : NoDup (map dedup_key (body (valid_emails df)))).
  { unfold valid_emails, filter_rows. cbn [body].
    eapply sublist_NoDup; [exact Hd|]. apply (fmap_sublist dedup_key), sublist_filter. }
  assert (HPv : all_rows no_number_date (valid_emails df)).
  { unfold valid_emails, deduplicated.
    apply all_rows_filter_rows, all_rows_drop_duplicates.
    unfold with_row_id. apply all_rows_set_col; [|done].
    intros r v Hr z. unfold no_number_date in Hr.
    rewrite cell_insert_ne by done. apply Hr. }
  (* through the date loop *)
  assert (Hdated : NoDup (map dedup_key (body (dated df).1))).
  { unfold dated, date_cols. cbn [foldl].
    apply coerce_date_col_NoDup; [by right; right; left|done|].
    apply coerce_date_col_NoDup; [by right; left|done|].
    apply coerce_date_col_NoDup; [by left|done|done]. }
  (* sorting permutes, the title steps do not touch the key *)
  assert (Hs : NoDup (map dedup_key (body (sorted df)))).
  { unfold sorted, sort_values. cbn [body].
    change (NoDup (dedup_key <$> stable_sort
      (fun ir jr : Z * Row => rows_leb ["person_id"; "start_date"] ir.2 jr.2)
      (body (dated df).1))).
    by rewrite stable_sort_perm. }
  assert (Htitle : "title" ∉ ["person_id"; "email"; "start_date"])
    by (by intros [?|[?|[?|?%elem_of_nil]%elem_of_cons]%elem_of_cons]%elem_of_cons).
  unfold fillna, titled, assign_col. cbn [body]. rewrite map_map.
  rewrite (map_ext _ dedup_key).
  - rewrite map_zip_with_l; [exact Hs| |].
    + unfold groupby_transform. by rewrite length_imap.
    + intros x y. by apply dedup_key_insert.
  - intros ir. destruct (isna (cell ir.2 "title")); [|reflexivity].
    by apply dedup_key_insert.
Qed.

(** X10.  Cleaning what the reader delivers: every employee frame returned by
    [ingest_data] is cleaned into a relation in which no two rows agree on
    [person_id], [email] and [start_date]. *)
Theorem ingested_rows_cleaned_without_duplicates (src : Sources) (wm : Z)
    (e p c : DataFrame) :
  ingest_data src wm = Some (e, p, c) ->
  NoDup (map dedup_key (body (clean_data e).1.1)).
Proof.
  intros (_ & _ & He & _)%ingest_data_Some. apply clean_data_NoDup.
  apply filter_after_Some in He as ->.
  intros ir [Hafter _]%elem_of_filter_rows z Hz.
  apply after_spec in Hafter as (t & Ht & _). congruence.
Qed.

Lemma ingested_rows_cleaned_without_duplicates_witness :
  NoDup (map dedup_key (body (clean_data new_in_2024).1.1)).
Proof.
  apply (ingested_rows_cleaned_without_duplicates sample_sources (date_ns 2024 1 1)
           new_in_2024 (mkFrame plan_header [(0, old_plan)])
           (mkFrame ["company_ein"; "service_date"; "amount"] [])).
  vm_compute. reflexivity.
Defined.

(** ** [enrich_data]: what each row receives *)

(** The cache is transparent: with a cache that holds answers of the source
    only, a lookup returns the answer of the source. *)
Lemma get_enrichment_data_result (api_mock_data : gmap string EnrichmentResult)
    (person_id : value) (st : ApiState) :
  cache_sound api_mock_data st ->
  (get_enrichment_data api_mock_data 3 person_id st).1
  = source_answer api_mock_data person_id.
Proof.
  intros Hs. unfold get_enrichment_data, source_answer.
  destruct (api_cache st !! person_id) as [cached|] eqn:Hc.
  - by rewrite (Hs _ _ Hc).
  - cbn [api_retry]. unfold api_attempt.
    by destruct (source_lookup api_mock_data person_id).
Qed.

Lemma apply_get_enrichment_data_results
    (api_mock_data : gmap string EnrichmentResult) (ids : list value)
    (st : ApiState) :
  cache_sound api_mock_data st ->
  (apply_get_enrichment_data api_mock_data ids st).1
  = map (source_answer api_mock_data) ids.
Proof.
  revert st. induction ids as [|person_id ids IH]; intros st Hs; simpl; [done|].
  pose proof (get_enrichment_data_result api_mock_data person_id st Hs) as H1.
  pose proof (cache_sound_step api_mock_data person_id st Hs) as H2.
  destruct (get_enrichment_data api_mock_data 3 person_id st) as [r st1].
  specialize (IH st1 H2).
  destruct (apply_get_enrichment_data api_mock_data ids st1) as [rs st2].
  simpl in *. by rewrite H1, IH.
Qed.

Lemma relabel_lookup (i : Z) (l : list Row) (k : nat) :
  relabel i l !! k = (fun r => (i + Z.of_nat k, r)) <$> l !! k.
Proof.
  revert i k. induction l as [|r l IH]; intros i [|k]; simpl; try done.
  - by rewrite Z.add_0_r.
  - rewrite IH. destruct (l !! k); simpl; [|done]. do 2 f_equal. lia.
Qed.

Lemma enrichment_row_cell (e : EnrichmentResult) :
  cell (enrichment_row e) "personal_email" = personal_email e
  /\ cell (enrichment_row e) "phone_number" = phone_number e
  /\ forall c, c ∉ ["personal_email"; "phone_number"] -> enrichment_row e !! c = None.
Proof.
  unfold enrichment_row. split; [apply cell_insert_eq|]. split.
  - rewrite cell_insert_ne by done. apply cell_insert_eq.
  - intros c Hc. rewrite !lookup_insert_ne, lookup_empty; [done|..];
      intros <-; apply Hc; [right; left|left].
Qed.

Lemma length_relabel (i : Z) (l : list Row) : length (relabel i l) = length l.
Proof. revert i. induction l as [|r l IH]; intros i; simpl; [done|]. by rewrite IH. Qed.

(** The frame built by [enrich_data], in closed form: its columns are the
    final columns that the input or the enrichment provides, and its row
    [k] is built from input row [k] alone. *)
Lemma enrich_data_body (src : Sources) (df : DataFrame) :
  df_empty df = false ->
  exists cols,
    (forall c, c ∈ cols <->
               c ∈ FINAL_COLUMNS /\ (c ∈ columns df \/ c ∈ written_by_enrichment))
    /\ columns (enrich_data src df).1 = cols
    /\ body (enrich_data src df).1 = imap (enriched_row src cols) (body df).
Proof.
  intros Hne. unfold enrich_data. rewrite Hne. cbn [fst].
  set (enriched_df := set_col "company_ein" _ df).
  unfold enrichment_requests.
  rewrite (apply_get_enrichment_data_results _ _ _ (cache_sound_init _)).
  set (ids := map (fun ir : Z * Row => cell ir.2 "person_id") (body enriched_df)).
  assert (Hbody : body enriched_df
                  = map (fun ir => (ir.1, <["company_ein" :=
                           get_ein (COMPANY_LOOKUP src) ir.2]> ir.2)) (body df))
    by done.
  assert (Hrows : body df <> []).
  { intros Hnil. by rewrite (df_empty_body _ Hnil) in Hne. }
  assert (Hjson : json_normalize (map (source_answer (API_MOCK src)) ids)
                  = mkFrame ["personal_email"; "phone_number"]
                      (relabel 0 (map enrichment_row
                                    (map (source_answer (API_MOCK src)) ids)))).
  { unfold ids. rewrite Hbody. destruct (body df); [done|reflexivity]. }
  rewrite Hjson.
  set (final_df := concat_columns (reset_index enriched_df) _).
  set (cols := filter (fun c => has_column c final_df) FINAL_COLUMNS).
  exists cols. split; [|split; [done|]].
  - intros c. unfold cols. rewrite list_elem_of_filter.
    unfold final_df, concat_columns, reset_index, enriched_df, set_col, has_column.
    unfold written_by_enrichment. cbn [columns].
    rewrite Is_true_true, bool_decide_eq_true.
    destruct (bool_decide_reflect ("company_ein" ∈ columns df)) as [Hin|Hnin];
      rewrite ?elem_of_app, !elem_of_cons, elem_of_nil; [|tauto].
    split; [tauto|]. intros [H3 [H1|[->|H2]]]; tauto.
  - unfold reindex_columns. cbn [body]. apply list_eq. intros k.
    rewrite list_lookup_fmap, list_lookup_imap.
    unfold final_df, concat_columns, reset_index.
    cbn [body]. rewrite lookup_zip_with, !relabel_lookup, !list_lookup_fmap.
    unfold ids. rewrite list_lookup_fmap, Hbody, list_lookup_fmap.
    destruct (body df !! k) as [ir|]; [|done].
    cbn. unfold enriched_row. rewrite cell_insert_ne by done. reflexivity.
Qed.

Lemma enriched_row_cells (src : Sources) (df : DataFrame) (cols : list string)
    (k : nat) (ir : Z * Row) :
  (forall c, c ∈ cols <->
             c ∈ FINAL_COLUMNS /\ (c ∈ columns df \/ c ∈ written_by_enrichment)) ->
  cell (enriched_row src cols k ir).2 "company_ein"
  = get_ein (COMPANY_LOOKUP src) ir.2
  /\ cell (enriched_row src cols k ir).2 "personal_email"
     = personal_email (source_answer (API_MOCK src) (cell ir.2 "person_id"))
  /\ cell (enriched_row src cols k ir).2 "phone_number"
     = phone_number (source_answer (API_MOCK src) (cell ir.2 "person_id"))
  /\ forall c, c ∈ FINAL_COLUMNS -> c ∈ columns df ->
                c ∉ written_by_enrichment ->
                cell (enriched_row src cols k ir).2 c = cell ir.2 c.
Proof.
  intros Hcols. unfold enriched_row. cbn [snd].
  set (r1 := <["company_ein" := get_ein (COMPANY_LOOKUP src) ir.2]> ir.2).
  set (e := source_answer (API_MOCK src) (cell ir.2 "person_id")).
  assert (Hcell : forall c, c ∈ cols ->
            cell (project_row cols (enrichment_row e ∪ r1)) c
            = cell (enrichment_row e ∪ r1) c).
  { intros c Hc. by rewrite cell_project_row, bool_decide_eq_true_2. }
  destruct (enrichment_row_cell e) as (Hpe & Hph & Hnone).
  assert (Hl : forall c v, cell (enrichment_row e) c = v ->
                 is_Some (enrichment_row e !! c) ->
                 cell (enrichment_row e ∪ r1) c = v).
  { intros c v Hv [x Hx]. unfold cell in *.
    rewrite (lookup_union_Some_l _ _ _ _ Hx). by rewrite Hx in Hv. }
  assert (Hr : forall c, c ∉ ["personal_email"; "phone_number"] ->
                 cell (enrichment_row e ∪ r1) c = cell r1 c).
  { intros c Hc. unfold cell. by rewrite lookup_union_r by by apply Hnone. }
  assert (Hfin : forall c, c ∈ written_by_enrichment -> c ∈ cols).
  { intros c Hc. apply Hcols. split; [|by right].
    unfold written_by_enrichment in Hc.
    repeat (apply elem_of_cons in Hc as [->|Hc];
            [apply (bool_decide_unpack _); vm_compute; exact I|]).
    by apply elem_of_nil in Hc. }
  repeat split.
  - rewrite Hcell, Hr.
    + apply cell_insert_eq.
    + by intros [?|[?|?%elem_of_nil]%elem_of_cons]%elem_of_cons.
    + apply Hfin. left.
  - rewrite Hcell; [apply Hl; [done|]|].
    + unfold enrichment_row. rewrite lookup_insert_eq. eauto.
    + apply Hfin. right; left.
  - rewrite Hcell; [apply Hl; [done|]|].
    + unfold enrichment_row. rewrite lookup_insert_ne, lookup_insert_eq by done.
      eauto.
    + apply Hfin. right; right; left.
  - intros c Hc Hdf Hw. rewrite Hcell, Hr.
    + unfold r1. apply cell_insert_ne. intros <-. apply Hw. left.
    + intros Hc'. apply Hw. by right.
    + apply Hcols. split; [done|by left].
Qed.

(** X16.  The frame returned by [enrich_data] has the rows of its argument, in
    order and labelled from 0.  Row [k] carries the company identifier
    computed by [get_ein] on input row [k], the two fields of the source's
    answer for that row's [person_id] (whatever the cache held), and the
    input row's cells on every other final column that the input has. *)
Theorem enrich_data_rows (src : Sources) (df : DataFrame) :
  df_empty df = false ->
  length (body (enrich_data src df).1) = length (body df)
  /\ forall (k : nat) (ir : Z * Row),
       body df !! k = Some ir ->
       exists r',
         body (enrich_data src df).1 !! k = Some (Z.of_nat k, r')
         /\ cell r' "company_ein" = get_ein (COMPANY_LOOKUP src) ir.2
         /\ cell r' "personal_email"
            = personal_email (source_answer (API_MOCK src) (cell ir.2 "person_id"))
         /\ cell r' "phone_number"
            = phone_number (source_answer (API_MOCK src) (cell ir.2 "person_id"))
         /\ forall c, c ∈ FINAL_COLUMNS -> c ∈ columns df ->
                      c ∉ written_by_enrichment ->
                      cell r' c = cell ir.2 c.
Proof.
  intros Hne. destruct (enrich_data_body src df Hne) as (cols & Hcols & _ & ->).
  split; [apply length_imap|].
  intros k ir Hk. exists (enriched_row src cols k ir).2. split.
  - by rewrite list_lookup_imap, Hk.
  - by apply enriched_row_cells.
Qed.

Lemma enrich_data_rows_witness :
  df_empty two_rows_unknown_person = false
  /\ length (body (enrich_data sample_sources two_rows_unknown_person).1)
     = length (body two_rows_unknown_person).
Proof.
  split; [reflexivity|].
  apply (enrich_data_rows sample_sources two_rows_unknown_person). reflexivity.
Defined.

(** [get_ein] leaves a present identifier alone. *)
Lemma get_ein_present (domain_to_ein : gmap string string) (row : Row) :
  notna (cell row "company_ein") = true ->
  get_ein domain_to_ein row = cell row "company_ein".
Proof. intros H. unfold get_ein. by rewrite H. Qed.

Lemma len_filter_cons {A : Type} (p : A -> bool) (x : A) (l : list A) :
  len (filter (fun y => p y) (x :: l))
  = (if p x then 1 else 0) + len (filter (fun y => p y) l).
Proof.
  rewrite filter_cons. destruct (p x); simpl; unfold len; simpl length; lia.
Qed.

Lemma len_filter_map {A B : Type} (p : B -> bool) (f : A -> B) (l : list A) :
  len (filter (fun y => p y) (map f l)) = len (filter (fun x => p (f x)) l).
Proof.
  induction l as [|x l IH]; [done|]. simpl map.
  rewrite (len_filter_cons p), (len_filter_cons (fun x => p (f x))). by rewrite IH.
Qed.

(** X17.  The metric [eins_inferred], computed as a difference of two null
    counts, is the number of rows whose missing identifier [get_ein] fills
    in: no present identifier is lost on the way. *)
Theorem enrich_data_eins_inferred (src : Sources) (df : DataFrame) :
  df_empty df = false ->
  (enrich_data src df).2
  = len (filter (fun ir => ein_inferred (COMPANY_LOOKUP src) ir) (body df)).
Proof.
  intros Hne. unfold enrich_data. rewrite Hne. cbn [snd].
  unfold count_nulls, set_col. cbn [body].
  rewrite (len_filter_map (fun ir : Z * Row => isna (cell ir.2 "company_ein"))).
  induction (body df) as [|x l IH]; [done|].
  rewrite (len_filter_cons (fun ir : Z * Row => isna (cell ir.2 "company_ein"))),
    (len_filter_cons (fun ir : Z * Row => isna (cell (ir.1, _).2 "company_ein"))),
    (len_filter_cons (ein_inferred (COMPANY_LOOKUP src))).
  cbn [snd] in *. rewrite cell_insert_eq. unfold ein_inferred at 1.
  destruct (isna (cell x.2 "company_ein")) eqn:Hx.
  - unfold notna. destruct (isna (get_ein (COMPANY_LOOKUP src) x.2)); simpl; lia.
  - rewrite get_ein_present by (unfold notna; by rewrite Hx).
    rewrite Hx. simpl. lia.
Qed.

Lemma enrich_data_eins_inferred_witness :
  df_empty two_rows_unknown_person = false
  /\ (enrich_data sample_sources two_rows_unknown_person).2 = 2.
Proof.
  split; [reflexivity|].
  rewrite (enrich_data_eins_inferred sample_sources two_rows_unknown_person eq_refl).
  vm_compute. reflexivity.
Defined.

(** ** [get_ein]: the identifier inferred from an address *)

Lemma contains_char_cons (sep a : ascii) (s : string) :
  contains_char sep (String a s) = false ->
  a <> sep /\ contains_char sep s = false.
Proof.
  unfold contains_char. cbn [list_ascii_of_string].
  rewrite !bool_decide_eq_false, not_elem_of_cons. intros [H1 H2]. split; congruence.
Qed.

Lemma split_on_no_sep (sep : ascii) (s : string) :
  contains_char sep s = false -> split_on sep s = [s].
Proof.
  induction s as [|a s IH]; [done|].
  intros [Ha Hs]%contains_char_cons. simpl.
  rewrite (proj2 (Ascii.eqb_neq a sep)) by done. by rewrite (IH Hs).
Qed.

Lemma split_on_first (sep : ascii) (s rest : string) :
  contains_char sep s = false ->
  split_on sep (s +:+ String sep rest) = s :: split_on sep rest.
Proof.
  induction s as [|a s IH]; intros Hs.
  - simpl. by rewrite Ascii.eqb_refl.
  - apply contains_char_cons in Hs as [Ha Hs]. simpl.
    rewrite (proj2 (Ascii.eqb_neq a sep)) by done. by rewrite (IH Hs).
Qed.

Lemma contains_char_app (sep : ascii) (s rest : string) :
  contains_char sep (s +:+ String sep rest) = true.
Proof.
  unfold contains_char. apply bool_decide_eq_true.
  induction s as [|a s IH]; simpl; [left|by right].
Qed.

(** X18.  A row without company identifier whose e-mail is [local@domain]
    receives the identifier that [company_lookup.json] lists for [domain],
    unless that identifier is empty; a domain the file does not list gives
    no identifier. *)
Theorem get_ein_infers (domain_to_ein : gmap string string) (row : Row)
    (local domain : string) :
  cell row "company_ein" = VNull ->
  cell row "email" = VStr (local +:+ String "@" domain) ->
  contains_char "@" local = false ->
  contains_char "@" domain = false ->
  get_ein domain_to_ein row
  = match domain_to_ein !! domain with
    | Some inferred => if bool_decide (inferred = "") then VNull else VStr inferred
    | None => VNull
    end.
Proof.
  intros Hein Hemail Hl Hd. unfold get_ein. rewrite Hein, Hemail. cbn [notna isna negb].
  rewrite contains_char_app. cbn [negb].
  rewrite (split_on_first _ _ _ Hl), (split_on_no_sep _ _ Hd). reflexivity.
Qed.

Lemma get_ein_infers_witness :
  get_ein (COMPANY_LOOKUP sample_sources)
    (employee "P404" "Dee Poe" (VStr "Nurse") (VStr "dee@hillwinds.com")
       VNull (VTs (date_ns 2024 2 1)) VNull)
  = VStr "11-1111111".
Proof.
  rewrite (get_ein_infers _ _ "dee" "hillwinds.com");
    [reflexivity|reflexivity|reflexivity|reflexivity|reflexivity].
Defined.

(** ** [save_outputs]: what a merge keeps *)

(** A merge invents no record: every merged row agrees with a row of the
    old store on the old columns, or with a row of the new relation on the
    new columns. *)
Lemma merge_store_origin (existing_df clean_df : DataFrame) (s : Row) :
  s ∈ map snd (body (merge_store existing_df clean_df)) ->
  (exists r, r ∈ map snd (body existing_df)
             /\ forall c, c ∈ columns existing_df -> cell s c = cell r c)
  \/ (exists r, r ∈ map snd (body clean_df)
                /\ forall c, c ∈ columns clean_df -> cell s c = cell r c).
Proof.
  destruct (merge_store_spec existing_df clean_df)
    as (hE & hC & fc & Hbody & _ & HcE & HcC & Hfc).
  rewrite Hbody. intros (ir & -> & Hir)%list_elem_of_fmap.
  apply dedup_last_subset in Hir.
  apply list_elem_of_fmap in Hir as (jr & -> & Hjr). cbn [snd].
  apply elem_of_relabel in Hjr.
  apply elem_of_app in Hjr as [Hjr|Hjr];
    apply list_elem_of_fmap in Hjr as (r & -> & Hr).
  - left. exists r. split; [done|]. intros c Hc.
    rewrite cell_project_row, bool_decide_eq_true_2; [by apply HcE|].
    apply Hfc. by left.
  - right. exists r. split; [done|]. intros c Hc.
    rewrite cell_project_row, bool_decide_eq_true_2; [by apply HcC|].
    apply Hfc. by right.
Qed.

(** X19.  A merge loses no old record and invents none.  When both relations
    carry the two key columns, an old row whose key is not repeated later in
    the store and does not come in with the new relation is still stored,
    with its cells on every column the old store had; and every stored row
    agrees with a row of the old store on the old columns, or with a row of
    the new relation on the new columns. *)
Theorem save_store_keeps_old_rows (existing_df clean_df : DataFrame) :
  df_empty clean_df = false ->
  "person_id" ∈ columns existing_df -> "start_date" ∈ columns existing_df ->
  "person_id" ∈ columns clean_df -> "start_date" ∈ columns clean_df ->
  exists store,
    (save_store clean_df (Some existing_df)).1 = Some store
    /\ (forall before r after,
          map snd (body existing_df) = before ++ r :: after ->
          store_key r ∉ map store_key after ->
          store_key r ∉ map store_key (map snd (body clean_df)) ->
          exists s, s ∈ map snd (body store)
                    /\ forall c, c ∈ columns existing_df -> cell s c = cell r c)
    /\ (forall s, s ∈ map snd (body store) ->
          (exists r, r ∈ map snd (body existing_df)
                     /\ forall c, c ∈ columns existing_df -> cell s c = cell r c)
          \/ (exists r, r ∈ map snd (body clean_df)
                        /\ forall c, c ∈ columns clean_df -> cell s c = cell r c)).
Proof.
  intros Hne HpE HsE HpC HsC. unfold save_store. rewrite Hne. cbn [negb fst].
  eexists. split; [reflexivity|].
  unfold to_parquet, reset_index. cbn [body]. rewrite map_snd_relabel.
  destruct (merge_store_spec existing_df clean_df)
    as (hE & hC & fc & Hbody & _ & HcE & HcC & Hfc).
  rewrite Hbody.
  assert (HcellE : forall r c, c ∈ columns existing_df ->
            cell (project_row fc (hE r)) c = cell r c).
  { intros r c Hc. rewrite cell_project_row, bool_decide_eq_true_2.
    - by apply HcE.
    - apply Hfc. by left. }
  assert (HcellC : forall r c, c ∈ columns clean_df ->
            cell (project_row fc (hC r)) c = cell r c).
  { intros r c Hc. rewrite cell_project_row, bool_decide_eq_true_2.
    - by apply HcC.
    - apply Hfc. by right. }
  assert (HkeyE : forall r, store_key (project_row fc (hE r)) = store_key r).
  { intros r. unfold store_key, subset_key. cbn [map]. by rewrite !HcellE. }
  assert (HkeyC : forall r, store_key (project_row fc (hC r)) = store_key r).
  { intros r. unfold store_key, subset_key. cbn [map]. by rewrite !HcellC. }
  split.
  - intros before r after Hsplit Hlater Hnew.
    exists (project_row fc (hE r)). split; [|by apply HcellE].
    rewrite Hsplit, map_app. cbn [map]. rewrite <- !app_assoc, relabel_app.
    cbn [relabel app]. rewrite map_app. cbn [map fst snd].
    apply list_elem_of_fmap.
    eexists (_, project_row fc (hE r)). split; [done|].
    apply dedup_last_keeps_last. cbn [snd].
    change (subset_key ["person_id"; "start_date"] (project_row fc (hE r)))
      with (store_key (project_row fc (hE r))).
    rewrite HkeyE. intros Hk.
    apply list_elem_of_fmap in Hk as (jr & Hjr & Hin).
    apply list_elem_of_fmap in Hin as (kr & -> & Hkr). cbn [snd] in Hjr.
    apply elem_of_relabel in Hkr.
    apply elem_of_app in Hkr as [Hkr|Hkr];
      apply list_elem_of_fmap in Hkr as (r' & Hr' & Hin').
    + apply Hlater. apply list_elem_of_fmap. exists r'. split; [|done].
      rewrite Hjr, Hr'. apply HkeyE.
    + apply Hnew. apply list_elem_of_fmap. exists r'. split; [|done].
      rewrite Hjr, Hr'. apply HkeyC.
  - rewrite <- Hbody. apply merge_store_origin.
Qed.

Lemma save_store_keeps_old_rows_witness :
  exists store,
    (save_store ann_promoted_enriched (Some store_with_ann)).1 = Some store
    /\ exists s, s ∈ map snd (body store)
                 /\ forall c, c ∈ columns store_with_ann ->
                              cell s c = cell ann_stored c.
Proof.
  assert (He : df_empty ann_promoted_enriched = false) by reflexivity.
  assert (H1 : "person_id" ∈ FINAL_COLUMNS)
    by (apply (bool_decide_unpack _); vm_compute; exact I).
  assert (H2 : "start_date" ∈ FINAL_COLUMNS)
    by (apply (bool_decide_unpack _); vm_compute; exact I).
  destruct (save_store_keeps_old_rows store_with_ann ann_promoted_enriched
              He H1 H2 H1 H2) as (store & Hs & Hold & _).
  exists store. split; [exact Hs|].
  apply (Hold [] ann_stored []); [reflexivity|apply not_elem_of_nil|].
  apply (bool_decide_unpack _). vm_compute. exact I.
Defined.

Lemma filter_all {A : Type} (P : A -> Prop) `{forall x, Decision (P x)}
    (l : list A) :
  (forall x, x ∈ l -> P x) -> filter P l = l.
Proof.
  induction l as [|x l IH]; intros Hl; [done|].
  rewrite filter_cons, decide_True by (apply Hl; left).
  f_equal. apply IH. intros y Hy. apply Hl. by right.
Qed.

(** X20.  The columns of a merged store: the canonical columns that one of the
    two relations has, in canonical order, followed by the columns of the
    two relations that are not canonical (in the order Python's set
    happens to give). *)
Theorem merge_store_columns (existing_df clean_df : DataFrame) :
  exists extra,
    columns (merge_store existing_df clean_df)
    = filter (fun c => c ∈ columns existing_df \/ c ∈ columns clean_df)
        CANONICAL_COLUMNS
      ++ extra
    /\ forall c, c ∈ extra <->
                 (c ∉ CANONICAL_COLUMNS)
                 /\ (c ∈ columns existing_df \/ c ∈ columns clean_df).
Proof.
  unfold merge_store.
  set (all_columns := union_columns (columns existing_df) (columns clean_df)).
  destruct (add_missing_columns_spec all_columns existing_df)
    as (hE & _ & _ & HcolE).
  destruct (add_missing_columns_spec all_columns clean_df)
    as (hC & _ & _ & HcolC).
  set (E' := add_missing_columns all_columns existing_df) in *.
  set (C' := add_missing_columns all_columns clean_df) in *.
  unfold drop_duplicates, reindex_columns. cbn [columns].
  assert (Hhas : forall c, has_column c (concat_rows E' C') = true
                           <-> c ∈ all_columns).
  { intros c. unfold has_column, concat_rows. cbn [columns].
    rewrite bool_decide_eq_true, elem_of_union_columns, HcolE, HcolC.
    unfold all_columns. rewrite elem_of_union_columns. tauto. }
  exists (filter (fun c => c ∉ CANONICAL_COLUMNS) all_columns). split.
  - rewrite filter_app. f_equal.
    + apply list_filter_iff. intros c.
      rewrite Is_true_true, Hhas. unfold all_columns.
      by rewrite elem_of_union_columns.
    + apply filter_all. intros c [_ Hc]%list_elem_of_filter.
      by apply Is_true_true, Hhas.
  - intros c. rewrite list_elem_of_filter. unfold all_columns.
    by rewrite elem_of_union_columns.
Qed.

(** * The SQL analyses: properties of the three queries *)

(** ** The [ORDER BY] clauses *)

Lemma StronglySorted_impl {A : Type} (R R' : A -> A -> Prop) (l : list A) :
  (forall x y, R x y -> R' x y) -> StronglySorted R l -> StronglySorted R' l.
Proof.
  intros HR. induction 1 as [|x l Hs IH Hx]; constructor; [done|].
  eapply Forall_impl; [exact Hx|]. intros y. apply HR.
Qed.

Lemma Qle_bool_total (x y : Q) : Qle_bool x y = false -> Qle_bool y x = true.
Proof.
  intros H. apply Qle_bool_iff. apply Qlt_le_weak, Qnot_le_lt.
  intros Hle. apply Qle_bool_iff in Hle. congruence.
Qed.

Lemma Qle_bool_trans (x y z : Q) :
  Qle_bool x y = true -> Qle_bool y z = true -> Qle_bool x z = true.
Proof. rewrite !Qle_bool_iff. apply Qle_trans. Qed.

(** X21.  Each query returns its rows in the order its [ORDER BY] clause asks
    for: the gaps by company name, then by first uncovered day; the spikes
    by company name, then by the end of the window (a missing date last);
    the roster comparison by decreasing percentage. *)
Theorem query_results_ordered :
  (forall plans_raw,
     StronglySorted
       (fun a b => String.compare (g_company_name a) (g_company_name b) = Lt
                   \/ (g_company_name a = g_company_name b
                       /\ gap_start a <= gap_start b))
       (plan_gaps_query plans_raw))
  /\ (forall claims_raw,
        StronglySorted
          (fun a b => String.compare (sp_company_name a) (sp_company_name b) = Lt
                      \/ (sp_company_name a = sp_company_name b
                          /\ date_leb (sp_window_end a) (sp_window_end b) = true))
          (claims_spike_query claims_raw))
  /\ (forall employees_raw,
        StronglySorted
          (fun a b => (pct_diff (ro_comparison b) <= pct_diff (ro_comparison a))%Q)
          (roster_mismatch_query employees_raw)).
Proof.
  split; [|split].
  - intros plans_raw. unfold plan_gaps_query.
    eapply StronglySorted_impl; [|apply stable_sort_sorted].
    + intros a b [H|[H1 H2]]%text_then_date_leb_spec; [by left|right].
      split; [done|]. by apply Z.leb_le.
    + intros a b. apply text_then_date_leb_total.
    + intros a b c. apply text_then_date_leb_trans.
  - intros claims_raw. unfold claims_spike_query.
    eapply StronglySorted_impl; [|apply stable_sort_sorted].
    + intros a b H%text_then_date_leb_spec. exact H.
    + intros a b. apply text_then_date_leb_total.
    + intros a b c. apply text_then_date_leb_trans.
  - intros employees_raw. unfold roster_mismatch_query.
    eapply StronglySorted_impl; [|apply stable_sort_sorted].
    + intros a b H. by apply Qle_bool_iff.
    + intros a b. apply Qle_bool_total.
    + intros a b c H1 H2. by apply (Qle_bool_trans _ _ _ H2 H1).
Qed.

(** ** Rows outside the company mapping *)

Lemma bind_filter {A B : Type} (keep : A -> bool) (f : A -> list B) (l : list A) :
  (forall x, keep x = false -> f x = []) ->
  filter (fun x => keep x) l ≫= f = l ≫= f.
Proof.
  intros Hf. induction l as [|x l IH]; [done|].
  rewrite filter_cons. destruct (decide (keep x)) as [Hx|Hx].
  - by rewrite !bind_cons, IH.
  - rewrite bind_cons, IH, Hf; [done|]. by destruct (keep x); [destruct Hx|].
Qed.

(** X22.  The three queries read their table through an inner join with
    [company_name_mapping]: rows whose [company_ein] is NULL or not one of
    the three mapped identifiers change no result.  Removing any such rows
    from a table gives the same answer; so does removing plans without
    start date. *)
Theorem unmapped_rows_are_ignored :
  (forall (keep : PlanRaw -> bool) plans_raw,
     (forall p, keep p = false ->
                company_names (pr_company_ein p) = [] \/ pr_start_date p = None) ->
     plan_gaps_query (filter (fun p => keep p) plans_raw)
     = plan_gaps_query plans_raw)
  /\ (forall (keep : ClaimRaw -> bool) claims_raw,
        (forall c, keep c = false -> company_names (cr_company_ein c) = []) ->
        claims_spike_query (filter (fun c => keep c) claims_raw)
        = claims_spike_query claims_raw)
  /\ (forall (keep : EmployeeRaw -> bool) employees_raw,
        (forall e, keep e = false -> company_names (er_company_ein e) = []) ->
        roster_mismatch_query (filter (fun e => keep e) employees_raw)
        = roster_mismatch_query employees_raw).
Proof.
  split; [|split].
  - intros keep plans_raw Hkeep. unfold plan_gaps_query, plans_clean.
    rewrite bind_filter; [done|].
    intros p [Hp|Hp]%Hkeep; [by rewrite Hp|].
    rewrite Hp. by induction (company_names (pr_company_ein p)).
  - intros keep claims_raw Hkeep. unfold claims_spike_query, claims_with_company.
    rewrite bind_filter; [done|]. intros c Hc%Hkeep. by rewrite Hc.
  - intros keep employees_raw Hkeep.
    unfold roster_mismatch_query, comparison, observed_employee_counts.
    rewrite bind_filter; [done|]. intros e He%Hkeep. by rewrite He.
Qed.

Lemma unmapped_rows_are_ignored_witness :
  claims_spike_query
    (filter (fun c => in_mapping (cr_company_ein c))
       (mkClaimRaw (Some "99-9999999") (Some 0) (Some 5%float) :: claims_jump_250))
  = claims_spike_query
      (mkClaimRaw (Some "99-9999999") (Some 0) (Some 5%float) :: claims_jump_250).
Proof.
  apply (proj1 (proj2 unmapped_rows_are_ignored)
           (fun c => in_mapping (cr_company_ein c))).
  intros c. unfold in_mapping. by destruct (company_names (cr_company_ein c)).
Defined.

(** ** Grouping *)

Lemma distinct_spec {K : Type} `{EqDecision K} (seen l : list K) :
  NoDup (distinct seen l)
  /\ forall k, k ∈ distinct seen l <-> k ∈ l /\ k ∉ seen.
Proof.
  revert seen. induction l as [|a l IH]; intros seen; simpl.
  - split; [constructor|]. intros k. rewrite elem_of_nil. tauto.
  - destruct (bool_decide_reflect (a ∈ seen)) as [Ha|Ha].
    + destruct (IH seen) as [Hnd Hin]. split; [done|].
      intros k. rewrite Hin, elem_of_cons. split; [tauto|].
      intros [[->|Hk] Hs]; tauto.
    + destruct (IH (a :: seen)) as [Hnd Hin]. split.
      * constructor; [|done]. rewrite Hin, elem_of_cons. tauto.
      * intros k. rewrite !elem_of_cons, Hin, not_elem_of_cons. split.
        -- intros [->|(Hk & Hne & Hs)]; tauto.
        -- intros [[->|Hk] Hs]; [tauto|].
           destruct (decide (k = a)); tauto.
Qed.

(** The groups of [GROUP BY key] / [PARTITION BY key]: one group for each
    key of the relation, in order of first appearance; the group of [k] is
    not empty and holds the rows with key [k], in their order. *)
Lemma partitions_spec {A K : Type} `{EqDecision K} (key : A -> K) (l : list A) :
  Forall2 (fun k g => g = filter (fun x => key x = k) l
                      /\ exists x rest, g = x :: rest /\ key x = k)
          (distinct [] (map key l)) (partitions key l).
Proof.
  unfold partitions. apply Forall2_fmap_r, Forall_Forall2_diag, Forall_forall.
  intros k Hk. split; [done|].
  apply (proj2 (distinct_spec [] (map key l))) in Hk as [Hk _].
  apply list_elem_of_fmap in Hk as (x & -> & Hx).
  assert (Hin : x ∈ filter (fun y => key y = key x) l)
    by (by apply list_elem_of_filter).
  destruct (filter (fun y => key y = key x) l) as [|y rest] eqn:Hf.
  - by apply elem_of_nil in Hin.
  - exists y, rest. split; [done|].
    assert (Hy : y ∈ filter (fun y => key y = key x) l)
      by (rewrite Hf; left).
    by apply list_elem_of_filter in Hy as [Hy _].
Qed.

Lemma elem_of_partitions {A K : Type} `{EqDecision K} (key : A -> K)
    (l g : list A) :
  g ∈ partitions key l ->
  exists x rest, g = x :: rest /\ g = filter (fun y => key y = key x) l /\ x ∈ l.
Proof.
  intros Hg. pose proof (partitions_spec key l) as HF.
  apply list_elem_of_lookup in Hg as [i Hi].
  destruct (Forall2_lookup_r _ _ _ _ _ HF Hi) as (k & _ & Hfil & x & rest & Hx & Hk).
  exists x, rest. split; [done|]. split; [by rewrite Hk|].
  assert (Hin : x ∈ g) by (rewrite Hx; left).
  rewrite Hfil in Hin. by apply list_elem_of_filter in Hin as [_ Hin].
Qed.

(** The rows of a grouped relation, each computed from its group by [row],
    bear pairwise different keys when [row] keeps the key of the group's
    first row. *)
Lemma grouped_keys {A B K : Type} `{EqDecision K} (key : A -> K)
    (row : list A -> B) (key' : B -> K) (l : list A) :
  (forall x rest, key' (row (x :: rest)) = key x) ->
  map key' (map row (partitions key l)) = distinct [] (map key l).
Proof.
  intros Hrow. pose proof (partitions_spec key l) as HF.
  induction HF as [|k g ks gs [_ (x & rest & -> & Hk)] _ IH]; [done|].
  simpl. by rewrite Hrow, Hk, IH.
Qed.

(** ** Task 2: one row per company and day *)

(** X24.  [daily_costs] holds exactly one row for each pair of company and
    service date that occurs among the claims (the NULL date forming a
    group of its own), and the row's cost is the sum over the claims of that
    company on that date. *)
Theorem daily_costs_groups (claims : list ClaimCost) :
  NoDup (map daily_key (daily_costs claims))
  /\ forall d, d ∈ daily_costs claims <->
       (exists c, c ∈ claims /\ claim_key c = daily_key d)
       /\ total_daily_cost d
          = sql_sum (map claim_cost
                       (filter (fun c => claim_key c = daily_key d) claims)).
Proof.
  unfold daily_costs.
  set (row := fun g : list ClaimCost => match g with
                | [] => mkDailyCost "" None None
                | c :: _ => mkDailyCost (cc_company_name c) (cc_service_date c)
                              (sql_sum (map claim_cost g))
                end).
  change (partitions _ claims) with (partitions claim_key claims).
  split.
  - rewrite (grouped_keys claim_key row daily_key) by done.
    apply distinct_spec.
  - intros d. rewrite list_elem_of_fmap. split.
    + intros (g & -> & (x & rest & Hg & Hfil & Hx)%elem_of_partitions).
      rewrite Hg. cbn [row]. unfold daily_key.
      cbn [dc_company_name dc_service_date total_daily_cost].
      split; [by exists x|]. rewrite <- Hg. rewrite Hfil at 1. reflexivity.
    + intros [(c & Hc & Hk) Ht].
      exists (filter (fun c' => claim_key c' = claim_key c) claims). split.
      * assert (Hin : c ∈ filter (fun c' => claim_key c' = claim_key c) claims)
          by (by apply list_elem_of_filter).
        rewrite Hk in *.
        destruct (filter (fun c' => claim_key c' = daily_key d) claims)
          as [|y rest] eqn:Hf; [by apply elem_of_nil in Hin|].
        assert (Hy : y ∈ filter (fun c' => claim_key c' = daily_key d) claims)
          by (rewrite Hf; left).
        apply list_elem_of_filter in Hy as [Hy _].
        cbn [row]. destruct d as [n s t]. unfold claim_key, daily_key in Hy.
        cbn in *. injection Hy as -> ->. by rewrite Ht.
      * unfold partitions. apply list_elem_of_fmap. exists (claim_key c).
        split; [done|]. apply distinct_spec. split; [|apply not_elem_of_nil].
        apply list_elem_of_fmap. by exists c.
Qed.

(** ** Task 3: one row per company *)

Lemma observed_names_NoDup (employees_raw : list EmployeeRaw) :
  NoDup (map fst (observed_employee_counts employees_raw)).
Proof.
  unfold observed_employee_counts.
  rewrite (grouped_keys fst _ fst) by done. apply distinct_spec.
Qed.

Lemma join_one_name (n : string) (e : Z) (obs : list (string * Z)) :
  NoDup (map fst obs) ->
  map co_company_name
    (obs ≫= fun oec => if bool_decide (n = oec.1)
                       then [mkComparison n e oec.2 (pct_diff_of e oec.2)]
                       else [])
    `sublist_of` [n]
  /\ (n ∉ map fst obs ->
      obs ≫= (fun oec => if bool_decide (n = oec.1)
                         then [mkComparison n e oec.2 (pct_diff_of e oec.2)]
                         else []) = []).
Proof.
  induction obs as [|o obs IH]; intros Hnd.
  - split; [apply sublist_nil_l|done].
  - apply NoDup_cons in Hnd as [Ho Hnd]. destruct (IH Hnd) as [IH1 IH2].
    rewrite bind_cons. destruct (bool_decide_reflect (n = o.1)) as [->|Hne].
    + split.
      * rewrite IH2 by done. simpl. done.
      * intros Hn. exfalso. apply Hn. left.
    + split; [done|]. intros Hn. apply IH2. intros Hin. apply Hn. by right.
Qed.

(** X27.  The roster comparison holds at most one row for each company, hence at
    most three rows. *)
Theorem roster_one_row_per_company (employees_raw : list EmployeeRaw) :
  NoDup (map (fun r => co_company_name (ro_comparison r))
           (roster_mismatch_query employees_raw))
  /\ (length (roster_mismatch_query employees_raw) <= 3)%nat.
Proof.
  assert (Hsub : map co_company_name (comparison employees_raw)
                 `sublist_of` map fst company_expected_counts).
  { unfold comparison, company_expected_counts.
    rewrite !bind_cons. simpl ([] ≫= _). rewrite app_nil_r, !map_app.
    cbn [fst snd map].
    pose proof (observed_names_NoDup employees_raw) as Hnd.
    change ["Hillwinds Health"; "Summit Solutions"; "Peak Performers"]
      with (["Hillwinds Health"] ++ ["Summit Solutions"] ++ ["Peak Performers"]).
    repeat apply sublist_app; by apply join_one_name. }
  assert (Hperm : map (fun r => co_company_name (ro_comparison r))
                    (roster_mismatch_query employees_raw)
                  ≡ₚ map co_company_name (comparison employees_raw)).
  { unfold roster_mismatch_query.
    change (map ?f ?l) with (f <$> l) at 1. rewrite stable_sort_perm.
    change (?f <$> ?l) with (map f l). by rewrite map_map. }
  split.
  - rewrite Hperm. eapply sublist_NoDup; [|exact Hsub].
    apply (bool_decide_unpack _). vm_compute. exact I.
  - apply Permutation_length in Hperm. rewrite !length_map in Hperm.
    apply sublist_length in Hsub. rewrite !length_map in Hsub.
    rewrite Hperm. exact Hsub.
Qed.

(** ** Task 2: the rolling window counts rows *)

(** The rolling sum at position [i], with [before] the costs already
    passed. *)
Lemma rolling_sums_lookup (before : list (option float)) (l : list DailyCost)
    (i : nat) (r : Rolling) :
  rolling_sums before l !! i = Some r ->
  exists d, l !! i = Some d
    /\ ro_service_date r = dc_service_date d
    /\ rolling_90d_cost r
       = sql_sum (reverse (take 90 (reverse (take (S i) (map total_daily_cost l))
                                    ++ before))).
Proof.
  revert before i. induction l as [|d l IH]; intros before i Hr; [done|].
  destruct i as [|i]; simpl in Hr.
  - injection Hr as <-. exists d. by repeat split.
  - destruct (IH _ _ Hr) as (d' & Hd' & Hdate & Hsum).
    exists d'. repeat split; try done. rewrite Hsum.
    cbn [map]. rewrite (firstn_cons (S i)), reverse_cons, <- app_assoc.
    reflexivity.
Qed.

(** X25.  [ROWS BETWEEN 89 PRECEDING AND CURRENT ROW] takes rows, not days: along
    a company's dates in order, the rolling sum of the row at position [i]
    adds the daily costs of that row and of the (at most) 89 rows before
    it, from the oldest of them to the row itself, however far apart their
    dates are. *)
Theorem rolling_window_counts_rows (l : list DailyCost) (i : nat) (r : Rolling) :
  rolling_sums [] l !! i = Some r ->
  exists d, l !! i = Some d
    /\ ro_service_date r = dc_service_date d
    /\ rolling_90d_cost r
       = sql_sum (reverse
                    (take 90 (reverse (take (S i) (map total_daily_cost l))))).
Proof.
  intros Hr. destruct (rolling_sums_lookup [] l i r Hr) as (d & Hd & Hdate & Hsum).
  exists d. repeat split; try done. by rewrite app_nil_r in Hsum.
Qed.

Lemma rolling_window_counts_rows_witness :
  exists d,
    [mkDailyCost "Hillwinds Health" (Some 0) (Some 1000%float);
     mkDailyCost "Hillwinds Health" (Some 400) (Some 3500%float)] !! 1%nat = Some d
    /\ Some 400 = dc_service_date d
    /\ Some 4500%float = sql_sum [Some 1000%float; Some 3500%float].
Proof.
  apply (rolling_window_counts_rows
           [mkDailyCost "Hillwinds Health" (Some 0) (Some 1000%float);
            mkDailyCost "Hillwinds Health" (Some 400) (Some 3500%float)] 1
           (mkRolling "Hillwinds Health" (Some 400) (Some 4500%float))).
  reflexivity.
Defined.

(** Two claims 400 days apart are summed in one window and reported as a
    spike of 350 per cent, in a window said to start 89 days before the
    second claim. *)
Lemma spike_across_400_days :
  claims_spike_query claims_400_days_apart
  = [mkSpikeRow "Hillwinds Health"
       (Some (days_from_civil 2023 1 1 + 400 - 89))
       (Some (days_from_civil 2023 1 1 + 400))
       (Some 1000%float) (Some 4500%float) (Some 350%float)].
Proof. vm_compute. reflexivity. Qed.

(** ** Task 2: sums and rounding of DOUBLE values *)

(** [SUM] adds in row order: three claims of 0.1, 0.2 and 0.3 on one day
    give the daily cost [(0.1 + 0.2) + 0.3], which is not the DOUBLE
    nearest to 0.6. *)
Lemma daily_sum_in_row_order :
  map total_daily_cost (daily_costs (claims_with_company claims_one_day))
  = [Some (one_tenth + two_tenths + 3 / 10)%float]
  /\ ((one_tenth + two_tenths + 3 / 10 =? 6 / 10)%float = false)
  /\ ((6 / 10 <? one_tenth + two_tenths + 3 / 10)%float = true).
Proof. repeat split; vm_compute; reflexivity. Qed.

(** Rolling sums 0.1 and then [0.1 + 0.2], which is above 0.3: the
    increase [(cur - prev) / prev] is above 2 and the row is reported, with
    [pct_change] 200. *)
Lemma spike_at_three_tenths :
  claims_spike_query claims_tenths
  = [mkSpikeRow "Hillwinds Health"
       (Some (days_from_civil 2023 1 2 - 89)) (Some (days_from_civil 2023 1 2))
       (Some one_tenth) (Some (one_tenth + two_tenths)%float) (Some 200%float)]
  /\ ((3 / 10 <? one_tenth + two_tenths)%float = true).
Proof. split; vm_compute; reflexivity. Qed.

(** [ROUND(x, 2)] of a DOUBLE: the hundredth nearest to [x * 100], ties
    away from zero, and [x] itself when that overflows. *)
Lemma double_round2_examples :
  double_round2 250 = 250%float
  /\ double_round2 (20005 / 100) = (20005 / 100)%float
  /\ double_round2 (200025 / 1000) = (20003 / 100)%float
  /\ double_round2 ((60005 - 20000) / 20000 * 100) = (20002 / 100)%float
  /\ double_round2 (1 / 8) = (13 / 100)%float
  /\ double_round2 (- (1 / 8)) = (- (13 / 100))%float
  /\ double_round2 (1 / 3) = (33 / 100)%float
  /\ double_round2 infinity = infinity
  /\ double_round2 (Z.ldexp 1 1020) = Z.ldexp 1 1020.
Proof. repeat split; vm_compute; reflexivity. Qed.

(** ** Task 1: where a reported gap comes from *)

Lemma elem_of_plans_clean (plans_raw : list PlanRaw) (pc : PlanClean) :
  pc ∈ plans_clean plans_raw ->
  exists p, p ∈ plans_raw
    /\ pc_company_name pc ∈ company_names (pr_company_ein p)
    /\ pr_plan_type p = pc_plan_type pc
    /\ pr_start_date p = Some (pc_start_date pc)
    /\ pr_end_date p = pc_end_date pc.
Proof.
  unfold plans_clean. intros (p & Hpc & Hp)%list_elem_of_bind.
  apply list_elem_of_bind in Hpc as (name & Hpc & Hname).
  destruct (pr_start_date p) as [s|] eqn:Hs; [|by apply elem_of_nil in Hpc].
  apply list_elem_of_singleton in Hpc as ->. exists p. by repeat split.
Qed.

Lemma map_fst_new_groups (prev : option Z) (l : list PlanClean) :
  map fst (new_groups prev l) = l.
Proof.
  revert prev. induction l as [|p l IH]; intros prev; simpl; [done|].
  by rewrite IH.
Qed.

Lemma elem_of_deduped (plans : list PlanClean) (x : PlanClean * Z) :
  x ∈ deduped plans -> x.1 ∈ plans.
Proof.
  unfold deduped. intros (part & Hx & Hpart)%list_elem_of_bind.
  apply list_elem_of_fmap in Hx as (y & -> & Hy). cbn [fst].
  assert (Hin : y.1 ∈ map fst
            (new_groups None
               (stable_sort (fun p q => pc_start_date p <=? pc_start_date q) part)))
    by (apply list_elem_of_fmap; by exists y).
  rewrite map_fst_new_groups, elem_of_stable_sort in Hin.
  apply elem_of_partitions in Hpart as (z & rest & _ & Hfil & _).
  rewrite Hfil in Hin. by apply list_elem_of_filter in Hin as [_ Hin].
Qed.

Lemma max_date_elem (l : list (option Z)) (e : Z) :
  foldr max_date None l = Some e -> Some e ∈ l.
Proof.
  revert e. induction l as [|a l IH]; intros e; [done|]. simpl.
  destruct a as [x|]; simpl.
  - destruct (foldr max_date None l) as [y|]; simpl; intros [= <-].
    + destruct (Z.max_spec x y) as [[_ ->]|[_ ->]]; [right; by apply IH|left].
    + left.
  - intros H. right. by apply IH.
Qed.

Lemma min_date_elem (l : list (option Z)) (s : Z) :
  foldr min_date None l = Some s -> Some s ∈ l.
Proof.
  revert s. induction l as [|a l IH]; intros s; [done|]. simpl.
  destruct a as [x|]; simpl.
  - destruct (foldr min_date None l) as [y|]; simpl; intros [= <-].
    + destruct (Z.min_spec x y) as [[_ ->]|[_ ->]]; [left|right; by apply IH].
    + left.
  - intros H. right. by apply IH.
Qed.

(** The bounds of an island are dates of plans of its group. *)
Lemma elem_of_islands (rows : list (PlanClean * Z)) (i : Island) :
  i ∈ islands rows ->
  (forall e, island_end i = Some e ->
     exists y, y ∈ rows
       /\ pc_company_name y.1 = is_company_name i
       /\ pc_plan_type y.1 = is_plan_type i
       /\ pc_end_date y.1 = Some e)
  /\ (forall s, island_start i = Some s ->
        exists y, y ∈ rows
          /\ pc_company_name y.1 = is_company_name i
          /\ pc_plan_type y.1 = is_plan_type i
          /\ pc_start_date y.1 = s).
Proof.
  unfold islands. intros (g & -> & Hg)%list_elem_of_fmap.
  apply elem_of_partitions in Hg as (x & rest & Hg & Hfil & Hx).
  assert (Hmem : forall y, y ∈ g ->
            y ∈ rows /\ pc_company_name y.1 = pc_company_name x.1
            /\ pc_plan_type y.1 = pc_plan_type x.1).
  { intros y Hy. rewrite Hfil in Hy.
    apply list_elem_of_filter in Hy as [Hk Hy]. unfold plan_group in Hk.
    injection Hk as H1 H2 _. by repeat split. }
  rewrite Hg. cbn [is_company_name is_plan_type island_end island_start].
  rewrite <- Hg. split.
  - intros e (y & Hy & Hin)%max_date_elem%list_elem_of_fmap.
    destruct (Hmem y Hin) as (H1 & H2 & H3). exists y. by repeat split.
  - intros s (y & Hy & Hin)%min_date_elem%list_elem_of_fmap.
    destruct (Hmem y Hin) as (H1 & H2 & H3). exists y.
    repeat split; try done. congruence.
Qed.

Lemma elem_of_leads (l : list Island) (w : WithNext) :
  w ∈ leads l ->
  wn_island w ∈ l
  /\ forall n, wn_next_start w = Some n -> exists j, j ∈ l /\ island_start j = Some n.
Proof.
  induction l as [|i l IH]; [by intros ?%elem_of_nil|].
  simpl. intros [->|Hw]%elem_of_cons.
  - split; [left|]. cbn [wn_next_start]. intros n Hn.
    destruct l as [|j l]; [done|]. exists j. split; [right; left|done].
  - destruct (IH Hw) as [H1 H2]. split; [by right|].
    intros n (j & Hj & Hs)%H2. exists j. split; [by right|done].
Qed.

Lemma elem_of_with_next (isl : list Island) (w : WithNext) :
  w ∈ with_next isl ->
  wn_island w ∈ isl
  /\ forall n, wn_next_start w = Some n ->
       exists j, j ∈ isl
         /\ is_company_name j = is_company_name (wn_island w)
         /\ is_plan_type j = is_plan_type (wn_island w)
         /\ island_start j = Some n.
Proof.
  unfold with_next. intros (part & Hw & Hpart)%list_elem_of_bind.
  apply elem_of_leads in Hw as [Hi Hnext].
  apply elem_of_partitions in Hpart as (x & rest & _ & Hfil & _).
  assert (Hmem : forall j, j ∈ stable_sort
                   (fun i j => date_leb (island_start i) (island_start j)) part ->
            j ∈ isl /\ is_company_name j = is_company_name x
            /\ is_plan_type j = is_plan_type x).
  { intros j Hj. rewrite elem_of_stable_sort, Hfil in Hj.
    apply list_elem_of_filter in Hj as [Hk Hj]. injection Hk as H1 H2.
    by repeat split. }
  destruct (Hmem _ Hi) as (Hin & Hn1 & Ht1). split; [done|].
  intros n (j & Hj & Hs)%Hnext. destruct (Hmem _ Hj) as (Hjn & Hn2 & Ht2).
  exists j. repeat split; try done; congruence.
Qed.

(** X23.  Every reported gap is delimited by two plans of the table, of one
    mapped company and one plan type: it starts the day after the first
    ends and ends the day before the second starts, and it spans at least
    seven days.  (Nothing more: the days in between may be covered by a
    third plan of that company and type, as the example after the proof
    shows.) *)
Theorem plan_gaps_delimited (plans_raw : list PlanRaw) (g : GapRow) :
  g ∈ plan_gaps_query plans_raw ->
  exists p q,
    p ∈ plans_raw /\ q ∈ plans_raw
    /\ g_company_name g ∈ company_names (pr_company_ein p)
    /\ g_company_name g ∈ company_names (pr_company_ein q)
    /\ pr_plan_type p = pr_plan_type q
    /\ pr_end_date p = Some (gap_start g - 1)
    /\ pr_start_date q = Some (gap_end g + 1)
    /\ gap_start g + 6 <= gap_end g.
Proof.
  unfold plan_gaps_query. rewrite elem_of_stable_sort, list_elem_of_omap.
  intros (w & Hw & Hg). unfold gap_row in Hg.
  destruct (is_reported_gap w) eqn:Hrep; [|done].
  apply is_reported_gap_spec in Hrep as (e & n & He & Hn & Hlt).
  rewrite Hn, He in Hg. simpl in Hg. injection Hg as <-.
  cbn [g_company_name gap_start gap_end].
  apply elem_of_with_next in Hw as [Hi Hnext].
  destruct (Hnext n Hn) as (j & Hj & Hjn & Hjt & Hjs).
  apply elem_of_islands in Hi as [Hend _].
  apply elem_of_islands in Hj as [_ Hstart].
  destruct (Hend e He) as (y & Hy & Hyn & Hyt & Hye).
  destruct (Hstart n Hjs) as (z & Hz & Hzn & Hzt & Hzs).
  apply elem_of_deduped, elem_of_plans_clean in Hy
    as (p & Hp & Hpn & Hpt & Hps & Hpe).
  apply elem_of_deduped, elem_of_plans_clean in Hz
    as (q & Hq & Hqn & Hqt & Hqs & Hqe).
  exists p, q. repeat split; try done.
  - by rewrite <- Hyn.
  - by rewrite <- Hjn, <- Hzn.
  - congruence.
  - rewrite Hpe, Hye. f_equal. lia.
  - rewrite Hqs, Hzs. f_equal. lia.
  - lia.
Qed.

Lemma plan_gaps_delimited_witness :
  exists p q,
    p ∈ plans_nested /\ q ∈ plans_nested
    /\ "Hillwinds Health" ∈ company_names (pr_company_ein p)
    /\ "Hillwinds Health" ∈ company_names (pr_company_ein q)
    /\ pr_plan_type p = pr_plan_type q
    /\ pr_end_date p = Some (days_from_civil 2023 4 1 - 1)
    /\ pr_start_date q = Some (days_from_civil 2023 5 31 + 1)
    /\ days_from_civil 2023 4 1 + 6 <= days_from_civil 2023 5 31.
Proof.
  apply (plan_gaps_delimited plans_nested
           (mkGapRow "Hillwinds Health" (days_from_civil 2023 4 1)
              (days_from_civil 2023 5 31) 60 (Some "Kaiser") (Some "Cigna"))).
  apply (bool_decide_unpack _). vm_compute. exact I.
Defined.

(** A gap from 2023-04-01 to 2023-05-31 is reported between the plans that
    end on 2023-03-31 and start on 2023-06-01, although the first plan of the
    table covers the whole year. *)
Lemma gap_reported_under_covering_plan :
  plan_gaps_query plans_nested
  = [mkGapRow "Hillwinds Health" (days_from_civil 2023 4 1)
       (days_from_civil 2023 5 31) 60 (Some "Kaiser") (Some "Cigna")]
  /\ pr_start_date (medical_plan "Aetna" (days_from_civil 2023 1 1)
                      (days_from_civil 2023 12 31))
     = Some (days_from_civil 2023 1 1)
  /\ days_from_civil 2023 1 1 <= days_from_civil 2023 4 1
  /\ days_from_civil 2023 5 31 <= days_from_civil 2023 12 31.
Proof. repeat split; vm_compute; try reflexivity; discriminate. Qed.

(** * The whole run: where the rows of the store come from *)

Lemma coerce_date_col_columns (st : DataFrame * list ValidationError)
    (col : string) :
  columns (coerce_date_col st col).1 = columns st.1.
Proof.
  destruct st as [df errs]. unfold coerce_date_col.
  destruct (has_column col df) eqn:Hc; [|done]. cbn [fst].
  destruct (bool_decide _); unfold dropna, filter_rows, set_col; cbn [columns];
    by rewrite Hc.
Qed.

(** Cleaning drops no column. *)
Lemma clean_data_keeps_columns (df : DataFrame) (c : string) :
  df_empty df = false -> c ∈ columns df -> c ∈ columns (clean_data df).1.1.
Proof.
  intros Hne Hc. rewrite (clean_data_stages df Hne). cbn [fst].
  unfold fillna, titled, assign_col. cbn [columns].
  assert (Hs : c ∈ columns (sorted df)).
  { unfold sorted, sort_values, dated, date_cols. cbn [columns foldl].
    rewrite !coerce_date_col_columns. cbn [fst].
    unfold valid_emails, filter_rows, deduplicated, drop_duplicates, with_row_id,
      set_col. cbn [columns].
    destruct (has_column "row_id" df); [done|]. apply elem_of_app. by left. }
  destruct (has_column "title" (sorted df)); [done|]. apply elem_of_app. by left.
Qed.

Lemma newly_ingested_ignores (src : Sources) (wm : Z) (keep : string -> Prop)
    (c : string) :
  ~ keep c -> ignores c (newly_ingested src wm keep).
Proof.
  intros Hc r v (r0 & t & Hin & Ht & Hwm & Hcells).
  exists r0, t. repeat split; try done.
  intros d Hd. rewrite cell_insert_ne; [by apply Hcells|]. by intros <-.
Qed.

Lemma not_passed_through (c : string) :
  bool_decide (c ∈ passed_through) = false -> ~ c ∈ passed_through.
Proof. by intros H%bool_decide_eq_false. Qed.

(** The rows the reader delivers are records of the employees file dated
    after the watermark. *)
Lemma ingested_rows_new (src : Sources) (wm : Z) (e p c : DataFrame) :
  ingest_data src wm = Some (e, p, c) ->
  all_rows (newly_ingested src wm (fun c => c ∈ passed_through)) e
  /\ forall d, d ∈ header (EMPLOYEES src) -> d ∈ columns e.
Proof.
  intros (_ & _ & He & _)%ingest_data_Some.
  apply filter_after_Some in He as ->. split.
  - intros ir [Hafter Hir]%elem_of_filter_rows.
    apply after_spec in Hafter as (t & Ht & Hwm).
    unfold read_csv_dates in Hir. destruct (forallb _ _).
    + unfold set_col, read_csv in Hir. cbn [body] in Hir.
      apply list_elem_of_fmap in Hir as (jr & -> & Hjr).
      apply elem_of_relabel in Hjr. cbn [snd] in *.
      rewrite cell_insert_eq in Ht.
      exists jr.2, t. repeat split; try done.
      intros d Hd. apply cell_insert_ne. intros <-.
      revert Hd. by apply not_passed_through.
    + unfold read_csv in Hir. cbn [body] in Hir. apply elem_of_relabel in Hir.
      exists ir.2, t. repeat split; try done. by rewrite Ht.
  - intros d Hd. unfold filter_rows, read_csv_dates. cbn [columns].
    destruct (forallb _ _); [|done].
    unfold set_col, read_csv, has_column. cbn [columns].
    destruct (bool_decide _); [done|]. apply elem_of_app. by left.
Qed.

(** The rows that leave the enrichment still are such records, on the
    passed-through columns of the file. *)
Lemma enriched_rows_new (src : Sources) (wm : Z) (e p c : DataFrame) :
  ingest_data src wm = Some (e, p, c) ->
  forall s, s ∈ map snd (body (enrich_data src (clean_data e).1.1).1) ->
    exists r0 t,
      r0 ∈ records (EMPLOYEES src)
      /\ to_datetime (cell r0 "start_date") = VTs t
      /\ wm < t
      /\ forall d, d ∈ passed_through -> d ∈ header (EMPLOYEES src) ->
           d ∈ columns (enrich_data src (clean_data e).1.1).1
           /\ cell s d = cell r0 d.
Proof.
  intros Hin. destruct (ingested_rows_new _ _ _ _ _ Hin) as [Hnew Hcols].
  assert (Hclean : all_rows (newly_ingested src wm (fun c => c ∈ passed_through))
                     (clean_data e).1.1).
  { apply all_rows_cleaned;
      try (apply newly_ingested_ignores; by apply not_passed_through).
    unfold with_row_id. apply all_rows_set_col; [|done].
    apply newly_ingested_ignores. by apply not_passed_through. }
  set (cleaned := (clean_data e).1.1) in *.
  destruct (df_empty cleaned) eqn:Hne.
  - (* nothing to enrich: the frame is returned as it is *)
    unfold enrich_data. rewrite Hne. cbn [fst].
    intros s (ir & -> & Hir)%list_elem_of_fmap.
    destruct (Hclean ir Hir) as (r0 & t & Hr0 & Ht & Hwm & Hcells).
    exists r0, t. repeat split; try done; [|by apply Hcells].
    assert (He : df_empty e = false).
    { destruct (df_empty e) eqn:He; [|done].
      unfold cleaned, clean_data in Hir. rewrite He in Hir.
      by apply elem_of_nil in Hir. }
    apply clean_data_keeps_columns; [done|]. by apply Hcols.
  - assert (He : df_empty e = false).
    { destruct (df_empty e) eqn:He; [|done].
      unfold cleaned, clean_data in Hne. by rewrite He in Hne. }
    destruct (enrich_data_body src cleaned Hne) as (cols & Hc & -> & ->).
    intros s (ir & -> & Hir)%list_elem_of_fmap.
    apply list_elem_of_lookup in Hir as [k Hk].
    rewrite list_lookup_imap in Hk.
    destruct (body cleaned !! k) as [jr|] eqn:Hjr; [|done].
    injection Hk as <-.
    assert (Hjr' : jr ∈ body cleaned) by (apply list_elem_of_lookup; eauto).
    destruct (Hclean jr Hjr') as (r0 & t & Hr0 & Ht & Hwm & Hcells).
    exists r0, t. repeat split; try done.
    + apply Hc. split.
      * revert H. unfold passed_through, FINAL_COLUMNS. rewrite !elem_of_cons.
        intros [->|[->|[->|[->|?%elem_of_nil]]]]; tauto.
      * left. apply clean_data_keeps_columns; [done|]. by apply Hcols.
    + destruct (enriched_row_cells src cleaned cols k jr Hc) as (_ & _ & _ & Hrest).
      rewrite Hrest; [by apply Hcells|..].
      * revert H. unfold passed_through, FINAL_COLUMNS. rewrite !elem_of_cons.
        intros [->|[->|[->|[->|?%elem_of_nil]]]]; tauto.
      * apply clean_data_keeps_columns; [done|]. by apply Hcols.
      * revert H. unfold passed_through, written_by_enrichment.
        rewrite !elem_of_cons, !elem_of_nil.
        intros [->|[->|[->|[->|[]]]]] [?|[?|[?|[]]]]; done.
Qed.

(** The store written by [save_outputs] holds rows of the old store and
    rows of the relation it is given, nothing else. *)
Lemma save_store_origin (clean_df : DataFrame) (file : option DataFrame)
    (store : DataFrame) (s : Row) :
  (save_store clean_df file).1 = Some store ->
  s ∈ map snd (body store) ->
  (exists old r, file = Some old /\ r ∈ map snd (body old)
                 /\ forall c, c ∈ columns old -> cell s c = cell r c)
  \/ (exists r, r ∈ map snd (body clean_df)
                /\ forall c, c ∈ columns clean_df -> cell s c = cell r c).
Proof.
  unfold save_store. destruct file as [existing_df|].
  - destruct (df_empty clean_df); cbn [negb fst]; intros [= <-] Hs.
    + left. exists existing_df, s. by repeat split.
    + unfold to_parquet, reset_index in Hs. cbn [body] in Hs.
      rewrite map_snd_relabel in Hs.
      apply merge_store_origin in Hs as [(r & Hr & Hc)|(r & Hr & Hc)].
      * left. by exists existing_df, r.
      * right. by exists r.
  - destruct (negb (df_empty clean_df)); cbn [fst]; intros [= <-] Hs;
      unfold to_parquet, reset_index in Hs; cbn [body] in Hs;
      rewrite map_snd_relabel in Hs; right; by exists s.
Qed.

(** X5.  An incremental run stores nothing old.  After a run, every row of the
    store either agrees with a row of the store the run found, on all the
    columns that store had, or carries, on the passed-through columns of
    the employees file ([person_id], [full_name], [email], [notes]), the
    cells of a record of that file whose start date is after the watermark
    the run began with. *)
Theorem run_etl_store_origin (src : Sources) (now : Z) (fs fs' : FS)
    (m : Metrics) (store : DataFrame) (s : Row) :
  run_etl src now fs = Some (fs', m) ->
  CLEAN_DATA fs' = Some store ->
  s ∈ map snd (body store) ->
  (exists old r, CLEAN_DATA fs = Some old /\ r ∈ map snd (body old)
                 /\ forall c, c ∈ columns old -> cell s c = cell r c)
  \/ newly_ingested src (get_high_water_mark fs)
       (fun c => c ∈ passed_through /\ c ∈ header (EMPLOYEES src)) s.
Proof.
  unfold run_etl. intros Hrun Hstore Hs.
  destruct (ingest_data src (get_high_water_mark fs)) as [[[e p] c]|] eqn:Hin;
    [|done].
  cbn [mbind option_bind] in Hrun.
  destruct (df_empty e && df_empty c && df_empty p).
  - injection Hrun as <- _. cbn [CLEAN_DATA] in Hstore.
    left. exists store, s. by repeat split.
  - pose proof (enriched_rows_new _ _ _ _ _ Hin) as Hnew.
    destruct (clean_data_runs src e); [|done]. cbn [negb] in Hrun.
    destruct (clean_data e) as [[clean_df errors_df] cm] eqn:Hclean.
    cbn [fst] in Hnew.
    destruct (enrich_data_runs clean_df); [|done]. cbn [negb] in Hrun.
    destruct (enrich_data src clean_df) as [enriched_df eins] eqn:Henrich.
    cbn [fst] in Hnew.
    unfold save_outputs in Hrun.
    destruct (save_store enriched_df (CLEAN_DATA fs)) as [file rows_out] eqn:Hsave.
    injection Hrun as <- _. cbn [update_high_water_mark CLEAN_DATA] in Hstore.
    subst file.
    assert (Hsave' : (save_store enriched_df (CLEAN_DATA fs)).1 = Some store)
      by (by rewrite Hsave).
    destruct (save_store_origin _ _ _ _ Hsave' Hs)
      as [(old & r & Hold & Hr & Hc)|(r & Hr & Hc)].
    + left. by exists old, r.
    + right. destruct (Hnew r Hr) as (r0 & t & Hr0 & Ht & Hwm & Hcells).
      exists r0, t. repeat split; try done.
      intros d [Hd1 Hd2]. destruct (Hcells d Hd1 Hd2) as [Hcol Hcell].
      by rewrite (Hc d Hcol).
Qed.

Lemma run_etl_store_origin_witness :
  exists fs' m store s,
    run_etl sample_sources (date_ns 2024 6 1) committed_2024 = Some (fs', m)
    /\ CLEAN_DATA fs' = Some store
    /\ s ∈ map snd (body store)
    /\ ((exists old r, CLEAN_DATA committed_2024 = Some old
                       /\ r ∈ map snd (body old)
                       /\ forall c, c ∈ columns old -> cell s c = cell r c)
        \/ newly_ingested sample_sources (get_high_water_mark committed_2024)
             (fun c => c ∈ passed_through /\ c ∈ header (EMPLOYEES sample_sources))
             s).
Proof.
  assert (Hlen : (0 <? length (stored_rows
                    (run_etl sample_sources (date_ns 2024 6 1) committed_2024)))%nat
                 = true) by (vm_compute; reflexivity).
  destruct (run_etl sample_sources (date_ns 2024 6 1) committed_2024)
    as [[fs' m]|] eqn:Hrun; [|discriminate Hlen].
  unfold stored_rows in Hlen.
  destruct (CLEAN_DATA fs') as [store|] eqn:Hstore; [|discriminate Hlen].
  destruct (nonempty_elem_of _ Hlen) as [s Hs].
  exists fs', m, store, s. split; [reflexivity|]. split; [exact Hstore|].
  split; [exact Hs|].
  exact (run_etl_store_origin sample_sources (date_ns 2024 6 1) committed_2024
           fs' m store s Hrun Hstore Hs).
Defined.

(** * The address pattern of [clean_data] *)

(** ** The matcher decides the words of an expression *)

Lemma matches_nil_nullable (r : regex) : matches r [] <-> nullable r = true.
Proof.
  split.
  - intros H. remember [] as w eqn:Hw.
    induction H as [|p a Hp|r s u v Hr IHr Hs IHs|r s u Hr IHr|r s u Hs IHs
                   |r|r u v Hr IHr Hs IHs]; simpl; try done.
    + apply app_eq_nil in Hw as [-> ->].
      by rewrite IHr, IHs.
    + by rewrite IHr.
    + rewrite IHs by done. apply orb_true_r.
  - induction r as [| |p|r IHr s IHs|r IHr s IHs|r IHr]; simpl; try done.
    + intros _. constructor.
    + intros [Hr Hs]%andb_true_iff.
      apply (matches_cat r s [] []); auto.
    + intros [Hr|Hs]%orb_true_iff; [apply matches_or_l|apply matches_or_r]; auto.
    + intros _. constructor.
Qed.

Lemma matches_smart_cat (r s : regex) (w : list ascii) :
  matches (cat r s) w <-> matches (Cat r s) w.
Proof.
  split.
  - destruct r, s; simpl; intros H; try done; try (by inversion H);
      by apply (matches_cat Empty _ [] w); [constructor|].
  - intros H. inversion H as [| |r' s' u v Hr Hs| | | |]; subst.
    destruct r, s; simpl; try (by inversion Hr); try (by inversion Hs);
      try (by constructor);
      by inversion Hr; subst.
Qed.

Lemma matches_smart_alt (r s : regex) (w : list ascii) :
  matches (alt r s) w <-> matches (Or r s) w.
Proof.
  split.
  - destruct r, s; simpl; intros H; try done;
      first [by apply matches_or_r | by apply matches_or_l].
  - intros H. inversion H; subst;
      destruct r, s; simpl; try done;
      first [by apply matches_or_l | by apply matches_or_r
            | match goal with H' : matches Never _ |- _ => inversion H' end].
Qed.

Lemma matches_many_cons_inv (r : regex) (a : ascii) (w : list ascii) :
  matches (Many r) (a :: w) ->
  exists u v, w = u ++ v /\ matches r (a :: u) /\ matches (Many r) v.
Proof.
  intros H. remember (Many r) as m eqn:Hm. remember (a :: w) as aw eqn:Haw.
  induction H as [| | | | | |r' u v Hr _ Hs IHs]; try done.
  injection Hm as ->. destruct u as [|b u].
  - simpl in Haw. by apply IHs.
  - simpl in Haw. injection Haw as -> <-. by exists u, v.
Qed.

Lemma matches_deriv (a : ascii) (r : regex) (w : list ascii) :
  matches (deriv a r) w <-> matches r (a :: w).
Proof.
  revert w. induction r as [| |p|r IHr s IHs|r IHr s IHs|r IHr]; intros w; simpl.
  - split; intros H; inversion H.
  - split; intros H; inversion H.
  - destruct (p a) eqn:Hp; split; intros H; inversion H; subst.
    + by constructor.
    + constructor.
    + congruence.
  - assert (Hcat : matches (Cat (deriv a r) s) w <->
                   exists u v, w = u ++ v /\ matches r (a :: u) /\ matches s v).
    { split.
      - intros H. inversion H; subst. eexists _, _. split; [done|].
        split; [by apply IHr|done].
      - intros (u & v & -> & Hr & Hs). constructor; [by apply IHr|done]. }
    destruct (nullable r) eqn:Hn.
    + rewrite matches_smart_alt. split.
      * intros H. inversion H; subst.
        -- match goal with H' : matches (cat _ _) _ |- _ =>
             apply matches_smart_cat, Hcat in H' as (u & v & -> & Hr & Hs) end.
           by apply (matches_cat r s (a :: u) v).
        -- apply (matches_cat r s [] (a :: w)); [by apply matches_nil_nullable|].
           by apply IHs.
      * intros H. inversion H as [| |r' s' u v Hr Hs| | | |]; subst.
        destruct u as [|b u]; simpl in *.
        -- subst. apply matches_or_r. by apply IHs.
        -- match goal with H' : _ :: _ = _ :: _ |- _ => injection H' as -> <- end.
           apply matches_or_l, matches_smart_cat, Hcat. by exists u, v.
    + rewrite matches_smart_cat, Hcat. split.
      * intros (u & v & -> & Hr & Hs). by apply (matches_cat r s (a :: u) v).
      * intros H. inversion H as [| |r' s' u v Hr Hs| | | |]; subst.
        destruct u as [|b u]; simpl in *.
        -- apply matches_nil_nullable in Hr. congruence.
        -- match goal with H' : _ :: _ = _ :: _ |- _ => injection H' as -> <- end.
           by exists u, v.
  - rewrite matches_smart_alt. split; intros H; inversion H; subst.
    + apply matches_or_l. by apply IHr.
    + apply matches_or_r. by apply IHs.
    + apply matches_or_l. by apply IHr.
    + apply matches_or_r. by apply IHs.
  - rewrite matches_smart_cat. split.
    + intros H. inversion H; subst.
      apply (matches_many_cons r (a :: _)); [by apply IHr|done].
    + intros (u & v & -> & Hr & Hs)%matches_many_cons_inv.
      constructor; [by apply IHr|done].
Qed.

Lemma re_fullmatch_matches (r : regex) (s : string) :
  re_fullmatch r s = true <-> matches r (list_ascii_of_string s).
Proof.
  revert r. induction s as [|a s IH]; intros r; simpl.
  - symmetry. apply matches_nil_nullable.
  - rewrite IH. apply matches_deriv.
Qed.

(** ** The words of the address pattern *)

Lemma matches_cat_iff (r s : regex) (w : list ascii) :
  matches (Cat r s) w <->
  exists u v, w = u ++ v /\ matches r u /\ matches s v.
Proof.
  split.
  - intros H. inversion H; subst. by eexists _, _.
  - intros (u & v & -> & Hr & Hs). by constructor.
Qed.

Lemma matches_class_iff (p : ascii -> bool) (w : list ascii) :
  matches (Class p) w <-> exists a, w = [a] /\ p a = true.
Proof.
  split.
  - intros H. inversion H; subst. by eexists.
  - intros (a & -> & Hp). by constructor.
Qed.

Lemma matches_char_iff (c : ascii) (w : list ascii) :
  matches (Class (Ascii.eqb c)) w <-> w = [c].
Proof.
  rewrite matches_class_iff. split.
  - intros (a & -> & Ha). apply Ascii.eqb_eq in Ha. by subst.
  - intros ->. exists c. split; [done|]. apply Ascii.eqb_refl.
Qed.

Lemma matches_many_class (p : ascii -> bool) (w : list ascii) :
  matches (Many (Class p)) w <-> forallb p w = true.
Proof.
  split.
  - intros H. remember (Many (Class p)) as m eqn:Hm.
    induction H as [| | | | | |r u v Hr _ Hs IHs]; try done.
    injection Hm as ->. inversion Hr; subst. simpl.
    apply andb_true_iff. split; [done|by apply IHs].
  - induction w as [|a w IH]; simpl; [constructor|].
    intros [Ha Hw]%andb_true_iff.
    apply (matches_many_cons (Class p) [a] w); [by constructor|by apply IH].
Qed.

Lemma matches_some1_class (p : ascii -> bool) (w : list ascii) :
  matches (Some1 (Class p)) w <-> w <> [] /\ forallb p w = true.
Proof.
  unfold Some1. rewrite matches_cat_iff. split.
  - intros (u & v & -> & (a & -> & Ha)%matches_class_iff & Hv%matches_many_class).
    split; [done|]. simpl. by rewrite Ha, Hv.
  - intros [Hne Hw]. destruct w as [|a w]; [done|]. simpl in Hw.
    apply andb_true_iff in Hw as [Ha Hw]. exists [a], w. split; [done|].
    split; [by constructor|by apply matches_many_class].
Qed.

Lemma matches_end_anchor (w : list ascii) :
  matches end_anchor w <-> w = [] \/ w = [newline].
Proof.
  unfold end_anchor. split.
  - intros H. inversion H as [| | |r s u Hu|r s u Hu| |]; subst.
    + inversion Hu. by left.
    + apply matches_char_iff in Hu. by right.
  - intros [->| ->]; [apply matches_or_l; constructor|].
    apply matches_or_r. by apply matches_char_iff.
Qed.

Lemma email_regex_words (w : list ascii) :
  matches email_regex w <-> address_shape w.
Proof.
  unfold email_regex, address_shape. split.
  - intros H.
    apply matches_cat_iff in H as (local & w1 & -> & [Hl1 Hl2]%matches_some1_class & H).
    apply matches_cat_iff in H as (c1 & w2 & -> & ->%matches_char_iff & H).
    apply matches_cat_iff in H as (domain & w3 & -> & [Hd1 Hd2]%matches_some1_class & H).
    apply matches_cat_iff in H as (c2 & w4 & -> & ->%matches_char_iff & H).
    apply matches_cat_iff in H as (c3 & w5 & -> & (t1 & -> & Ht1)%matches_class_iff & H).
    apply matches_cat_iff in H as (c4 & w6 & -> & (t2 & -> & Ht2)%matches_class_iff & H).
    apply matches_cat_iff in H as (tl & nl & -> & Htl%matches_many_class & Hnl%matches_end_anchor).
    exists local, domain, (t1 :: t2 :: tl), nl. simpl.
    rewrite Ht1, Ht2, Htl. repeat split; try done. lia.
  - intros (local & domain & tld & nl & -> & Hl1 & Hl2 & Hd1 & Hd2 & Hlen & Ht & Hnl).
    destruct tld as [|t1 [|t2 tl]]; simpl in Hlen; try lia.
    simpl in Ht. apply andb_true_iff in Ht as [Ht1 Ht].
    apply andb_true_iff in Ht as [Ht2 Htl].
    apply matches_cat_iff. exists local, ("@"%char :: domain ++ "."%char :: (t1 :: t2 :: tl) ++ nl).
    split; [done|]. split; [by apply matches_some1_class|].
    apply (matches_cat _ _ ["@"%char]); [by apply matches_char_iff|].
    apply matches_cat; [by apply matches_some1_class|].
    apply (matches_cat _ _ ["."%char]); [by apply matches_char_iff|].
    apply (matches_cat _ _ [t1]); [by constructor|].
    apply (matches_cat _ _ [t2]); [by constructor|].
    apply matches_cat; [by apply matches_many_class|by apply matches_end_anchor].
Qed.

(** X15.  The e-mail check of [clean_data], [str.match(email_regex, na=True)]:
    a cell passes exactly when it is not text, or its text is a local part
    of letters, digits and [._%+-], then ['@'], a domain of letters,
    digits, dots and hyphens, a dot and two letters or more -- followed by
    nothing, or by one newline, which [$] lets through. *)
Theorem str_match_email_accepts (v : value) :
  str_match_email v = true <->
  forall s, v = VStr s -> address_shape (list_ascii_of_string s).
Proof.
  destruct v as [|s|z|t]; simpl; try (split; [by intros _ s' [=]|done]).
  rewrite re_fullmatch_matches, email_regex_words. split.
  - by intros H s' [= <-].
  - intros H. by apply H.
Qed.

(** An address followed by a newline passes the check; an address without
    top-level domain does not. *)
Lemma str_match_email_examples :
  str_match_email (VStr (String.append "ann.lee@hillwinds.com" (String newline "")))
  = true
  /\ str_match_email (VStr "ann.lee@hillwinds") = false
  /\ str_match_email VNull = true.
Proof. repeat split; vm_compute; reflexivity. Qed.

(** * The counters of a run *)

(** ** [nulls_filled] *)

Lemma dated_no_title_entry (df : DataFrame) :
  entries_for "title" (dated df).2 = 0.
Proof.
  unfold dated, date_cols. cbn [foldl].
  set (st0 := (valid_emails df, _)).
  set (st1 := coerce_date_col st0 "start_date").
  set (st2 := coerce_date_col st1 "end_date").
  rewrite (proj2 (coerce_date_col_accounts st2 "last_updated")) by done.
  unfold st2. rewrite (proj2 (coerce_date_col_accounts st1 "end_date")) by done.
  unfold st1. rewrite (proj2 (coerce_date_col_accounts st0 "start_date")) by done.
  unfold st0. cbn [snd]. by apply entries_for_other.
Qed.

Lemma count_nulls_assign (rows : list (Z * Row)) (vals : list value) :
  Forall2 (fun ir v => isna v = true -> isna (cell ir.2 "title") = true)
          rows vals ->
  len (filter (fun ir : Z * Row => isna (cell ir.2 "title"))
         (zip_with (fun ir v => (ir.1, <["title" := v]> ir.2)) rows vals))
  <= len (filter (fun ir : Z * Row => isna (cell ir.2 "title")) rows).
Proof.
  induction 1 as [|ir v rows vals Hv _ IH]; [done|]. cbn [zip_with].
  rewrite !(len_filter_cons (fun ir : Z * Row => isna (cell ir.2 "title"))).
  cbn [snd]. rewrite cell_insert_eq.
  destruct (isna v); [rewrite Hv by done; lia|].
  destruct (isna (cell ir.2 "title")); lia.
Qed.

(** X14.  The counter [nulls_filled] and the ledger account for the missing
    titles: the rows that reach the title step without a title are those
    counted as filled and those entered in the ledger on the field
    [title].  When every input row has a [person_id] the counter is not
    negative. *)
Theorem clean_data_nulls_filled (df : DataFrame) :
  df_empty df = false ->
  cm_nulls_filled (clean_data df).2 + entries_for "title" (clean_data df).1.2
  = count_nulls "title" (sorted df)
  /\ (all_rows (fun r => cell r "person_id" ≠ VNull) df ->
      0 <= cm_nulls_filled (clean_data df).2).
Proof.
  intros Hne. rewrite (clean_data_stages df Hne).
  cbn [fst snd cm_nulls_filled].
  rewrite entries_for_app, dated_no_title_entry, (entries_for_same "title") by done.
  fold (count_nulls "title" (titled df)). split; [lia|].
  intros Hpid.
  assert (Hs : all_rows (fun r => cell r "person_id" ≠ VNull) (sorted df)).
  { apply all_rows_sorted;
      try (intros r v Hr; by rewrite cell_insert_ne by done).
    unfold with_row_id. apply all_rows_set_col; [|done].
    intros r v Hr. by rewrite cell_insert_ne by done. }
  enough (count_nulls "title" (titled df) <= count_nulls "title" (sorted df)) by lia.
  unfold count_nulls, titled, assign_col. cbn [body].
  apply count_nulls_assign.
  apply Forall2_same_length_lookup_2.
  { unfold groupby_transform. by rewrite length_imap. }
  intros i ir v Hir Hv.
  destruct (carried_title _ _ _ Hir) as (v' & Hv' & Hkeep & _).
  rewrite Hv in Hv'. injection Hv' as <-.
  assert (Hin : ir ∈ body (sorted df)) by (apply list_elem_of_lookup; eauto).
  specialize (Hkeep (Hs ir Hin)). unfold keeps in Hkeep.
  intros Hna. destruct (cell ir.2 "title") as [|s|z|t] eqn:Ht; [done|..];
    rewrite Hkeep in Hna by done; done.
Qed.

Lemma clean_data_nulls_filled_witness :
  df_empty new_in_2024 = false
  /\ cm_nulls_filled (clean_data new_in_2024).2
     + entries_for "title" (clean_data new_in_2024).1.2
     = count_nulls "title" (sorted new_in_2024).
Proof.
  split; [reflexivity|].
  apply (clean_data_nulls_filled new_in_2024). reflexivity.
Defined.

(** ** [rows_out] *)

Lemma df_empty_true_body (df : DataFrame) :
  columns df <> [] -> df_empty df = true -> body df = [].
Proof.
  unfold df_empty. destruct (columns df); [done|]. by destruct (body df).
Qed.

(** A frame that leaves the cleaning and the enrichment is empty only when
    it has no row. *)
Lemma enriched_empty_body (src : Sources) (e : DataFrame) :
  df_empty (enrich_data src (clean_data e).1.1).1 = true ->
  body (enrich_data src (clean_data e).1.1).1 = [].
Proof.
  assert (Hclean : df_empty (clean_data e).1.1 = true -> body (clean_data e).1.1 = []).
  { destruct (df_empty e) eqn:He.
    - unfold clean_data. by rewrite He.
    - apply df_empty_true_body. intros Hnil.
      assert (Hcol : columns e <> []).
      { intros Hc. unfold df_empty in He. by rewrite Hc in He. }
      destruct (columns e) as [|c cs] eqn:Hc; [done|].
      assert (Hin : c ∈ columns (clean_data e).1.1).
      { apply clean_data_keeps_columns; [done|]. rewrite Hc. left. }
      rewrite Hnil in Hin. by apply elem_of_nil in Hin. }
  destruct (df_empty (clean_data e).1.1) eqn:Hne.
  - unfold enrich_data. rewrite Hne. cbn [fst]. intros _. by apply Hclean.
  - destruct (enrich_data_body src _ Hne) as (cols & Hcols & Hc & Hb).
    intros Hemp. apply df_empty_true_body; [|done].
    rewrite Hc. intros Hnil.
    assert (Hin : "company_ein" ∈ cols).
    { apply Hcols. split; [|right; left].
      apply (bool_decide_unpack _). vm_compute. exact I. }
    rewrite Hnil in Hin. by apply elem_of_nil in Hin.
Qed.

(** X6.  After a run that goes past the no-data exit, [rows_out] is the number
    of rows of the store. *)
Theorem run_etl_rows_out (src : Sources) (now : Z) (fs fs' : FS) (m : Metrics)
    (e p c : DataFrame) :
  ingest_data src (get_high_water_mark fs) = Some (e, p, c) ->
  df_empty e && df_empty c && df_empty p = false ->
  run_etl src now fs = Some (fs', m) ->
  exists store, CLEAN_DATA fs' = Some store /\ rows_out m = len (body store).
Proof.
  intros Hin Hne. unfold run_etl. rewrite Hin. simpl. rewrite Hne.
  pose proof (enriched_empty_body src e) as Hemp.
  destruct (clean_data_runs src e); [|done]. cbn [negb].
  destruct (clean_data e) as [[clean_df errors_df] cm].
  cbn [fst] in Hemp.
  destruct (enrich_data_runs clean_df); [|done]. cbn [negb].
  destruct (enrich_data src clean_df) as [enriched_df eins].
  cbn [fst] in Hemp.
  unfold save_outputs, save_store.
  assert (Hlen : forall df, len (body (to_parquet df)) = len (body df)).
  { intros df. unfold to_parquet, reset_index, len. cbn [body].
    by rewrite length_relabel, length_map. }
  destruct (CLEAN_DATA fs) as [existing_df|];
    destruct (df_empty enriched_df) eqn:Hd; cbn [negb];
    intros [= <- <-]; cbn [update_high_water_mark CLEAN_DATA rows_out];
    eexists; (split; [reflexivity|]); rewrite ?Hlen; try done.
  by rewrite (Hemp eq_refl).
Qed.

Lemma run_etl_rows_out_witness :
  exists fs' m store,
    run_etl sample_sources (date_ns 2024 6 1) committed_2024 = Some (fs', m)
    /\ CLEAN_DATA fs' = Some store /\ rows_out m = len (body store).
Proof.
  destruct (run_etl sample_sources (date_ns 2024 6 1) committed_2024)
    as [[fs' m]|] eqn:Hrun; [|vm_compute in Hrun; discriminate].
  destruct (run_etl_rows_out sample_sources (date_ns 2024 6 1) committed_2024 fs' m
              new_in_2024 (mkFrame plan_header [(0, old_plan)])
              (mkFrame ["company_ein"; "service_date"; "amount"] []))
    as (store & H1 & H2).
  - vm_compute. reflexivity.
  - reflexivity.
  - exact Hrun.
  - exists fs', m, store. by repeat split.
Defined.
